(** * Stefan's tiny BASIC interpreter (basic.c): a shallow embedding

    The interpreter is a stack machine over global registers and one
    byte array.  The embedding threads one record [state] holding those
    globals through every function; a C function [void f()] becomes
    [f : state -> state], and a function with a result returns a pair.

    Integer model.  The definitions follow the build with
    [typedef int number_t] on a host where [char] is a signed byte,
    [short] has 16 bits, [int] 32 bits and [long] 64 bits, and
    [address_t] is [unsigned short].  A value of a C integer type is a
    [Z]; every assignment to a narrower variable is written out as the
    wrap-around of that type ([to_addr], [to_num], [to_schar], ...).

    Memory model.  [mem] is a list of signed bytes.  An access outside
    the array is undefined in C; here a read outside yields 0 and a
    write outside changes nothing, and the theorems that depend on an
    access say that it is inside.

    Undefined behaviour.  Printing a message whose code is outside the
    catalogue reads through a wild or null pointer; the state has a
    flag [ub] that is set when this happens (see [printmessage]).

    Build.  The file is read with ARDUINOEEPROM defined, as the source
    has it; the EEPROM is a device of any size, and a host without one
    is the instance with the empty device.  No display driver, no SD
    card and no printer are configured, as in the source. *)

From Stdlib Require Import String Ascii ZArith List Lia Bool.
Import ListNotations.
Local Open Scope Z_scope.

(** ** Machine integers *)

Definition to_uchar (v : Z) : Z := v mod 256.
Definition to_schar (v : Z) : Z := (v + 128) mod 256 - 128.
Definition to_addr (v : Z) : Z := v mod 65536.
Definition to_short (v : Z) : Z := (v + 32768) mod 65536 - 32768.
Definition to_num (v : Z) : Z := (v + 2147483648) mod 4294967296 - 2147483648.

Definition numsize : Z := 4.
Definition addrsize : Z := 2.
Definition eheadersize : Z := 3.
Definition strindexsize : Z := 2.
Definition maxnum : Z := 2147483647.
Definition maxaddr : Z := 65535.

(** ** Buffer sizes *)

Definition BUFSIZE : Z := 92.
Definition SBUFSIZE : Z := 32.
Definition VARSIZE : Z := 26.
Definition STACKSIZE : Z := 15.
Definition GOSUBDEPTH : Z := 4.
Definition FORDEPTH : Z := 4.

(** ** Tokens *)

Definition EOL : Z := 0.
Definition NUMBER : Z := -127.
Definition LINENUMBER : Z := -126.
Definition STRING : Z := -125.
Definition VARIABLE : Z := -124.
Definition STRINGVAR : Z := -123.
Definition ARRAYVAR : Z := -122.
Definition GREATEREQUAL : Z := -121.
Definition LESSEREQUAL : Z := -120.
Definition NOTEQUAL : Z := -119.
Definition TPRINT : Z := -118.
Definition TLET : Z := -117.
Definition TINPUT : Z := -116.
Definition TGOTO : Z := -115.
Definition TGOSUB : Z := -114.
Definition TRETURN : Z := -113.
Definition TIF : Z := -112.
Definition TFOR : Z := -111.
Definition TTO : Z := -110.
Definition TSTEP : Z := -109.
Definition TNEXT : Z := -108.
Definition TSTOP : Z := -107.
Definition TLIST : Z := -106.
Definition TNEW : Z := -105.
Definition TRUN : Z := -104.
Definition TABS : Z := -103.
Definition TRND : Z := -102.
Definition TSIZE : Z := -101.
Definition TREM : Z := -100.
Definition TNOT : Z := -99.
Definition TAND : Z := -98.
Definition TOR : Z := -97.
Definition TLEN : Z := -96.
Definition TSGN : Z := -95.
Definition TPEEK : Z := -94.
Definition TDIM : Z := -93.
Definition TCLR : Z := -92.
Definition TLOMEM : Z := -91.
Definition THIMEM : Z := -90.
Definition TTAB : Z := -89.
Definition TTHEN : Z := -88.
Definition TEND : Z := -87.
Definition TPOKE : Z := -86.
Definition TCONT : Z := -85.
Definition TSQR : Z := -84.
Definition TFRE : Z := -83.
Definition TDUMP : Z := -82.
Definition TBREAK : Z := -81.
Definition TSAVE : Z := -80.
Definition TLOAD : Z := -79.
Definition TGET : Z := -78.
Definition TPUT : Z := -77.
Definition TSET : Z := -76.
Definition TCLS : Z := -75.
Definition TPINM : Z := -74.
Definition TDWRITE : Z := -73.
Definition TDREAD : Z := -72.
Definition TAWRITE : Z := -71.
Definition TAREAD : Z := -70.
Definition TDELAY : Z := -69.
Definition TMILLIS : Z := -68.
Definition TTONE : Z := -67.
Definition TPULSEIN : Z := -66.
Definition TAZERO : Z := -65.
Definition TCATALOG : Z := -64.
Definition TDELETE : Z := -63.
Definition TOPEN : Z := -62.
Definition TCLOSE : Z := -61.
Definition TUSR : Z := -60.
Definition TCALL : Z := -59.
Definition TERROR : Z := -3.
Definition UNKNOWN : Z := -2.
Definition NEWLINE : Z := -1.

Definition NKEYWORDS : Z := 3 + 19 + 14 + 11 + 10 + 4 + 2.
Definition BASEKEYWORD : Z := -121.

(** ** Interpreter states and streams *)

Definition SINT : Z := 0.
Definition SRUN : Z := 1.
Definition SERUN : Z := 2.
Definition BREAKCHAR : Z := 35.

Definition OSERIAL : Z := 1.
Definition ODSP : Z := 2.
Definition OPRT : Z := 4.
Definition OFILE : Z := 16.
Definition ISERIAL : Z := 1.
Definition IKEYBOARD : Z := 2.
Definition IFILE : Z := 16.

(** ** Messages and errors *)

Definition MFILE : Z := 0.
Definition MPROMPT : Z := 1.
Definition MGREET : Z := 2.
Definition EGENERAL : Z := 3.
Definition EUNKNOWN : Z := 4.
Definition ENUMBER : Z := 5.
Definition EDIVIDE : Z := 6.
Definition ELINE : Z := 7.
Definition ERETURN : Z := 8.
Definition ENEXT : Z := 9.
Definition EGOSUB : Z := 10.
Definition EFOR : Z := 11.
Definition EOUTOFMEMORY : Z := 12.
Definition ESTACK : Z := 13.
Definition EDIM : Z := 14.
Definition ERANGE : Z := 15.
Definition ESTRING : Z := 16.
Definition EVARIABLE : Z := 17.
Definition EFILE : Z := 18.
Definition EFUN : Z := 19.
Definition EARGS : Z := 20.
Definition EEEPROM : Z := 21.
Definition ESDCARD : Z := 22.

(** Character codes of a string literal of the source. *)
Definition codes (s : string) : list Z :=
  map (fun a => Z.of_N (N_of_ascii a)) (list_ascii_of_string s).

(** ** Pointers and FOR records *)

(** [char *ir, *ir2] point into the BASIC memory, into the input buffer
    or at a keyword. *)
Inductive ptr : Type :=
  | Pnull : ptr
  | Pmem : Z -> ptr
  | Pibuf : Z -> ptr
  | Pkeyword : Z -> ptr.

(** One element of [forstack]. *)
Record forrec : Type := mkfor {
  varx : Z;
  vary : Z;
  for_here : Z;
  for_to : Z;
  for_step : Z
}.

(** ** The global registers *)

Record state : Type := mkstate {
  mem : list Z;  (* the BASIC memory, signed bytes *)
  memsize : Z;  (* index of the last byte of mem *)
  himem : Z;  (* first free byte below the heap *)
  top : Z;  (* first free byte above the program *)
  nvars : Z;  (* number of heap objects *)
  eeprom : list Z;  (* the EEPROM device, empty on hosts without one *)
  here : Z;  (* program cursor *)
  token : Z;  (* current token *)
  x : Z;  (* accumulator x *)
  y : Z;  (* accumulator y *)
  xc : Z;  (* name register *)
  yc : Z;  (* name register *)
  z : Z;  (* the mixed accumulator, as its int view z.i *)
  ir : ptr;  (* index register *)
  ir2 : ptr;  (* index register *)
  st : Z;  (* interpreter state *)
  er : Z;  (* error status *)
  ert : Z;  (* trappable error status *)
  stack : list Z;  (* evaluation stack, top first; sp is its length *)
  forstack : list forrec;  (* FOR stack, top first; forsp is its length *)
  fnc : Z;  (* FOR nesting counter of findnext *)
  gosubstack : list Z;  (* GOSUB stack, top first *)
  vars : list Z;  (* the static variables A..Z *)
  rd : Z;  (* random number state *)
  id : Z;  (* input stream *)
  od : Z;  (* output stream *)
  idd : Z;  (* default input stream *)
  odd : Z;  (* default output stream *)
  form : Z;  (* number format width *)
  out : list Z;  (* characters written to the serial console *)
  ofd : option (list Z);  (* the output file, when one is open *)
  input : list Z;  (* characters waiting on the console *)
  ifd : option (list Z);  (* the rest of the input file, when one is open *)
  ibuffer : list Z;  (* input buffer *)
  bi : Z;  (* cursor into ibuffer *)
  ub : bool  (* set once a message outside the catalogue is printed *)
}.

Definition set_mem (v : list Z) (s : state) : state :=
  mkstate v (memsize s) (himem s) (top s) (nvars s) (eeprom s) (here s)
    (token s) (x s) (y s) (xc s) (yc s) (z s) (ir s) (ir2 s) (st s) (er s)
    (ert s) (stack s) (forstack s) (fnc s) (gosubstack s) (vars s) (rd s)
    (id s) (od s) (idd s) (odd s) (form s) (out s) (ofd s) (input s) (ifd s)
    (ibuffer s) (bi s) (ub s).

Definition set_memsize (v : Z) (s : state) : state :=
  mkstate (mem s) v (himem s) (top s) (nvars s) (eeprom s) (here s)
    (token s) (x s) (y s) (xc s) (yc s) (z s) (ir s) (ir2 s) (st s) (er s)
    (ert s) (stack s) (forstack s) (fnc s) (gosubstack s) (vars s) (rd s)
    (id s) (od s) (idd s) (odd s) (form s) (out s) (ofd s) (input s) (ifd s)
    (ibuffer s) (bi s) (ub s).

Definition set_himem (v : Z) (s : state) : state :=
  mkstate (mem s) (memsize s) v (top s) (nvars s) (eeprom s) (here s)
    (token s) (x s) (y s) (xc s) (yc s) (z s) (ir s) (ir2 s) (st s) (er s)
    (ert s) (stack s) (forstack s) (fnc s) (gosubstack s) (vars s) (rd s)
    (id s) (od s) (idd s) (odd s) (form s) (out s) (ofd s) (input s) (ifd s)
    (ibuffer s) (bi s) (ub s).

Definition set_top (v : Z) (s : state) : state :=
  mkstate (mem s) (memsize s) (himem s) v (nvars s) (eeprom s) (here s)
    (token s) (x s) (y s) (xc s) (yc s) (z s) (ir s) (ir2 s) (st s) (er s)
    (ert s) (stack s) (forstack s) (fnc s) (gosubstack s) (vars s) (rd s)
    (id s) (od s) (idd s) (odd s) (form s) (out s) (ofd s) (input s) (ifd s)
    (ibuffer s) (bi s) (ub s).

Definition set_nvars (v : Z) (s : state) : state :=
  mkstate (mem s) (memsize s) (himem s) (top s) v (eeprom s) (here s)
    (token s) (x s) (y s) (xc s) (yc s) (z s) (ir s) (ir2 s) (st s) (er s)
    (ert s) (stack s) (forstack s) (fnc s) (gosubstack s) (vars s) (rd s)
    (id s) (od s) (idd s) (odd s) (form s) (out s) (ofd s) (input s) (ifd s)
    (ibuffer s) (bi s) (ub s).

Definition set_eeprom (v : list Z) (s : state) : state :=
  mkstate (mem s) (memsize s) (himem s) (top s) (nvars s) v (here s)
    (token s) (x s) (y s) (xc s) (yc s) (z s) (ir s) (ir2 s) (st s) (er s)
    (ert s) (stack s) (forstack s) (fnc s) (gosubstack s) (vars s) (rd s)
    (id s) (od s) (idd s) (odd s) (form s) (out s) (ofd s) (input s) (ifd s)
    (ibuffer s) (bi s) (ub s).

Definition set_here (v : Z) (s : state) : state :=
  mkstate (mem s) (memsize s) (himem s) (top s) (nvars s) (eeprom s) v
    (token s) (x s) (y s) (xc s) (yc s) (z s) (ir s) (ir2 s) (st s) (er s)
    (ert s) (stack s) (forstack s) (fnc s) (gosubstack s) (vars s) (rd s)
    (id s) (od s) (idd s) (odd s) (form s) (out s) (ofd s) (input s) (ifd s)
    (ibuffer s) (bi s) (ub s).

Definition set_token (v : Z) (s : state) : state :=
  mkstate (mem s) (memsize s) (himem s) (top s) (nvars s) (eeprom s)
    (here s) v (x s) (y s) (xc s) (yc s) (z s) (ir s) (ir2 s) (st s) (er s)
    (ert s) (stack s) (forstack s) (fnc s) (gosubstack s) (vars s) (rd s)
    (id s) (od s) (idd s) (odd s) (form s) (out s) (ofd s) (input s) (ifd s)
    (ibuffer s) (bi s) (ub s).

Definition set_x (v : Z) (s : state) : state :=
  mkstate (mem s) (memsize s) (himem s) (top s) (nvars s) (eeprom s)
    (here s) (token s) v (y s) (xc s) (yc s) (z s) (ir s) (ir2 s) (st s)
    (er s) (ert s) (stack s) (forstack s) (fnc s) (gosubstack s) (vars s)
    (rd s) (id s) (od s) (idd s) (odd s) (form s) (out s) (ofd s) (input s)
    (ifd s) (ibuffer s) (bi s) (ub s).

Definition set_y (v : Z) (s : state) : state :=
  mkstate (mem s) (memsize s) (himem s) (top s) (nvars s) (eeprom s)
    (here s) (token s) (x s) v (xc s) (yc s) (z s) (ir s) (ir2 s) (st s)
    (er s) (ert s) (stack s) (forstack s) (fnc s) (gosubstack s) (vars s)
    (rd s) (id s) (od s) (idd s) (odd s) (form s) (out s) (ofd s) (input s)
    (ifd s) (ibuffer s) (bi s) (ub s).

Definition set_xc (v : Z) (s : state) : state :=
  mkstate (mem s) (memsize s) (himem s) (top s) (nvars s) (eeprom s)
    (here s) (token s) (x s) (y s) v (yc s) (z s) (ir s) (ir2 s) (st s)
    (er s) (ert s) (stack s) (forstack s) (fnc s) (gosubstack s) (vars s)
    (rd s) (id s) (od s) (idd s) (odd s) (form s) (out s) (ofd s) (input s)
    (ifd s) (ibuffer s) (bi s) (ub s).

Definition set_yc (v : Z) (s : state) : state :=
  mkstate (mem s) (memsize s) (himem s) (top s) (nvars s) (eeprom s)
    (here s) (token s) (x s) (y s) (xc s) v (z s) (ir s) (ir2 s) (st s)
    (er s) (ert s) (stack s) (forstack s) (fnc s) (gosubstack s) (vars s)
    (rd s) (id s) (od s) (idd s) (odd s) (form s) (out s) (ofd s) (input s)
    (ifd s) (ibuffer s) (bi s) (ub s).

Definition set_z (v : Z) (s : state) : state :=
  mkstate (mem s) (memsize s) (himem s) (top s) (nvars s) (eeprom s)
    (here s) (token s) (x s) (y s) (xc s) (yc s) v (ir s) (ir2 s) (st s)
    (er s) (ert s) (stack s) (forstack s) (fnc s) (gosubstack s) (vars s)
    (rd s) (id s) (od s) (idd s) (odd s) (form s) (out s) (ofd s) (input s)
    (ifd s) (ibuffer s) (bi s) (ub s).

Definition set_ir (v : ptr) (s : state) : state :=
  mkstate (mem s) (memsize s) (himem s) (top s) (nvars s) (eeprom s)
    (here s) (token s) (x s) (y s) (xc s) (yc s) (z s) v (ir2 s) (st s)
    (er s) (ert s) (stack s) (forstack s) (fnc s) (gosubstack s) (vars s)
    (rd s) (id s) (od s) (idd s) (odd s) (form s) (out s) (ofd s) (input s)
    (ifd s) (ibuffer s) (bi s) (ub s).

Definition set_ir2 (v : ptr) (s : state) : state :=
  mkstate (mem s) (memsize s) (himem s) (top s) (nvars s) (eeprom s)
    (here s) (token s) (x s) (y s) (xc s) (yc s) (z s) (ir s) v (st s)
    (er s) (ert s) (stack s) (forstack s) (fnc s) (gosubstack s) (vars s)
    (rd s) (id s) (od s) (idd s) (odd s) (form s) (out s) (ofd s) (input s)
    (ifd s) (ibuffer s) (bi s) (ub s).

Definition set_st (v : Z) (s : state) : state :=
  mkstate (mem s) (memsize s) (himem s) (top s) (nvars s) (eeprom s)
    (here s) (token s) (x s) (y s) (xc s) (yc s) (z s) (ir s) (ir2 s) v
    (er s) (ert s) (stack s) (forstack s) (fnc s) (gosubstack s) (vars s)
    (rd s) (id s) (od s) (idd s) (odd s) (form s) (out s) (ofd s) (input s)
    (ifd s) (ibuffer s) (bi s) (ub s).

Definition set_er (v : Z) (s : state) : state :=
  mkstate (mem s) (memsize s) (himem s) (top s) (nvars s) (eeprom s)
    (here s) (token s) (x s) (y s) (xc s) (yc s) (z s) (ir s) (ir2 s) (st s)
    v (ert s) (stack s) (forstack s) (fnc s) (gosubstack s) (vars s) (rd s)
    (id s) (od s) (idd s) (odd s) (form s) (out s) (ofd s) (input s) (ifd s)
    (ibuffer s) (bi s) (ub s).

Definition set_ert (v : Z) (s : state) : state :=
  mkstate (mem s) (memsize s) (himem s) (top s) (nvars s) (eeprom s)
    (here s) (token s) (x s) (y s) (xc s) (yc s) (z s) (ir s) (ir2 s) (st s)
    (er s) v (stack s) (forstack s) (fnc s) (gosubstack s) (vars s) (rd s)
    (id s) (od s) (idd s) (odd s) (form s) (out s) (ofd s) (input s) (ifd s)
    (ibuffer s) (bi s) (ub s).

Definition set_stack (v : list Z) (s : state) : state :=
  mkstate (mem s) (memsize s) (himem s) (top s) (nvars s) (eeprom s)
    (here s) (token s) (x s) (y s) (xc s) (yc s) (z s) (ir s) (ir2 s) (st s)
    (er s) (ert s) v (forstack s) (fnc s) (gosubstack s) (vars s) (rd s)
    (id s) (od s) (idd s) (odd s) (form s) (out s) (ofd s) (input s) (ifd s)
    (ibuffer s) (bi s) (ub s).

Definition set_forstack (v : list forrec) (s : state) : state :=
  mkstate (mem s) (memsize s) (himem s) (top s) (nvars s) (eeprom s)
    (here s) (token s) (x s) (y s) (xc s) (yc s) (z s) (ir s) (ir2 s) (st s)
    (er s) (ert s) (stack s) v (fnc s) (gosubstack s) (vars s) (rd s) (id s)
    (od s) (idd s) (odd s) (form s) (out s) (ofd s) (input s) (ifd s)
    (ibuffer s) (bi s) (ub s).

Definition set_fnc (v : Z) (s : state) : state :=
  mkstate (mem s) (memsize s) (himem s) (top s) (nvars s) (eeprom s)
    (here s) (token s) (x s) (y s) (xc s) (yc s) (z s) (ir s) (ir2 s) (st s)
    (er s) (ert s) (stack s) (forstack s) v (gosubstack s) (vars s) (rd s)
    (id s) (od s) (idd s) (odd s) (form s) (out s) (ofd s) (input s) (ifd s)
    (ibuffer s) (bi s) (ub s).

Definition set_gosubstack (v : list Z) (s : state) : state :=
  mkstate (mem s) (memsize s) (himem s) (top s) (nvars s) (eeprom s)
    (here s) (token s) (x s) (y s) (xc s) (yc s) (z s) (ir s) (ir2 s) (st s)
    (er s) (ert s) (stack s) (forstack s) (fnc s) v (vars s) (rd s) (id s)
    (od s) (idd s) (odd s) (form s) (out s) (ofd s) (input s) (ifd s)
    (ibuffer s) (bi s) (ub s).

Definition set_vars (v : list Z) (s : state) : state :=
  mkstate (mem s) (memsize s) (himem s) (top s) (nvars s) (eeprom s)
    (here s) (token s) (x s) (y s) (xc s) (yc s) (z s) (ir s) (ir2 s) (st s)
    (er s) (ert s) (stack s) (forstack s) (fnc s) (gosubstack s) v (rd s)
    (id s) (od s) (idd s) (odd s) (form s) (out s) (ofd s) (input s) (ifd s)
    (ibuffer s) (bi s) (ub s).

Definition set_rd (v : Z) (s : state) : state :=
  mkstate (mem s) (memsize s) (himem s) (top s) (nvars s) (eeprom s)
    (here s) (token s) (x s) (y s) (xc s) (yc s) (z s) (ir s) (ir2 s) (st s)
    (er s) (ert s) (stack s) (forstack s) (fnc s) (gosubstack s) (vars s) v
    (id s) (od s) (idd s) (odd s) (form s) (out s) (ofd s) (input s) (ifd s)
    (ibuffer s) (bi s) (ub s).

Definition set_id (v : Z) (s : state) : state :=
  mkstate (mem s) (memsize s) (himem s) (top s) (nvars s) (eeprom s)
    (here s) (token s) (x s) (y s) (xc s) (yc s) (z s) (ir s) (ir2 s) (st s)
    (er s) (ert s) (stack s) (forstack s) (fnc s) (gosubstack s) (vars s)
    (rd s) v (od s) (idd s) (odd s) (form s) (out s) (ofd s) (input s)
    (ifd s) (ibuffer s) (bi s) (ub s).

Definition set_od (v : Z) (s : state) : state :=
  mkstate (mem s) (memsize s) (himem s) (top s) (nvars s) (eeprom s)
    (here s) (token s) (x s) (y s) (xc s) (yc s) (z s) (ir s) (ir2 s) (st s)
    (er s) (ert s) (stack s) (forstack s) (fnc s) (gosubstack s) (vars s)
    (rd s) (id s) v (idd s) (odd s) (form s) (out s) (ofd s) (input s)
    (ifd s) (ibuffer s) (bi s) (ub s).

Definition set_idd (v : Z) (s : state) : state :=
  mkstate (mem s) (memsize s) (himem s) (top s) (nvars s) (eeprom s)
    (here s) (token s) (x s) (y s) (xc s) (yc s) (z s) (ir s) (ir2 s) (st s)
    (er s) (ert s) (stack s) (forstack s) (fnc s) (gosubstack s) (vars s)
    (rd s) (id s) (od s) v (odd s) (form s) (out s) (ofd s) (input s)
    (ifd s) (ibuffer s) (bi s) (ub s).

Definition set_odd (v : Z) (s : state) : state :=
  mkstate (mem s) (memsize s) (himem s) (top s) (nvars s) (eeprom s)
    (here s) (token s) (x s) (y s) (xc s) (yc s) (z s) (ir s) (ir2 s) (st s)
    (er s) (ert s) (stack s) (forstack s) (fnc s) (gosubstack s) (vars s)
    (rd s) (id s) (od s) (idd s) v (form s) (out s) (ofd s) (input s)
    (ifd s) (ibuffer s) (bi s) (ub s).

Definition set_form (v : Z) (s : state) : state :=
  mkstate (mem s) (memsize s) (himem s) (top s) (nvars s) (eeprom s)
    (here s) (token s) (x s) (y s) (xc s) (yc s) (z s) (ir s) (ir2 s) (st s)
    (er s) (ert s) (stack s) (forstack s) (fnc s) (gosubstack s) (vars s)
    (rd s) (id s) (od s) (idd s) (odd s) v (out s) (ofd s) (input s) (ifd s)
    (ibuffer s) (bi s) (ub s).

Definition set_out (v : list Z) (s : state) : state :=
  mkstate (mem s) (memsize s) (himem s) (top s) (nvars s) (eeprom s)
    (here s) (token s) (x s) (y s) (xc s) (yc s) (z s) (ir s) (ir2 s) (st s)
    (er s) (ert s) (stack s) (forstack s) (fnc s) (gosubstack s) (vars s)
    (rd s) (id s) (od s) (idd s) (odd s) (form s) v (ofd s) (input s)
    (ifd s) (ibuffer s) (bi s) (ub s).

Definition set_ofd (v : option (list Z)) (s : state) : state :=
  mkstate (mem s) (memsize s) (himem s) (top s) (nvars s) (eeprom s)
    (here s) (token s) (x s) (y s) (xc s) (yc s) (z s) (ir s) (ir2 s) (st s)
    (er s) (ert s) (stack s) (forstack s) (fnc s) (gosubstack s) (vars s)
    (rd s) (id s) (od s) (idd s) (odd s) (form s) (out s) v (input s)
    (ifd s) (ibuffer s) (bi s) (ub s).

Definition set_input (v : list Z) (s : state) : state :=
  mkstate (mem s) (memsize s) (himem s) (top s) (nvars s) (eeprom s)
    (here s) (token s) (x s) (y s) (xc s) (yc s) (z s) (ir s) (ir2 s) (st s)
    (er s) (ert s) (stack s) (forstack s) (fnc s) (gosubstack s) (vars s)
    (rd s) (id s) (od s) (idd s) (odd s) (form s) (out s) (ofd s) v (ifd s)
    (ibuffer s) (bi s) (ub s).

Definition set_ifd (v : option (list Z)) (s : state) : state :=
  mkstate (mem s) (memsize s) (himem s) (top s) (nvars s) (eeprom s)
    (here s) (token s) (x s) (y s) (xc s) (yc s) (z s) (ir s) (ir2 s) (st s)
    (er s) (ert s) (stack s) (forstack s) (fnc s) (gosubstack s) (vars s)
    (rd s) (id s) (od s) (idd s) (odd s) (form s) (out s) (ofd s) (input s)
    v (ibuffer s) (bi s) (ub s).

Definition set_ibuffer (v : list Z) (s : state) : state :=
  mkstate (mem s) (memsize s) (himem s) (top s) (nvars s) (eeprom s)
    (here s) (token s) (x s) (y s) (xc s) (yc s) (z s) (ir s) (ir2 s) (st s)
    (er s) (ert s) (stack s) (forstack s) (fnc s) (gosubstack s) (vars s)
    (rd s) (id s) (od s) (idd s) (odd s) (form s) (out s) (ofd s) (input s)
    (ifd s) v (bi s) (ub s).

Definition set_bi (v : Z) (s : state) : state :=
  mkstate (mem s) (memsize s) (himem s) (top s) (nvars s) (eeprom s)
    (here s) (token s) (x s) (y s) (xc s) (yc s) (z s) (ir s) (ir2 s) (st s)
    (er s) (ert s) (stack s) (forstack s) (fnc s) (gosubstack s) (vars s)
    (rd s) (id s) (od s) (idd s) (odd s) (form s) (out s) (ofd s) (input s)
    (ifd s) (ibuffer s) v (ub s).

Definition set_ub (v : bool) (s : state) : state :=
  mkstate (mem s) (memsize s) (himem s) (top s) (nvars s) (eeprom s)
    (here s) (token s) (x s) (y s) (xc s) (yc s) (z s) (ir s) (ir2 s) (st s)
    (er s) (ert s) (stack s) (forstack s) (fnc s) (gosubstack s) (vars s)
    (rd s) (id s) (od s) (idd s) (odd s) (form s) (out s) (ofd s) (input s)
    (ifd s) (ibuffer s) (bi s) v.

(** Reduction of a register read after register writes. *)
Ltac simpl_state :=
  cbn [
    mem memsize himem top nvars eeprom here token x y xc yc z ir ir2 st er
    ert stack forstack fnc gosubstack vars rd id od idd odd form out ofd
    input ifd ibuffer bi ub set_mem set_memsize set_himem set_top set_nvars
    set_eeprom set_here set_token set_x set_y set_xc set_yc set_z set_ir
    set_ir2 set_st set_er set_ert set_stack set_forstack set_fnc
    set_gosubstack set_vars set_rd set_id set_od set_idd set_odd set_form
    set_out set_ofd set_input set_ifd set_ibuffer set_bi set_ub
  ].

Ltac simpl_state_all :=
  cbn [
    mem memsize himem top nvars eeprom here token x y xc yc z ir ir2 st er
    ert stack forstack fnc gosubstack vars rd id od idd odd form out ofd
    input ifd ibuffer bi ub set_mem set_memsize set_himem set_top set_nvars
    set_eeprom set_here set_token set_x set_y set_xc set_yc set_z set_ir
    set_ir2 set_st set_er set_ert set_stack set_forstack set_fnc
    set_gosubstack set_vars set_rd set_id set_od set_idd set_odd set_form
    set_out set_ofd set_input set_ifd set_ibuffer set_bi set_ub
  ] in *.

(** ** Layer 0: the byte store *)

Definition mem_get (m : list Z) (a : Z) : Z :=
  if a <? 0 then 0 else nth (Z.to_nat a) m 0.

Fixpoint list_upd (n : nat) (v : Z) (l : list Z) : list Z :=
  match l, n with
  | [], _ => []
  | _ :: t, O => v :: t
  | h :: t, S n' => h :: list_upd n' v t
  end.

Definition mem_set (m : list Z) (a v : Z) : list Z :=
  if a <? 0 then m else list_upd (Z.to_nat a) v m.

(** [mem[a] = v]: the value is converted to [signed char]. *)
Definition poke (a v : Z) (s : state) : state :=
  set_mem (mem_set (mem s) a (to_schar v)) s.

(** The views of the union [z]: [z.i] is [z s] itself. *)
Definition z_a (s : state) : Z := to_addr (z s).
Definition zbyte (i : Z) (v : Z) : Z := (v / 256 ^ i) mod 256.

Definition set_z_i (v : Z) (s : state) : state := set_z (to_num v) s.
Definition set_z_a (v : Z) (s : state) : state :=
  set_z (to_num (z s - (z s) mod 65536 + to_addr v)) s.

(** Little-endian value of a list of bytes. *)
Fixpoint le_value (l : list Z) : Z :=
  match l with
  | [] => 0
  | b :: t => to_uchar b + 256 * le_value t
  end.

Fixpoint read_bytes (n : nat) (m : Z) (f : Z -> Z) : list Z :=
  match n with
  | O => []
  | S n' => f m :: read_bytes n' (to_addr (m + 1)) f
  end.

Definition getnumber (m n : Z) (s : state) : state :=
  if n =? 1 then set_z (mem_get (mem s) m) s
  else if n =? 2 then
    set_z (le_value [mem_get (mem s) m; mem_get (mem s) (to_addr (m + 1))]) s
  else
    set_z (to_num (le_value (read_bytes (Z.to_nat n) m (mem_get (mem s))))) s.

Fixpoint write_bytes (n : nat) (i : Z) (m : Z) (v : Z) (l : list Z) : list Z :=
  match n with
  | O => l
  | S n' =>
      write_bytes n' (i + 1) (to_addr (m + 1)) v
        (mem_set l m (to_schar (zbyte i v)))
  end.

Definition setnumber (m n : Z) (s : state) : state :=
  if n =? 1 then poke m (z s) s
  else if n =? 2 then
    poke (to_addr (m + 1)) (zbyte 1 (z s)) (poke m (zbyte 0 (z s)) s)
  else set_mem (write_bytes (Z.to_nat n) 0 m (z s) (mem s)) s.

(** The EEPROM device. *)
Definition elength (s : state) : Z := Z.of_nat (length (eeprom s)).
Definition eread (i : Z) (s : state) : Z := to_schar (mem_get (eeprom s) i).
Definition eupdate (i c : Z) (s : state) : state :=
  set_eeprom (mem_set (eeprom s) i (to_schar c)) s.

Definition egetnumber (m n : Z) (s : state) : state :=
  if n =? 1 then set_z (eread m s) s
  else if n =? 2 then
    set_z (le_value [eread m s; eread (to_addr (m + 1)) s]) s
  else
    set_z (to_num (le_value (read_bytes (Z.to_nat n) m (fun a => eread a s)))) s.

(** ** Layer 1: reading tokens from memory *)

Definition memread (i : Z) (s : state) : Z :=
  if st s =? SERUN then eread (to_addr (i + eheadersize)) s
  else mem_get (mem s) i.

Definition here_inc (n : Z) (s : state) : state :=
  set_here (to_addr (here s + n)) s.

(** The copy of a string into [ibuffer] when running from EEPROM. *)
Fixpoint copy_to_ibuffer (n : nat) (i : Z) (s : state) : state :=
  match n with
  | O => s
  | S n' =>
      copy_to_ibuffer n' (i + 1)
        (set_ibuffer
           (mem_set (ibuffer s) i (memread (to_addr (here s + i)) s)) s)
  end.

Definition gettoken (s : state) : state :=
  if top s <=? here s then set_token EOL s
  else
    let s := here_inc 1 (set_token (memread (here s) s) s) in
    if token s =? LINENUMBER then
      let s := if st s =? SERUN
               then egetnumber (to_addr (here s + eheadersize)) addrsize s
               else getnumber (here s) addrsize s in
      here_inc addrsize (set_x (z_a s) s)
    else if token s =? NUMBER then
      let s := if st s =? SERUN
               then egetnumber (to_addr (here s + eheadersize)) numsize s
               else getnumber (here s) numsize s in
      here_inc numsize (set_x (z s) s)
    else if (token s =? ARRAYVAR) || (token s =? VARIABLE)
            || (token s =? STRINGVAR) then
      let s := here_inc 1 (set_xc (memread (here s) s) s) in
      here_inc 1 (set_yc (memread (here s) s) s)
    else if token s =? STRING then
      let s := here_inc 1 (set_x (to_uchar (memread (here s) s)) s) in
      let s := if st s =? SERUN
               then set_ir (Pibuf 0) (copy_to_ibuffer (Z.to_nat (x s)) 0 s)
               else set_ir (Pmem (here s)) s in
      here_inc (x s) s
    else s.

(** [myline]: the line number of a location.  The loop is bounded by
    the fuel [n]; each turn reads one token below [top]. *)
Fixpoint myline_loop (n : nat) (h l l1 : Z) (s : state) : Z * Z * state :=
  match n with
  | O => (l, l1, s)
  | S n' =>
      if here s <? top s then
        let '(l, l1) := if token s =? LINENUMBER then (to_addr (x s), l)
                        else (l, l1) in
        if h <=? here s then (l, l1, s)
        else myline_loop n' h l l1 (gettoken s)
      else (l, l1, s)
  end.

Definition myline (h : Z) (s : state) : Z * state :=
  let here2 := here s in
  let '(l, l1, s) :=
    myline_loop (S (Z.to_nat (top s))) h 0 0 (gettoken (set_here 0 s)) in
  let s := set_here here2 s in
  (if token s =? LINENUMBER then l1 else l, s).

(** ** Layer 0: output *)

Definition filewrite (c : Z) (s : state) : state :=
  match ofd s with
  | Some f => set_ofd (Some (f ++ [c])) s
  | None => set_ert 1 s
  end.

Definition serialwrite (c : Z) (s : state) : state :=
  set_out (out s ++ [c]) s.

(** [prtwrite] and [dspwrite] are empty without a printer and a
    display driver. *)
Definition outch (c : Z) (s : state) : state :=
  let c := to_schar c in
  let s := if od s =? OSERIAL then serialwrite c s else s in
  let s := if od s =? OFILE then filewrite c s else s in
  s.

Definition outcr (s : state) : state := outch 10 s.
Definition outspc (s : state) : state := outch 32 s.

(** [outsc]: a zero terminated string, given by its characters. *)
Fixpoint outsc (l : list Z) (s : state) : state :=
  match l with
  | [] => s
  | c :: t => outsc t (outch c s)
  end.

(** [writenumber]: the decimal digits of [v], least significant first,
    as the do-while loop produces them. *)
Fixpoint digits_loop (n : nat) (v : Z) : list Z :=
  match n with
  | O => []
  | S n' => (v mod 10 + 48) :: (if 0 <? v / 10 then digits_loop n' (v / 10) else [])
  end.

Definition writenumber (vi : Z) : list Z :=
  let v := if vi <? 0 then - vi else vi in
  let d := digits_loop 20 v in
  rev (if vi <? 0 then d ++ [45] else d).

Fixpoint outspaces (n : nat) (s : state) : state :=
  match n with
  | O => s
  | S n' => outspaces n' (outspc s)
  end.

Definition outnumber (n : Z) (s : state) : state :=
  let d := writenumber n in
  let s := outsc d s in
  outspaces (Z.to_nat (form s - Z.of_nat (length d))) s.

(** The message catalogue. *)
Definition message : list (list Z) :=
  map codes
    ["file.bas"; "> "; "Stefan's Basic 1.2"; "Error"; "Syntax"; "Number";
     "Div by 0"; "Unknown Line"; "Return"; "Next"; "GOSUB"; "FOR";
     "Memory"; "Stack"; "DIM"; "Range"; "String"; "Variable"; "File";
     "Function"; "Args"; "EEPROM"; "SD card"]%string.

(** [getmessage] returns NULL from [NKEYWORDS] on, and indexes the
    array [message] outside its 23 entries for the other codes that are
    no message (a negative code, or one from 23 to 62); both are [None]
    here.  [printmessage] hands the pointer to [outsc], which reads
    through it: for [None] this is undefined in C, and the model records
    it in the flag [ub].  What a state with [ub = true] holds besides
    the flag says nothing about the C program. *)
Definition getmessage (i : Z) : option (list Z) :=
  if NKEYWORDS <=? i then None
  else if i <? 0 then None
  else nth_error message (Z.to_nat i).

Definition printmessage (i : Z) (s : state) : state :=
  match getmessage (to_schar i) with
  | Some m => outsc m s
  | None => set_ub true s
  end.

(** ** Layer 0: stacks and the error handler *)

Definition clearst (s : state) : state := set_stack [] s.
Definition clrforstack (s : state) : state := set_fnc 0 (set_forstack [] s).
Definition clrgosubstack (s : state) : state := set_gosubstack [] s.
Definition iodefaults (s : state) : state := set_id (idd s) (set_od (odd s) s).

(** [error] with a code that is no message of the catalogue (the
    source passes the token codes TFOR and UNKNOWN in places) leaves
    the state with [ub] set by [printmessage]. *)
Definition error (e : Z) (s : state) : state :=
  let s := set_er (to_schar e) s in
  let s := set_od (odd s) s in
  let s := set_id (idd s) s in
  let s := if negb (st s =? SINT) then
             let '(l, s) := myline (here s) s in
             outspc (outch 58 (outnumber l s))
           else s in
  let s := outspc (printmessage e s) in
  let s := outcr (printmessage EGENERAL s) in
  let s := clearst s in
  let s := clrforstack s in
  let s := clrgosubstack s in
  iodefaults s.

Definition reseterror (s : state) : state :=
  set_st SINT (set_here 0 (set_er 0 s)).

Definition push (t : Z) (s : state) : state :=
  if Z.of_nat (length (stack s)) =? STACKSIZE then error ESTACK s
  else set_stack (to_num t :: stack s) s.

Definition pop (s : state) : Z * state :=
  match stack s with
  | [] => (0, error ESTACK s)
  | v :: t => (v, set_stack t s)
  end.

Definition pushforstack (s : state) : state :=
  if Z.of_nat (length (forstack s)) <? FORDEPTH then
    set_forstack (mkfor (xc s) (yc s) (here s) (x s) (y s) :: forstack s) s
  else error EFOR s.

Definition popforstack (s : state) : state :=
  match forstack s with
  | r :: t =>
      set_y (for_step r) (set_x (for_to r) (set_here (for_here r)
        (set_yc (vary r) (set_xc (varx r) (set_forstack t s)))))
  | [] => error EFOR s
  end.

Definition dropforstack (s : state) : state :=
  match forstack s with
  | _ :: t => set_forstack t s
  | [] => error EFOR s
  end.

(** ** Layer 1: block moves *)

Fixpoint copy_down (i : nat) (b d : Z) (m : list Z) : list Z :=
  match i with
  | O => m
  | S i' =>
      copy_down i' b d
        (mem_set m (d + Z.of_nat i - 1) (mem_get m (b + Z.of_nat i - 1)))
  end.

Fixpoint copy_up (n : nat) (i : Z) (b d : Z) (m : list Z) : list Z :=
  match n with
  | O => m
  | S n' => copy_up n' (i + 1) b d (mem_set m (d + i) (mem_get m (b + i)))
  end.

Definition moveblock (b l d : Z) (s : state) : state :=
  if himem s <? d + l then error EOUTOFMEMORY s
  else if l <? 1 then s
  else if b <? d then set_mem (copy_down (Z.to_nat l) b d (mem s)) s
  else set_mem (copy_up (Z.to_nat l) 0 b d (mem s)) s.

Fixpoint zero_up (n : nat) (i : Z) (b : Z) (m : list Z) : list Z :=
  match n with
  | O => m
  | S n' => zero_up n' (i + 1) b (mem_set m (b + i) 0)
  end.

Definition zeroblock (b l : Z) (s : state) : state :=
  if himem s <? b + l then error EOUTOFMEMORY s
  else if l <? 1 then s
  else set_mem (zero_up (Z.to_nat (l + 1)) 0 b (mem s)) s.

(** ** Start-up and clean-up *)

Definition clrvars (s : state) : state :=
  set_himem (memsize s) (set_nvars 0
    (set_vars (repeat 0 (Z.to_nat VARSIZE)) s)).

Definition xnew (s : state) : state :=
  let s := clearst s in
  let s := set_himem (memsize s) s in
  let s := set_top 0 s in
  let s := zeroblock (top s) (himem s) s in
  let s := reseterror s in
  let s := set_st SINT s in
  let s := set_nvars 0 s in
  clrforstack (clrgosubstack s).

(** The globals as the C start-up leaves them, with [n] bytes of BASIC
    memory (what [allocmem] obtained) and the EEPROM device [ee]. *)
Definition poweron (n : Z) (ee : list Z) : state :=
  mkstate (repeat 0 (Z.to_nat n)) (n - 1) (n - 1) 0 0 ee 0 0 0 0 0 0 0
    Pnull Pnull 0 0 0 [] [] 0 [] (repeat 0 (Z.to_nat VARSIZE)) 0
    0 0 ISERIAL OSERIAL 0 [] None [] None (repeat 0 (Z.to_nat BUFSIZE)) 0
    false.

Definition ioinit (s : state) : state := iodefaults s.

Definition setup (n : Z) (ee : list Z) : state :=
  let s := poweron n ee in
  let s := ioinit s in
  let s := outspc (printmessage MGREET s) in
  let s := outspc (printmessage EOUTOFMEMORY s) in
  let s := outspc (outnumber (memsize s + 1) s) in
  let s := outcr (outnumber (elength s) s) in
  let s := xnew s in
  if eread 0 s =? 1 then
    let s := egetnumber 1 addrsize s in
    set_st SERUN (set_top (z_a s) s)
  else s.

(** ** Layer 0: the heap *)

(** [bfind]: the walk over the [nvars] objects, from [memsize] down.
    The result is the payload address and [z.a] the payload length. *)
Fixpoint bfind_loop (n : nat) (b : Z) (t c d : Z) (s : state) : Z * state :=
  match n with
  | O => (0, s)
  | S n' =>
      let c1 := mem_get (mem s) b in
      let b := to_addr (b - 1) in
      let d1 := mem_get (mem s) b in
      let b := to_addr (b - 1) in
      let t1 := mem_get (mem s) b in
      let b := to_addr (b - 1) in
      let '(b, s) :=
        if t1 =? VARIABLE then (b, set_z_a numsize s)
        else
          let b := to_addr (b - addrsize + 1) in
          (to_addr (b - 1), getnumber b addrsize s) in
      let b := to_addr (b - z_a s) in
      if (c1 =? c) && (d1 =? d) && (t1 =? t) then (to_addr (b + 1), s)
      else bfind_loop n' b t c d s
  end.

Definition bfind (t c d : Z) (s : state) : Z * state :=
  bfind_loop (Z.to_nat (nvars s)) (memsize s) t c d s.

(** The size of the object with its header, as [bmalloc] computes it. *)
Definition bmalloc_vsize (t l : Z) : Z :=
  to_addr (if t =? VARIABLE then numsize + 3
           else if t =? ARRAYVAR then numsize * l + addrsize + 3
           else l + addrsize + 3).

Definition bmalloc (t c d l : Z) (s : state) : Z * state :=
  let '(b, s) := bfind t c d s in
  if negb (b =? 0) then (0, error EVARIABLE s)
  else
    let vsize := bmalloc_vsize t l in
    if himem s - top s <? vsize then (0, error EOUTOFMEMORY s)
    else
      let b := himem s in
      let s := poke b c s in
      let b := to_addr (b - 1) in
      let s := poke b d s in
      let b := to_addr (b - 1) in
      let s := poke b t s in
      let b := to_addr (b - 1) in
      let s :=
        if (t =? ARRAYVAR) || (t =? STRINGVAR) then
          let b := to_addr (b - addrsize + 1) in
          setnumber b addrsize (set_z_a (vsize - (addrsize + 3)) s)
        else s in
      let s := set_himem (to_addr (himem s - vsize)) s in
      let s := set_nvars (to_addr (nvars s + 1)) s in
      (to_addr (himem s + 1), s).

Definition blength (t c d : Z) (s : state) : Z * state :=
  let '(b, s) := bfind t c d s in
  if b =? 0 then (0, s) else (z_a s, s).

(** ** Layer 0: console and file input (stdio) *)

(** [fileread] keeps the byte in a [char]: the byte 255 of a file reads
    as -1 and sets [ert] as the end of the file does. *)
Definition fileread (s : state) : Z * state :=
  match ifd s with
  | Some (c :: t) =>
      let c := to_schar c in
      let s := set_ifd (Some t) s in
      (c, if c =? -1 then set_ert (-1) s else s)
  | Some [] => (-1, set_ert (-1) s)
  | None => (0, set_ert 1 s)
  end.

Definition inch (s : state) : Z * state :=
  if id s =? ISERIAL then
    match input s with
    | c :: t => (to_schar c, set_input t s)
    | [] => (-1, s)
    end
  else if id s =? IFILE then fileread s
  else (0, s).

Definition checkch (s : state) : Z := 1.

(** ** Layer 0: variables *)

Definition getvar (c d : Z) (s : state) : Z * state :=
  if (65 <=? c) && (c <=? 91) && (d =? 0) then (nth (Z.to_nat (c - 65)) (vars s) 0, s)
  else if (c =? 64) && (d =? 83) then (ert s, s)
  else if (c =? 64) && (d =? 73) then (id s, s)
  else if (c =? 64) && (d =? 79) then (od s, s)
  else if (c =? 64) && (d =? 67) then
    if negb (checkch s =? 0) then inch s else (0, s)
  else if (c =? 64) && (d =? 82) then (rd s, s)
  else
    let '(a, s) := bfind VARIABLE c d s in
    if a =? 0 then
      let '(a, s) := bmalloc VARIABLE c d 0 s in
      if negb (er s =? 0) then (0, s)
      else let s := getnumber a numsize s in (z s, s)
    else let s := getnumber a numsize s in (z s, s).

Definition setvar (c d v : Z) (s : state) : state :=
  if (65 <=? c) && (c <=? 91) && (d =? 0) then
    set_vars (list_upd (Z.to_nat (c - 65)) v (vars s)) s
  else if (c =? 64) && (d =? 83) then set_ert (to_schar v) s
  else if (c =? 64) && (d =? 73) then set_id (to_uchar v) s
  else if (c =? 64) && (d =? 79) then set_od (to_uchar v) s
  else if (c =? 64) && (d =? 67) then outch v s
  else if (c =? 64) && (d =? 82) then set_rd (to_addr v) s
  else
    let '(a, s) := bfind VARIABLE c d s in
    if a =? 0 then
      let '(a, s) := bmalloc VARIABLE c d 0 s in
      if negb (er s =? 0) then s
      else setnumber a numsize (set_z_i v s)
    else setnumber a numsize (set_z_i v s).

(** ** Layer 1: the lexical analyser

    In interactive mode [nexttoken] reads the input buffer.  It uses
    the registers [ibuffer], [bi], [token], [x], [xc], [yc] and [ir]
    and no other; here it is written over those registers alone
    ([lexer]), and [nexttoken] installs its result. *)

Record lexer : Type := mklex {
  lbuf : list Z;   (* ibuffer *)
  lbi : Z;         (* bi, as an index into ibuffer *)
  ltoken : Z;      (* token *)
  lx : Z;          (* x *)
  lxc : Z;         (* xc *)
  lyc : Z;         (* yc *)
  lir : ptr        (* ir *)
}.

Definition lex_bi (v : Z) (l : lexer) : lexer :=
  mklex (lbuf l) v (ltoken l) (lx l) (lxc l) (lyc l) (lir l).
Definition lex_buf (v : list Z) (l : lexer) : lexer :=
  mklex v (lbi l) (ltoken l) (lx l) (lxc l) (lyc l) (lir l).
Definition lex_token (v : Z) (l : lexer) : lexer :=
  mklex (lbuf l) (lbi l) v (lx l) (lxc l) (lyc l) (lir l).
Definition lex_x (v : Z) (l : lexer) : lexer :=
  mklex (lbuf l) (lbi l) (ltoken l) v (lxc l) (lyc l) (lir l).
Definition lex_xc (v : Z) (l : lexer) : lexer :=
  mklex (lbuf l) (lbi l) (ltoken l) (lx l) v (lyc l) (lir l).
Definition lex_yc (v : Z) (l : lexer) : lexer :=
  mklex (lbuf l) (lbi l) (ltoken l) (lx l) (lxc l) v (lir l).
Definition lex_ir (v : ptr) (l : lexer) : lexer :=
  mklex (lbuf l) (lbi l) (ltoken l) (lx l) (lxc l) (lyc l) v.

(** [*bi] and [*(bi+k)]. *)
Definition cur (l : lexer) : Z := mem_get (lbuf l) (lbi l).
Definition cur_at (k : Z) (l : lexer) : Z := mem_get (lbuf l) (lbi l + k).
Definition bi_inc (k : Z) (l : lexer) : lexer := lex_bi (lbi l + k) l.

Fixpoint whitespaces_loop (n : nat) (l : lexer) : lexer :=
  match n with
  | O => l
  | S n' =>
      if (cur l =? 32) || (cur l =? 9) then whitespaces_loop n' (bi_inc 1 l)
      else l
  end.

(** The loops over the buffer stop at a zero byte; past the end of the
    list every byte reads as zero, so the length of the list bounds
    them. *)
Definition whitespaces (l : lexer) : lexer :=
  whitespaces_loop (S (length (lbuf l))) l.

(** [parsenumber]: the value and the number of digits, from index [c]. *)
Fixpoint parsenumber_loop (n : nat) (buf : list Z) (c : Z) (r nd : Z) : Z * Z :=
  match n with
  | O => (r, nd)
  | S n' =>
      let ch := mem_get buf c in
      if (48 <=? ch) && (ch <=? 57) && negb (ch =? 0) then
        let r := to_num (r * 10 + ch - 48) in
        let nd := nd + 1 in
        if nd =? SBUFSIZE then (r, nd)
        else parsenumber_loop n' buf (c + 1) r nd
      else (r, nd)
  end.

Definition parsenumber (buf : list Z) (c : Z) : Z * Z :=
  parsenumber_loop (Z.to_nat SBUFSIZE) buf c 0 0.

(** The scan of a string up to the closing quote or the end. *)
Fixpoint string_loop (n : nat) (l : lexer) : lexer :=
  match n with
  | O => l
  | S n' =>
      if negb (cur l =? 34) && negb (cur l =? 0)
      then string_loop n' (bi_inc 1 (lex_x (to_num (lx l + 1)) l))
      else l
  end.

(** The isolation of a word: letters are turned to upper case in the
    buffer; [i] is the index that [ir] holds. *)
Fixpoint word_loop (n : nat) (i : Z) (l : lexer) : Z * lexer :=
  match n with
  | O => (i, l)
  | S n' =>
      let ch := mem_get (lbuf l) i in
      if (97 <=? ch) && (ch <=? 122) then
        word_loop n' (i + 1)
          (lex_x (to_num (lx l + 1))
             (lex_buf (mem_set (lbuf l) i (to_schar (ch - 32))) l))
      else if (64 <=? ch) && (ch <=? 90) then
        word_loop n' (i + 1) (lex_x (to_num (lx l + 1)) l)
      else (i, l)
  end.

(** The keyword table. *)
Definition keyword : list (list Z) :=
  map codes
    ["=>"; "<="; "<>"; "PRINT"; "LET"; "INPUT"; "GOTO"; "GOSUB"; "RETURN";
     "IF"; "FOR"; "TO"; "STEP"; "NEXT"; "STOP"; "LIST"; "NEW"; "RUN";
     "ABS"; "RND"; "SIZE"; "REM";
     "NOT"; "AND"; "OR"; "LEN"; "SGN"; "PEEK"; "DIM"; "CLR"; "LOMEM";
     "HIMEM"; "TAB"; "THEN"; "END"; "POKE";
     "CONT"; "SQR"; "FRE"; "DUMP"; "BREAK"; "SAVE"; "LOAD"; "GET"; "PUT";
     "SET"; "CLS";
     "PINM"; "DWRITE"; "DREAD"; "AWRITE"; "AREAD"; "DELAY"; "MILLIS";
     "ATONE"; "PULSEIN"; "AZERO";
     "CATALOG"; "DELETE"; "OPEN"; "CLOSE";
     "USR"; "CALL"]%string.

(** [getkeyword] for a token of the table; the others raise an error
    and give NULL. *)
Definition getkeyword (t : Z) : option (list Z) :=
  if (t <? BASEKEYWORD) || (BASEKEYWORD + NKEYWORDS <? t) then None
  else nth_error keyword (Z.to_nat (t - BASEKEYWORD)).

(** The comparison of the keyword [kw] with the buffer at [bi]: the
    value of [xc] at the end of the inner loop, 0 after a mismatch. *)
Fixpoint keyword_match (kw : list Z) (xc : Z) (l : lexer) : Z :=
  match kw with
  | [] => xc
  | ch :: kw' =>
      if negb (ch =? cur_at xc l) then 0
      else keyword_match kw' (to_schar (xc + 1)) l
  end.

(** The loop over the keyword table, [kws] being the keywords from
    [token] on.  The result tells whether the loop returned from
    [nexttoken]. *)
Fixpoint keyword_loop (kws : list (list Z)) (l : lexer) : bool * lexer :=
  match kws with
  | [] => (false, l)
  | kw :: kws' =>
      let l := lex_ir (Pkeyword (ltoken l)) l in
      let xc := keyword_match kw 0 l in
      let l := lex_xc xc l in
      if xc =? 0 then keyword_loop kws' (lex_token (to_schar (ltoken l + 1)) l)
      else if (cur_at xc l <? 65) || (90 <? cur_at xc l)
      then (true, bi_inc xc l)
      else (true, lex_token UNKNOWN (bi_inc xc l))
  end.

Definition is_operator (c : Z) : bool :=
  (c =? 43) || (c =? 45) || (c =? 42) || (c =? 47) || (c =? 37) ||
  (c =? 92) || (c =? 58) || (c =? 44) || (c =? 40) || (c =? 41).

(** [nexttoken] in interactive mode. *)
Definition scan (l : lexer) : lexer :=
  let l := if lbi l =? 0 then bi_inc 1 l else l in
  let l := whitespaces l in
  if cur l =? 0 then lex_token EOL l
  else if (cur l <=? 57) && (48 <=? cur l) then
    let '(r, nd) := parsenumber (lbuf l) (lbi l) in
    lex_token NUMBER (bi_inc nd (lex_x r l))
  else if cur l =? 34 then
    let l := bi_inc 1 (lex_x 0 l) in
    let l := lex_ir (Pibuf (lbi l)) l in
    let l := string_loop (S (length (lbuf l))) l in
    lex_token STRING (bi_inc 1 l)
  else if is_operator (cur l) then bi_inc 1 (lex_token (cur l) l)
  else if cur l =? 61 then
    let l := whitespaces (bi_inc 1 l) in
    if cur l =? 62 then bi_inc 1 (lex_token GREATEREQUAL l)
    else if cur l =? 60 then bi_inc 1 (lex_token LESSEREQUAL l)
    else lex_token 61 l
  else if cur l =? 62 then
    let l := whitespaces (bi_inc 1 l) in
    if cur l =? 61 then bi_inc 1 (lex_token GREATEREQUAL l)
    else lex_token 62 l
  else if cur l =? 60 then
    let l := whitespaces (bi_inc 1 l) in
    if cur l =? 61 then bi_inc 1 (lex_token LESSEREQUAL l)
    else if cur l =? 62 then bi_inc 1 (lex_token NOTEQUAL l)
    else lex_token 60 l
  else
    let l := lex_x 0 l in
    let '(i, l) := word_loop (S (length (lbuf l))) (lbi l) l in
    let l := lex_ir (Pibuf i) l in
    let l := lex_token BASEKEYWORD l in
    let '(returned, l) := keyword_loop keyword l in
    if returned then l
    else if (lx l =? 1) || ((lx l =? 2) && (cur l =? 64)) then
      let l := lex_token VARIABLE l in
      let l := lex_xc (cur l) l in
      let l := lex_yc 0 l in
      let l := bi_inc 1 l in
      let l := if (48 <=? cur l) && (cur l <=? 57)
               then bi_inc 1 (lex_yc (cur l) l) else l in
      let l := if (lxc l =? 64) && (lx l =? 2)
               then bi_inc 1 (lex_yc (cur l) l) else l in
      let l := if cur l =? 36
               then bi_inc 1 (lex_token STRINGVAR l) else l in
      let l := whitespaces l in
      if (ltoken l =? VARIABLE) && (cur l =? 40)
      then lex_token ARRAYVAR l else l
    else bi_inc 1 (lex_token (cur l) l).

Definition get_lexer (s : state) : lexer :=
  mklex (ibuffer s) (bi s) (token s) (x s) (xc s) (yc s) (ir s).

Definition put_lexer (l : lexer) (s : state) : state :=
  set_ir (lir l) (set_yc (lyc l) (set_xc (lxc l) (set_x (lx l)
    (set_token (ltoken l) (set_bi (lbi l) (set_ibuffer (lbuf l) s)))))).

Definition nexttoken (s : state) : state :=
  if (st s =? SRUN) || (st s =? SERUN) then gettoken s
  else put_lexer (scan (get_lexer s)) s.

(** ** Layer 1: storing tokens *)

Definition nomemory (b : Z) (s : state) : bool := himem s - b <=? top s.

(** [mem[top++] = v]. *)
Definition store_byte (v : Z) (s : state) : state :=
  set_top (to_addr (top s + 1)) (poke (top s) v s).

(** [*ir]: the byte that a pointer points at. *)
Definition deref (p : ptr) (s : state) : Z :=
  match p with
  | Pnull => 0
  | Pmem a => mem_get (mem s) a
  | Pibuf i => mem_get (ibuffer s) i
  | Pkeyword k => match getkeyword k with
                  | Some (c :: _) => c
                  | _ => 0
                  end
  end.

Definition ptr_inc (p : ptr) (k : Z) : ptr :=
  match p with
  | Pmem a => Pmem (a + k)
  | Pibuf i => Pibuf (i + k)
  | _ => p
  end.

Fixpoint store_string (n : nat) (s : state) : state :=
  match n with
  | O => s
  | S n' =>
      store_string n' (set_ir (ptr_inc (ir s) 1) (store_byte (deref (ir s) s) s))
  end.

Definition storetoken (s : state) : state :=
  let i := to_short (x s) in
  if token s =? LINENUMBER then
    if nomemory (addrsize + 1) s then error EOUTOFMEMORY s
    else
      let s := store_byte (token s) s in
      let s := setnumber (top s) addrsize (set_z_a (x s) s) in
      set_top (to_addr (top s + addrsize)) s
  else if token s =? NUMBER then
    if nomemory (numsize + 1) s then error EOUTOFMEMORY s
    else
      let s := store_byte (token s) s in
      let s := setnumber (top s) numsize (set_z_i (x s) s) in
      set_top (to_addr (top s + numsize)) s
  else if (token s =? ARRAYVAR) || (token s =? VARIABLE)
          || (token s =? STRINGVAR) then
    if nomemory 3 s then error EOUTOFMEMORY s
    else store_byte (yc s) (store_byte (xc s) (store_byte (token s) s))
  else if token s =? STRING then
    if nomemory (x s + 2) s then error EOUTOFMEMORY s
    else
      let s := store_byte (token s) s in
      let s := store_byte i s in
      store_string (Z.to_nat i) s
  else
    if nomemory 1 s then error EOUTOFMEMORY s
    else store_byte (token s) s.

(** ** Layer 1: the program editor *)

Definition firstline (s : state) : state :=
  if top s =? 0 then set_x 0 s
  else gettoken (set_here 0 s).

(** The loops over the stored program read one token per turn below
    [top]; the fuel bounds the number of turns. *)
Fixpoint nextline_loop (n : nat) (s : state) : state :=
  match n with
  | O => s
  | S n' =>
      if here s <? top s then
        let s := gettoken s in
        if token s =? LINENUMBER then s
        else if top s <=? here s then set_x 0 (set_here (top s) s)
        else nextline_loop n' s
      else s
  end.

Definition nextline (s : state) : state :=
  nextline_loop (S (Z.to_nat (top s))) s.

Fixpoint findline_loop (n : nat) (l : Z) (s : state) : state :=
  match n with
  | O => error ELINE s
  | S n' =>
      if here s <? top s then
        let s := gettoken s in
        if (token s =? LINENUMBER) && (x s =? l) then s
        else findline_loop n' l s
      else error ELINE s
  end.

Definition findline (l : Z) (s : state) : state :=
  findline_loop (S (Z.to_nat (top s))) l (set_here 0 s).

Definition lnlength : Z := addrsize + 1.

(** Stage 1 of [storeline]: the do-while loop that appends the tokens of
    the line.  The result tells whether the line was stored; it is
    not when the memory is full. *)
Fixpoint storeline_append (n : nat) (newline : Z) (s : state) : bool * state :=
  match n with
  | O => (true, s)
  | S n' =>
      let s := storetoken s in
      if negb (er s =? 0) then (false, set_here 0 (set_top (to_addr newline) s))
      else
        let s := nexttoken s in
        if token s =? EOL then (true, s)
        else storeline_append n' newline s
  end.

(** The loop of stage 3 that looks for the first line with a greater
    number; the result carries [here2] and [here3]. *)
Fixpoint storeline_search (n : nat) (here2 here3 : Z) (s : state)
  : Z * Z * state :=
  match n with
  | O => (here2, here3, s)
  | S n' =>
      if here s <? top s then
        let here3 := here2 in
        let here2 := here s in
        let s := nextline s in
        if y s <? x s then (here2, here3, s)
        else storeline_search n' here2 here3 s
      else (here2, here3, s)
  end.

Definition storeline (s : state) : state :=
  if x s =? 0 then error ELINE s
  else
    (* stage 1 *)
    let t1 := to_addr (x s) in
    let s := set_here (top s) s in
    let newline := here s in
    let s := set_token LINENUMBER s in
    let '(stored, s) :=
      storeline_append (S (length (ibuffer s))) newline s in
    if negb stored then s
    else
      let s := set_x t1 s in
      let linelength := to_short (top s - here s) in
      if linelength =? lnlength then
        (* stage 2 *)
        let s := set_top (to_addr (top s - lnlength)) s in
        let s := set_y (x s) s in
        let s := findline (to_addr (y s)) s in
        if negb (er s =? 0) then s
        else
          let s := set_y (to_num (here s - lnlength)) s in
          let s := nextline s in
          let s := set_here (to_addr (here s - lnlength)) s in
          if negb (x s =? 0) then
            let s := moveblock (here s) (to_addr (top s - here s))
                       (to_addr (y s)) s in
            set_top (to_addr (top s - (here s - y s))) s
          else set_top (to_addr (y s)) s
      else
        (* stage 3 *)
        let s := set_y (x s) s in
        let s := set_here lnlength s in
        let s := nextline s in
        if x s =? 0 then s
        else
          let s := set_here 0 s in
          let '(here2, here3, s) :=
            storeline_search (S (Z.to_nat (top s))) 0 0 s in
          if x s =? 0 then
            let s := set_here (to_addr (here3 - lnlength)) s in
            let s := gettoken s in
            if (token s =? LINENUMBER) && (x s =? y s) then
              let here2 := to_addr (here2 - lnlength) in
              let s := set_here (to_addr (here s - lnlength)) s in
              let s := moveblock here2 (to_addr linelength) (here s) s in
              set_top (to_addr (here s + linelength)) s
            else s
          else
            let s := set_here (to_addr (here s - lnlength)) s in
            let t1 := here s in
            let s := set_here (to_addr (here2 - lnlength)) s in
            let t2 := here s in
            let s := gettoken s in
            if x s =? y s then
              let here2 := t2 in
              let s := set_here t1 s in
              let s := set_y (to_num (here s - here2)) s in
              if linelength =? y s then
                let s := moveblock (to_addr (top s - linelength))
                           (to_addr linelength) here2 s in
                set_top (to_addr (top s - linelength)) s
              else if y s <? linelength then
                let s := moveblock (here s) (to_addr (top s - here s))
                           (to_addr (here s + linelength - y s)) s in
                let s := set_here (to_addr (here s + linelength - y s)) s in
                let s := set_top (to_addr (top s + linelength - y s)) s in
                let s := moveblock (to_addr (top s - linelength))
                           (to_addr linelength) here2 s in
                set_top (to_addr (top s - linelength)) s
              else
                let s := moveblock (to_addr (top s - linelength))
                           (to_addr linelength) here2 s in
                let s := set_top (to_addr (top s - linelength)) s in
                let s := moveblock (here s) (to_addr (top s - here s))
                           (to_addr (here2 + linelength)) s in
                set_top (to_addr (top s - y s + linelength)) s
            else
              let s := set_here t1 s in
              let s := moveblock (here s) (to_addr (top s - here s))
                         (to_addr (here s + linelength)) s in
              moveblock (top s) (to_addr linelength) (here s) s.

(** ** Arguments and functions *)

Definition termsymbol (s : state) : bool :=
  (token s =? LINENUMBER) || (token s =? 58) || (token s =? EOL).

Definition xabs (s : state) : state :=
  let '(v, s) := pop s in
  let s := set_x v s in
  let s := if x s <? 0 then set_x (to_num (- x s)) s else s in
  push (x s) s.

Definition xsgn (s : state) : state :=
  let '(n, s) := pop s in
  let n := if 0 <? n then 1 else n in
  let n := if n <? 0 then -1 else n in
  push n s.

Definition peek (s : state) : state :=
  let '(v, s) := pop s in
  let a := to_addr v in
  let amax := if maxnum <? memsize s then to_addr maxnum else memsize s in
  if (0 <=? a) && (a <? amax) then push (mem_get (mem s) a) s
  else if (a <? 0) && (- a <? elength s) then push (eread (to_addr (- a - 1)) s) s
  else error ERANGE s.

Definition xfre (s : state) : state :=
  let '(v, s) := pop s in
  if 0 <=? v then push (himem s - top s) s
  else push (elength s) s.

Definition rnd (s : state) : state :=
  let '(r, s) := pop s in
  let s := set_rd (to_addr (Z.rem (31421 * rd s + 6927) 65536)) s in
  if 0 <=? r then push (Z.quot (rd s * r) 65536) s
  else push (Z.quot (rd s * r) 65536 + 1) s.

(** [xpoke] from the point where its two arguments are on the stack. *)
Definition xpoke_store (s : state) : state :=
  let amax := if maxnum <? memsize s then to_addr maxnum else memsize s in
  let '(v, s) := pop s in
  let s := set_y v s in
  let '(v, s) := pop s in
  let a := to_addr v in
  if (0 <=? a) && (a <? amax) then poke a (y s) s
  else if (a <? 0) && (- elength s <=? a) then eupdate (to_addr (- a - 1)) (y s) s
  else error ERANGE s.

(** ** Layer 0: arrays and strings *)

Definition createarray (c d i : Z) (s : state) : state :=
  let '(b, s) := bfind ARRAYVAR c d s in
  if negb (b =? 0) then error EVARIABLE s
  else snd (bmalloc ARRAYVAR c d (to_short i) s).

Definition esetnumber (m n : Z) (s : state) : state :=
  if n =? 1 then eupdate m (z s) s
  else if n =? 2 then
    eupdate (to_addr (m + 1)) (zbyte 1 (z s)) (eupdate m (zbyte 0 (z s)) s)
  else set_eeprom (write_bytes (Z.to_nat n) 0 m (z s) (eeprom s)) s.

(** [array]: the access to an array element, ['g'] to get and ['s'] to
    set; the result holds the value of [*v] afterwards.  No display
    driver is configured, so the display array [@D] does nothing. *)
Definition array (m c d i v : Z) (s : state) : Z * state :=
  let bounds (e : bool) (h a : Z) (s : state) : Z * state :=
    if (i <? 1) || (h <? i) then (v, error ERANGE s)
    else if m =? 103 then
      let s := if negb e then getnumber a numsize s
               else egetnumber a numsize s in
      (z s, s)
    else if m =? 115 then
      let s := set_z_i v s in
      (v, if negb e then setnumber a numsize s else esetnumber a numsize s)
    else (v, s) in
  if c =? 64 then
    if d =? 69 then
      bounds true (to_addr (elength s / numsize))
        (to_addr (elength s - numsize * i)) s
    else if d =? 68 then (v, s)
    else
      bounds false (to_addr ((himem s - top s) / numsize))
        (to_addr (himem s - numsize * i + 1)) s
  else
    let '(a, s) := bfind ARRAYVAR c d s in
    if a =? 0 then (v, error EVARIABLE s)
    else
      bounds false (to_addr (z_a s / numsize))
        (to_addr (a + (i - 1) * numsize)) s.

Definition createstring (c d i : Z) (s : state) : state :=
  let '(b, s) := bfind STRINGVAR c d s in
  if negb (b =? 0) then error EVARIABLE s
  else snd (bmalloc STRINGVAR c d (to_short (i + strindexsize)) s).

Definition getstring (c d b : Z) (s : state) : ptr * state :=
  if c =? 64 then (Pibuf b, s)
  else
    let '(a, s) := bfind STRINGVAR c d s in
    if negb (er s =? 0) then (Pnull, s)
    else if a =? 0 then (Pnull, error EVARIABLE s)
    else if (b <? 1) || (z_a s - strindexsize <? b) then (Pnull, error ERANGE s)
    else (Pmem (to_addr (a + b - 1 + strindexsize)), s).

Definition stringdim (c d : Z) (s : state) : Z * state :=
  if c =? 64 then (BUFSIZE - 1, s)
  else
    let '(n, s) := blength STRINGVAR c d s in
    (n - strindexsize, s).

Definition lenstring (c d : Z) (s : state) : Z * state :=
  if c =? 64 then (mem_get (ibuffer s) 0, s)
  else
    let '(a, s) := bfind STRINGVAR c d s in
    if negb (er s =? 0) then (0, s)
    else
      let s := getnumber a strindexsize s in
      (z_a s, s).

Definition setstringlength (c d l : Z) (s : state) : state :=
  if c =? 64 then set_ibuffer (mem_set (ibuffer s) 0 (to_schar l)) s
  else
    let '(a, s) := bfind STRINGVAR c d s in
    if negb (er s =? 0) then s
    else if a =? 0 then error EVARIABLE s
    else if l <? z_a s then setnumber a strindexsize (set_z_a l s)
    else error ERANGE s.

(** ** Bytes behind a pointer *)

Definition deref_at (p : ptr) (j : Z) (s : state) : Z :=
  match p with
  | Pnull => 0
  | Pmem a => mem_get (mem s) (a + j)
  | Pibuf i => mem_get (ibuffer s) (i + j)
  | Pkeyword k => match getkeyword k with
                  | Some kw => if j <? 0 then 0 else nth (Z.to_nat j) kw 0
                  | None => 0
                  end
  end.

Definition store_at (p : ptr) (j v : Z) (s : state) : state :=
  match p with
  | Pmem a => set_mem (mem_set (mem s) (a + j) v) s
  | Pibuf i => set_ibuffer (mem_set (ibuffer s) (i + j) v) s
  | _ => s
  end.

(** The two copy loops of a string assignment, from [ir2] to [ir]. *)
Fixpoint string_copy_up (n : nat) (j : Z) (s : state) : state :=
  match n with
  | O => s
  | S n' => string_copy_up n' (j + 1) (store_at (ir s) j (deref_at (ir2 s) j s) s)
  end.

Fixpoint string_copy_down (n : nat) (s : state) : state :=
  match n with
  | O => s
  | S n' =>
      string_copy_down n'
        (store_at (ir s) (Z.of_nat n') (deref_at (ir2 s) (Z.of_nat n') s) s)
  end.

(** [stringvalue] at a [STRING] token: the literal is the source. *)
Definition stringvalue_literal (s : state) : state :=
  push (x s) (set_ir2 (ir s) s).

(** ** Layer 2: assignment of a string

    [assignment] from the point where [stringvalue] has put the
    length of the source on the stack and its address in [ir2]; [xcl],
    [ycl] name the destination and [i] is the index it starts at. *)
Definition assignment_string (xcl ycl i : Z) (s : state) : state :=
  let '(v, s) := pop s in
  let lensource := to_addr v in
  let '(p, s) := getstring xcl ycl i s in
  let s := set_ir p s in
  if negb (er s =? 0) then s
  else
    let '(v, s) := lenstring xcl ycl s in
    let lendest := to_addr v in
    let '(dim, s) := stringdim xcl ycl s in
    if dim <? i + lensource - 1 then error ERANGE s
    else
      let s := if i <? x s then string_copy_up (Z.to_nat lensource) 0 s
               else string_copy_down (Z.to_nat lensource) s in
      let newlength :=
        to_addr (if lendest <? i + lensource then i + lensource - 1
                 else lendest) in
      setstringlength xcl ycl newlength s.

(** ** Layer 2: FOR and NEXT *)

(** [findnext]: each turn looks at the current token and reads the
    next one.  In interactive mode the source loops for ever on a line
    without NEXT while [here < top]; the fuel ends the loop here. *)
Fixpoint findnext_loop (n : nat) (s : state) : state :=
  match n with
  | O => s
  | S n' =>
      if (token s =? TNEXT) && (fnc s =? 0) then s
      else
        let s := if token s =? TNEXT then set_fnc (to_schar (fnc s - 1)) s
                 else s in
        let s := if token s =? TFOR then set_fnc (to_schar (fnc s + 1)) s
                 else s in
        if top s <=? here s then error TFOR s
        else findnext_loop n' (nexttoken s)
  end.

Definition findnext (s : state) : state :=
  findnext_loop (S (Z.to_nat (top s) + length (ibuffer s))) s.

(** [xfor] from the point where the limit is on the stack, the step in
    [y] and the loop variable has its start value; [xcl], [ycl] name
    the loop variable. *)
Definition xfor_enter (xcl ycl : Z) (s : state) : state :=
  let '(v, s) := pop s in
  let s := set_x v s in
  let s := if st s =? SINT then set_here (to_addr (bi s)) s else s in
  let s := set_yc ycl (set_xc xcl s) in
  let s := pushforstack s in
  if negb (er s =? 0) then s
  else
    let '(skip, s) :=
      if 0 <? y s then
        let '(v, s) := getvar (xc s) (yc s) s in (x s <? v, s)
      else if y s <? 0 then
        let '(v, s) := getvar (xc s) (yc s) s in (v <? x s, s)
      else (false, s) in
    if skip then nexttoken (findnext (dropforstack s))
    else s.

Definition xbreak (s : state) : state :=
  nexttoken (findnext (dropforstack s)).

Definition xnext (s : state) : state :=
  let s := nexttoken s in
  let '(go, xcl, ycl, s) :=
    if termsymbol s then (true, 0, 0, s)
    else if token s =? VARIABLE then
      let xcl := xc s in
      let ycl := yc s in
      let s := nexttoken s in
      if negb (termsymbol s) then (false, xcl, ycl, error EUNKNOWN s)
      else (true, xcl, ycl, s)
    else (true, 0, 0, s) in
  if negb go then s
  else
    let h := here s in
    let s := popforstack s in
    if negb (xcl =? 0) && (negb (xcl =? xc s) || negb (ycl =? yc s))
    then error EFOR s
    else
      let backtofor (s : state) : state :=
        let s := pushforstack s in
        let s := if st s =? SINT then set_bi (here s) s else s in
        nexttoken s in
      if y s =? 0 then backtofor s
      else
        let '(v, s) := getvar (xc s) (yc s) s in
        let t := to_num (v + y s) in
        let s := setvar (xc s) (yc s) t s in
        if (0 <? y s) && (t <=? x s) then backtofor s
        else if (y s <? 0) && (x s <=? t) then backtofor s
        else nexttoken (set_here h s).

(** ** Layer 2: the run loop

    The loop at the end of [xrun], over the function [statement] that
    executes one line. *)
Fixpoint statementloop (n : nat) (statement : state -> state) (s : state)
  : state :=
  match n with
  | O => s
  | S n' =>
      if (here s <? top s) && ((st s =? SRUN) || (st s =? SERUN))
         && (er s =? 0)
      then statementloop n' statement (statement s)
      else set_st SINT s
  end.

(** ** Reading a line *)

(** [ins] (stdio): the characters go to [b[1..]], the length to [b[0]];
    the loop stops at a line end or when the buffer is full. *)
Fixpoint ins_loop (n : nat) (i nb : Z) (s : state) : state :=
  match n with
  | O => s
  | S n' =>
      if i <? nb - 1 then
        let '(c, s) := inch s in
        if (c =? 10) || (c =? 13) then
          set_ibuffer (mem_set (mem_set (ibuffer s) i 0) 0 (to_schar (i - 1))) s
        else ins_loop n' (i + 1) nb (set_ibuffer (mem_set (ibuffer s) i c) s)
      else s
  end.

(** [ins(ibuffer, BUFSIZE)]. *)
Definition ins (s : state) : state := ins_loop (Z.to_nat BUFSIZE) 1 BUFSIZE s.

(** [loop] for an input line that starts with a number: the line is
    read and handed to the editor, and an error is reset. *)
Definition loop_storeline (s : state) : state :=
  let s := iodefaults s in
  let s := printmessage MPROMPT s in
  let s := ins s in
  let s := set_bi 0 s in
  let s := nexttoken s in
  let s := if token s =? NUMBER then storeline s else s in
  if negb (er s =? 0) then reseterror s else s.

(** ** Vocabulary of the specifications *)

(** The registers that [gettoken] never writes, [here] apart. *)
Definition core_tok (s : state) :=
  (mem s, memsize s, himem s, top s, nvars s, eeprom s, y s, ir2 s, st s,
   (er s, ert s, stack s, forstack s, fnc s, gosubstack s, vars s, rd s),
   (id s, od s, idd s, odd s, form s, out s, ofd s, input s, ifd s, bi s)).

(** The registers that [error] never writes. *)
Definition core_err (s : state) :=
  (mem s, memsize s, himem s, top s, nvars s, eeprom s, here s, y s,
   (ir2 s, st s, vars s, rd s, idd s, odd s, form s, bi s)).

(** The registers that the output routines never write. *)
Definition core_out (s : state) :=
  (mem s, memsize s, himem s, top s, nvars s, eeprom s, here s, token s,
   (x s, y s, xc s, yc s, z s, ir s, ir2 s, st s, er s),
   (stack s, forstack s, fnc s, gosubstack s, vars s, rd s),
   (id s, od s, idd s, odd s, form s, input s, ifd s, ibuffer s, bi s)).

(** A 16-byte memory holding 1..8 from address 0, with [himem] at 15. *)
Definition moveblock_example : state :=
  set_mem [1; 2; 3; 4; 5; 6; 7; 8; 0; 0; 0; 0; 0; 0; 0; 0] (poweron 16 []).

(** *** The heap as a chain of objects *)

(** The object whose header starts at [b]: the length of its header,
    the length of its payload, the address below it, and whether it is
    the object of type [t] and name [c], [d]. *)
Definition obj_hdr (m : list Z) (b : Z) : Z :=
  if mem_get m (b - 2) =? VARIABLE then 3 else addrsize + 3.

Definition obj_len (m : list Z) (b : Z) : Z :=
  if mem_get m (b - 2) =? VARIABLE then numsize
  else le_value [mem_get m (b - 4); mem_get m (b - 3)].

Definition obj_below (m : list Z) (b : Z) : Z := b - obj_hdr m b - obj_len m b.

Definition obj_match (m : list Z) (b t c d : Z) : bool :=
  (mem_get m b =? c) && (mem_get m (b - 1) =? d) && (mem_get m (b - 2) =? t).

(** [n] objects lie between [b] and [lo], each below the one before
    it and none shorter than a header. *)
Fixpoint heap_objs (n : nat) (b lo : Z) (m : list Z) : Prop :=
  match n with
  | O => b = lo
  | S n' =>
      lo <= obj_below m b /\ obj_below m b <= b - (addrsize + 3) /\
      heap_objs n' (obj_below m b) lo m
  end.

(** The heap of a state: [nvars] objects from [memsize] down to
    [himem], inside the memory. *)
Definition heap_ok (s : state) : Prop :=
  0 <= himem s /\ memsize s < Z.of_nat (length (mem s)) /\
  memsize s < 65536 /\ 0 <= nvars s /\
  heap_objs (Z.to_nat (nvars s)) (memsize s) (himem s) (mem s).

(** The payload that a request asks for, in bytes. *)
Definition payload_request (t l : Z) : Z :=
  if t =? VARIABLE then numsize
  else if t =? ARRAYVAR then numsize * l
  else l.

Definition is_char (c : Z) : Prop := -128 <= c < 128.

(** What [bmalloc] does once its two checks have passed: the header,
    the capacity of an array or string, and the new [himem] and
    [nvars]. *)
Definition bmalloc_fill (t c d l : Z) (s : state) : state :=
  let vsize := bmalloc_vsize t l in
  let b := himem s in
  let s := poke b c s in
  let b := to_addr (b - 1) in
  let s := poke b d s in
  let b := to_addr (b - 1) in
  let s := poke b t s in
  let b := to_addr (b - 1) in
  let s :=
    if (t =? ARRAYVAR) || (t =? STRINGVAR) then
      let b := to_addr (b - addrsize + 1) in
      setnumber b addrsize (set_z_a (vsize - (addrsize + 3)) s)
    else s in
  let s := set_himem (to_addr (himem s - vsize)) s in
  set_nvars (to_addr (nvars s + 1)) s.

(** The registers that [nexttoken] never writes, in either mode. *)
Definition core_next (s : state) :=
  (mem s, memsize s, himem s, top s, nvars s, eeprom s, y s, ir2 s, st s,
   (er s, ert s, stack s, forstack s, fnc s, gosubstack s, vars s, rd s),
   (id s, od s, idd s, odd s, form s, out s, ofd s, input s, ifd s)).

(** The text of an error report: the line prefix of a running program
    and the message. *)
Definition message_text (e : Z) : list Z :=
  match getmessage (to_schar e) with
  | Some m => m
  | None => []
  end.



(** *** The stored program, in the words of the specification

    A program is a sequence of lines; each line begins with a
    LINENUMBER record (the code and a line number of 2 bytes) followed
    by the tokens of its statements, up to the next LINENUMBER or to
    [top]. *)



(** The bytes of a stored token that reading it looks at: the
    characters of a string are passed on by their address. *)
Definition token_reach (c : Z) : Z :=
  if c =? LINENUMBER then 1 + addrsize
  else if c =? NUMBER then 1 + numsize
  else if (c =? ARRAYVAR) || (c =? VARIABLE) || (c =? STRINGVAR) then 3
  else if c =? STRING then 2
  else 1.



(** The first half of [error]: the line number, printed when a
    program is running. *)
Definition error_where (s : state) : state :=
  if negb (st s =? SINT)
  then let '(l, s) := myline (here s) s in outspc (outch 58 (outnumber l s))
  else s.

(** *** Example states *)

(** A board with 128 bytes of BASIC memory and an EEPROM of 1024 bytes
    whose first byte is 42, with -1 on the stack: the argument of
    [PEEK(-1)]. *)
Definition peek_example : state :=
  set_stack [-1] (xnew (poweron 128 (42 :: repeat 0 1023))).

(** The same board with the arguments of [POKE -1, 7] on the stack. *)
Definition xpoke_example : state :=
  set_stack [7; -1] (xnew (poweron 128 (42 :: repeat 0 1023))).

(** A running program whose cursor stands at [NEXT J], inside the loop
    [FOR I = .. TO 10]: the FOR stack holds the record of [I]. *)
Definition xnext_example : state :=
  let s := xnew (poweron 128 []) in
  let s := set_mem ([TNEXT; VARIABLE; 74; 0] ++ repeat 0 124) s in
  set_forstack [mkfor 73 0 0 10 1]
    (set_token TNEXT (set_here 1 (set_st SRUN (set_top 4 s)))).

(** The line [FOR I=5 TO 1: PRINT I: NEXT] typed at the prompt of a
    machine without a program, at the point where [xfor] has read the
    statement up to the colon: the limit 1 is on the stack, the step 1
    is in [y] and [I] holds 5. *)
Definition xfor_example : state :=
  let s := setup 128 [] in
  let s := set_input (codes "FOR I=5 TO 1: PRINT I: NEXT" ++ [10]) s in
  let s := set_bi 0 (ins s) in
  let s := nexttoken (nexttoken (nexttoken (nexttoken s))) in
  let s := nexttoken (nexttoken (nexttoken s)) in
  set_stack [1] (set_y 1 (setvar 73 0 5 s)).

(** The state in which [xfor] calls [findnext] on [xfor_example]: the
    limit is popped, the cursor [here] is the offset of the input
    cursor, and the FOR record was pushed and dropped again. *)
Definition xfor_skip_example : state :=
  let '(v, s) := pop xfor_example in
  let s := set_here (to_addr (bi s)) (set_x v s) in
  dropforstack (pushforstack (set_yc 0 (set_xc 73 s))).

(** Lines typed at the prompt, one after the other. *)
Definition typed (lines : list (list Z)) (s : state) : state :=
  fold_left
    (fun s l => loop_storeline (set_input (input s ++ l ++ [10]) s))
    lines s.

(** A program of two lines on a machine with 128 bytes, running, with
    the cursor in the second line. *)
Definition error_example : state :=
  let s := typed (map codes ["10 PRINT 1"; "20 PRINT 2"]%string)
             (setup 128 []) in
  set_here 18 (set_st SRUN s).

(** The same program with the cursor in the first line, behind its
    PRINT token. *)
Definition error_first_example : state :=
  let s := typed (map codes ["10 PRINT 1"; "20 PRINT 2"]%string)
             (setup 128 []) in
  set_here 4 (set_st SRUN s).

(** A running program of one byte, the code of a number: its four
    bytes of payload lie beyond [top]. *)
Definition cut_token_example : state :=
  let s := xnew (poweron 128 []) in
  let s := set_mem ([NUMBER; 1; 2; 3; 4] ++ repeat 0 123) s in
  set_st SRUN (set_top 1 s).

(** A line typed at the prompt and read up to its [n]-th token. *)
Definition typed_tokens (l : list Z) (n : nat) (s : state) : state :=
  let s := set_input (l ++ [10]) s in
  Nat.iter n nexttoken (set_bi 0 (ins s)).

(** [DIM A$(8)], then [A$=] with the literal HELLO, then [A$(3)=] with
    the literal XY read up to the literal: the state in which the
    second assignment copies its source. *)
Definition hello_example : state :=
  let s := createstring 65 0 8 (setup 128 []) in
  let s := typed_tokens (codes "A$=" ++ [34] ++ codes "HELLO" ++ [34]) 3 s in
  assignment_string 65 0 1 (stringvalue_literal s).

Definition hexyo_example : state :=
  let s :=
    typed_tokens (codes "A$(3)=" ++ [34] ++ codes "XY" ++ [34]) 6
      hello_example in
  stringvalue_literal s.

(** After [A$=] with HELLO: [A$(9)=] with the empty literal, and on a
    fresh [DIM A$(8)] the assignment [A$(0)=] with the literal XY, each
    read up to the literal. *)
Definition empty_source_example : state :=
  stringvalue_literal
    (typed_tokens (codes "A$(9)=" ++ [34; 34]) 6 hello_example).

Definition start_zero_example : state :=
  stringvalue_literal
    (typed_tokens (codes "A$(0)=" ++ [34] ++ codes "XY" ++ [34]) 6
       (createstring 65 0 8 (setup 128 []))).

(** The characters of a string of the heap: what [PRINT] writes for
    the whole string. *)
Definition string_chars (c d : Z) (s : state) : list Z :=
  let a := fst (bfind STRINGVAR c d s) in
  let n := fst (lenstring c d s) in
  map (fun j => mem_get (mem s) (a + strindexsize + Z.of_nat j))
    (seq 0 (Z.to_nat n)).

(** Two lines of 58 bytes each typed into a machine with 128 bytes,
    and the same machine after a line 10 is typed that has to go in
    front of them. *)
Definition storeline_example : state :=
  typed [codes "20 PRINT " ++ [34] ++ repeat 66 52 ++ [34];
         codes "30 PRINT " ++ [34] ++ repeat 67 52 ++ [34]]
    (setup 128 []).

Definition storeline_overflow : state :=
  typed [codes "10 PRINT A"] storeline_example.

(** A machine without variables, for [DIM A(3)]. *)
Definition bmalloc_example : state := setup 128 [].

(** [RND(-1)] on a machine that was just switched on. *)
Definition rnd_example : state := set_stack [-1] (setup 128 []).

(** The machine after [DIM B(3)]. *)
Definition array_example : state := createarray 66 0 3 (setup 128 []).

(** The input buffer that holds the line [l]: its length, its
    characters and the terminator. *)
Definition line_buffer (l : list Z) : list Z :=
  Z.of_nat (length l) :: l ++ [0].

(** The lexer at the start of a buffer, its registers arbitrary. *)
Definition lexer_at_start (buf : list Z) (l : lexer) : lexer :=
  lex_bi 0 (lex_buf buf l).

(** A running program whose cursor stands behind a [NEXT] at the end
    of a line, inside a loop with step 0 whose body starts at 0. *)
Definition step_zero_example : state :=
  let s := xnew (poweron 128 []) in
  let s := set_mem ([TNEXT; EOL; TPRINT; VARIABLE] ++ repeat 0 124) s in
  set_forstack [mkfor 73 0 0 10 0]
    (set_token TNEXT (set_here 1 (set_st SRUN (set_top 4 s)))).


(** * Properties of the byte store *)

Lemma length_list_upd n v l : length (list_upd n v l) = length l.
Proof.
  revert n; induction l as [|h t IH]; intros [|n]; simpl; auto.
Qed.

Lemma nth_list_upd_same n v l d :
  (n < length l)%nat -> nth n (list_upd n v l) d = v.
Proof.
  revert n; induction l as [|h t IH]; intros [|n] H; simpl in *; try lia; auto.
  apply IH; lia.
Qed.

Lemma nth_list_upd_other n k v l d :
  n <> k -> nth k (list_upd n v l) d = nth k l d.
Proof.
  revert n k; induction l as [|h t IH]; intros [|n] [|k] H; simpl; auto; try lia.
Qed.

Lemma length_mem_set m a v : length (mem_set m a v) = length m.
Proof. unfold mem_set; destruct (a <? 0); auto using length_list_upd. Qed.

Lemma mem_get_set_same m a v :
  0 <= a < Z.of_nat (length m) -> mem_get (mem_set m a v) a = v.
Proof.
  intros H; unfold mem_get, mem_set.
  destruct (Z.ltb_spec a 0); [lia|].
  apply nth_list_upd_same; lia.
Qed.

Lemma mem_get_set_other m a b v :
  a <> b -> mem_get (mem_set m a v) b = mem_get m b.
Proof.
  intros H; unfold mem_get, mem_set.
  destruct (Z.ltb_spec b 0); auto.
  destruct (Z.ltb_spec a 0); auto.
  apply nth_list_upd_other; lia.
Qed.

Lemma mem_get_set m a b v :
  0 <= a < Z.of_nat (length m) ->
  mem_get (mem_set m a v) b = if a =? b then v else mem_get m b.
Proof.
  intros H; destruct (Z.eqb_spec a b) as [->|Hne].
  - now apply mem_get_set_same.
  - now apply mem_get_set_other.
Qed.

(** Case analysis on the integer tests of a goal. *)
Ltac ztest :=
  repeat match goal with
  | |- context [?a <=? ?b] => destruct (Z.leb_spec a b)
  | |- context [?a <? ?b] => destruct (Z.ltb_spec a b)
  | |- context [?a =? ?b] => destruct (Z.eqb_spec a b)
  end.

(** ** The two copy loops of moveblock *)

Lemma length_copy_up n i b d m : length (copy_up n i b d m) = length m.
Proof.
  revert i m; induction n as [|n IH]; intros; simpl; auto.
  rewrite IH; apply length_mem_set.
Qed.

Lemma length_copy_down n b d m : length (copy_down n b d m) = length m.
Proof.
  revert m; induction n as [|n IH]; intros; simpl; auto.
  rewrite IH; apply length_mem_set.
Qed.

Lemma copy_up_get n : forall i b d m a,
  d <= b -> 0 <= i -> 0 <= d ->
  d + i + Z.of_nat n <= Z.of_nat (length m) ->
  mem_get (copy_up n i b d m) a =
  if (d + i <=? a) && (a <? d + i + Z.of_nat n)
  then mem_get m (a - d + b) else mem_get m a.
Proof.
  induction n as [|n IH]; intros i b d m a Hdb Hi Hd Hlen.
  - cbn [copy_up]. ztest; simpl; auto; lia.
  - cbn [copy_up]. rewrite IH by (rewrite ?length_mem_set; lia).
    ztest; cbn [andb]; try lia;
      try (apply mem_get_set_other; lia).
    assert (a = d + i) by lia; subst a.
    rewrite mem_get_set_same by lia. f_equal; lia.
Qed.

Lemma copy_down_get n : forall b d m a,
  b < d -> 0 <= d ->
  d + Z.of_nat n <= Z.of_nat (length m) ->
  mem_get (copy_down n b d m) a =
  if (d <=? a) && (a <? d + Z.of_nat n)
  then mem_get m (a - d + b) else mem_get m a.
Proof.
  induction n as [|n IH]; intros b d m a Hbd Hd Hlen.
  - cbn [copy_down]. ztest; simpl; auto; lia.
  - cbn [copy_down]. rewrite IH by (rewrite ?length_mem_set; lia).
    ztest; cbn [andb]; try lia;
      try (apply mem_get_set_other; lia).
    assert (a = d + Z.of_nat (S n) - 1) by lia; subst a.
    rewrite mem_get_set_same by lia. f_equal; lia.
Qed.

(** ** What reading a token and reporting an error leave alone *)



Ltac split_ifs :=
  repeat match goal with
  | |- context [if ?c then _ else _] => destruct c
  | |- context [match ?c with Some _ => _ | None => _ end] => destruct c
  end.

Lemma copy_to_ibuffer_core n : forall i s,
  core_tok (copy_to_ibuffer n i s) = core_tok s /\
  here (copy_to_ibuffer n i s) = here s /\
  x (copy_to_ibuffer n i s) = x s /\
  token (copy_to_ibuffer n i s) = token s.
Proof.
  induction n as [|n IH]; intros; cbn [copy_to_ibuffer]; auto.
  destruct (IH (i + 1)
    (set_ibuffer (mem_set (ibuffer s) i (memread (to_addr (here s + i)) s)) s))
    as (H1 & H2 & H3 & H4).
  rewrite H1, H2, H3, H4. auto.
Qed.

Lemma gettoken_core s : core_tok (gettoken s) = core_tok s.
Proof.
  unfold gettoken, here_inc, getnumber, egetnumber.
  split_ifs; simpl_state; try reflexivity.
  all: match goal with
       | |- context [copy_to_ibuffer ?n ?i ?s] =>
           destruct (copy_to_ibuffer_core n i s) as (H & _);
           unfold core_tok in *; simpl_state; rewrite H; reflexivity
       end.
Qed.

Lemma myline_loop_core n : forall h l l1 s,
  core_tok (snd (myline_loop n h l l1 s)) = core_tok s.
Proof.
  induction n as [|n IH]; intros; cbn [myline_loop]; auto.
  destruct (here s <? top s); auto.
  destruct (token s =? LINENUMBER); destruct (h <=? here s); auto;
    rewrite IH; apply gettoken_core.
Qed.

Lemma myline_core h s :
  core_tok (snd (myline h s)) = core_tok s /\
  here (snd (myline h s)) = here s.
Proof.
  unfold myline.
  pose proof (myline_loop_core (S (Z.to_nat (top s))) h 0 0
                (gettoken (set_here 0 s))) as H.
  destruct (myline_loop _ h 0 0 _) as [[l l1] s'].
  cbn [snd] in *. rewrite gettoken_core in H.
  split; [|reflexivity].
  unfold core_tok in *; simpl_state. exact H.
Qed.


Lemma outch_core c s : core_out (outch c s) = core_out s.
Proof. unfold outch, serialwrite, filewrite. split_ifs; reflexivity. Qed.

Lemma outsc_core l : forall s, core_out (outsc l s) = core_out s.
Proof.
  induction l as [|c l IH]; intros; cbn [outsc]; auto.
  rewrite IH; apply outch_core.
Qed.

Lemma outspaces_core n : forall s, core_out (outspaces n s) = core_out s.
Proof.
  induction n as [|n IH]; intros; cbn [outspaces]; auto.
  rewrite IH; apply outch_core.
Qed.

Lemma outnumber_core v s : core_out (outnumber v s) = core_out s.
Proof. unfold outnumber. now rewrite outspaces_core, outsc_core. Qed.

Lemma printmessage_core i s : core_out (printmessage i s) = core_out s.
Proof. unfold printmessage. destruct getmessage; auto using outsc_core. Qed.

Lemma core_out_err s s' : core_out s' = core_out s -> core_err s' = core_err s.
Proof. unfold core_out, core_err. intros H; injection H; intros; congruence. Qed.

Lemma core_tok_err s s' :
  core_tok s' = core_tok s -> here s' = here s -> core_err s' = core_err s.
Proof. unfold core_tok, core_err. intros H; injection H; intros; congruence. Qed.

Lemma core_out_er s s' : core_out s' = core_out s -> er s' = er s.
Proof. unfold core_out; intros H; injection H; intros; assumption. Qed.

Lemma core_tok_er s s' : core_tok s' = core_tok s -> er s' = er s.
Proof. unfold core_tok; intros H; injection H; intros; assumption. Qed.

Lemma error_shape e s :
  exists s3,
    error e s =
    set_id (idd s3) (set_od (odd s3) (set_gosubstack [] (set_fnc 0
      (set_forstack [] (set_stack [] s3))))) /\
    er s3 = to_schar e /\ core_err s3 = core_err s.
Proof.
  unfold error, iodefaults, clrgosubstack, clrforstack, clearst, outcr, outspc.
  set (s1 := set_id _ (set_od _ (set_er _ s))).
  assert (H1 : core_err s1 = core_err s) by reflexivity.
  assert (E1 : er s1 = to_schar e) by reflexivity.
  set (s2 := if negb (st s1 =? SINT) then _ else s1).
  assert (H2 : core_err s2 = core_err s /\ er s2 = to_schar e).
  { subst s2. destruct (negb (st s1 =? SINT)); auto.
    destruct (myline_core (here s1) s1) as (Ha & Hb).
    destruct (myline (here s1) s1) as [l s']. cbn [snd] in *.
    assert (H3 : core_out (outch 32 (outch 58 (outnumber l s'))) = core_out s')
      by now rewrite !outch_core, outnumber_core.
    split.
    - rewrite <- H1. rewrite <- (core_tok_err _ _ Ha Hb).
      now apply core_out_err.
    - rewrite (core_out_er _ _ H3). rewrite (core_tok_er _ _ Ha). exact E1. }
  destruct H2 as (H2 & E2).
  set (s3 := outch 10 _).
  assert (H3 : core_out s3 = core_out s2).
  { subst s3.
    now rewrite outch_core, printmessage_core, outch_core, printmessage_core. }
  exists s3. split; [reflexivity|]. split.
  - rewrite (core_out_er _ _ H3). exact E2.
  - rewrite <- H2. now apply core_out_err.
Qed.

(** [error] writes neither the memory nor the cursors. *)
Lemma error_core e s : core_err (error e s) = core_err s.
Proof.
  destruct (error_shape e s) as (s3 & -> & _ & H). rewrite <- H. reflexivity.
Qed.

Lemma core_err_mem s s' : core_err s' = core_err s -> mem s' = mem s.
Proof. unfold core_err; intros H; injection H; intros; assumption. Qed.
Lemma core_err_memsize s s' : core_err s' = core_err s -> memsize s' = memsize s.
Proof. unfold core_err; intros H; injection H; intros; assumption. Qed.
Lemma core_err_himem s s' : core_err s' = core_err s -> himem s' = himem s.
Proof. unfold core_err; intros H; injection H; intros; assumption. Qed.
Lemma core_err_top s s' : core_err s' = core_err s -> top s' = top s.
Proof. unfold core_err; intros H; injection H; intros; assumption. Qed.
Lemma core_err_nvars s s' : core_err s' = core_err s -> nvars s' = nvars s.
Proof. unfold core_err; intros H; injection H; intros; assumption. Qed.
Lemma core_err_eeprom s s' : core_err s' = core_err s -> eeprom s' = eeprom s.
Proof. unfold core_err; intros H; injection H; intros; assumption. Qed.
Lemma core_err_here s s' : core_err s' = core_err s -> here s' = here s.
Proof. unfold core_err; intros H; injection H; intros; assumption. Qed.
Lemma core_err_y s s' : core_err s' = core_err s -> y s' = y s.
Proof. unfold core_err; intros H; injection H; intros; assumption. Qed.
Lemma core_err_ir2 s s' : core_err s' = core_err s -> ir2 s' = ir2 s.
Proof. unfold core_err; intros H; injection H; intros; assumption. Qed.
Lemma core_err_st s s' : core_err s' = core_err s -> st s' = st s.
Proof. unfold core_err; intros H; injection H; intros; assumption. Qed.
Lemma core_err_vars s s' : core_err s' = core_err s -> vars s' = vars s.
Proof. unfold core_err; intros H; injection H; intros; assumption. Qed.
Lemma core_err_rd s s' : core_err s' = core_err s -> rd s' = rd s.
Proof. unfold core_err; intros H; injection H; intros; assumption. Qed.
Lemma core_err_idd s s' : core_err s' = core_err s -> idd s' = idd s.
Proof. unfold core_err; intros H; injection H; intros; assumption. Qed.
Lemma core_err_odd s s' : core_err s' = core_err s -> odd s' = odd s.
Proof. unfold core_err; intros H; injection H; intros; assumption. Qed.
Lemma core_err_form s s' : core_err s' = core_err s -> form s' = form s.
Proof. unfold core_err; intros H; injection H; intros; assumption. Qed.
Lemma core_err_bi s s' : core_err s' = core_err s -> bi s' = bi s.
Proof. unfold core_err; intros H; injection H; intros; assumption. Qed.

Lemma error_mem e s : mem (error e s) = mem s.
Proof. apply core_err_mem, error_core. Qed.
Lemma error_memsize e s : memsize (error e s) = memsize s.
Proof. apply core_err_memsize, error_core. Qed.
Lemma error_himem e s : himem (error e s) = himem s.
Proof. apply core_err_himem, error_core. Qed.
Lemma error_top e s : top (error e s) = top s.
Proof. apply core_err_top, error_core. Qed.
Lemma error_nvars e s : nvars (error e s) = nvars s.
Proof. apply core_err_nvars, error_core. Qed.
Lemma error_eeprom e s : eeprom (error e s) = eeprom s.
Proof. apply core_err_eeprom, error_core. Qed.
Lemma error_here e s : here (error e s) = here s.
Proof. apply core_err_here, error_core. Qed.
Lemma error_st e s : st (error e s) = st s.
Proof. apply core_err_st, error_core. Qed.
Lemma error_vars e s : vars (error e s) = vars s.
Proof. apply core_err_vars, error_core. Qed.
Lemma error_rd e s : rd (error e s) = rd s.
Proof. apply core_err_rd, error_core. Qed.
Lemma error_bi e s : bi (error e s) = bi s.
Proof. apply core_err_bi, error_core. Qed.

(** The registers that [error] sets. *)
Lemma error_sets e s :
  er (error e s) = to_schar e /\ stack (error e s) = [] /\
  forstack (error e s) = [] /\ gosubstack (error e s) = [] /\
  fnc (error e s) = 0 /\
  od (error e s) = odd s /\ id (error e s) = idd s.
Proof.
  destruct (error_shape e s) as (s3 & -> & E & H). simpl_state.
  rewrite (core_err_odd _ _ H), (core_err_idd _ _ H). tauto.
Qed.

Lemma error_er e s : er (error e s) = to_schar e.
Proof. destruct (error_sets e s) as (H & _); exact H. Qed.

Lemma to_schar_small v : -128 <= v < 128 -> to_schar v = v.
Proof. intros H; unfold to_schar. rewrite Z.mod_small; lia. Qed.


(** * moveblock *)

(** C2. For a destination range that ends at or below [himem],
    [moveblock b l d] leaves at [d .. d+l) the bytes that were at
    [b .. b+l), overlapping or not, leaves every other byte alone and
    raises no error; it copies descending when [b < d] and ascending
    otherwise.  For a destination range that ends above [himem] it
    raises OUT_OF_MEMORY and leaves the memory unchanged. *)
Theorem moveblock_spec (s : state) (b l d : Z) :
  0 <= d ->
  himem s < Z.of_nat (length (mem s)) ->
  (d + l <= himem s ->
     (forall i, 0 <= i < l ->
        mem_get (mem (moveblock b l d s)) (d + i) = mem_get (mem s) (b + i)) /\
     (forall a, ~ (d <= a < d + l) ->
        mem_get (mem (moveblock b l d s)) a = mem_get (mem s) a) /\
     er (moveblock b l d s) = er s /\
     (1 <= l -> b < d ->
        mem (moveblock b l d s) = copy_down (Z.to_nat l) b d (mem s)) /\
     (1 <= l -> d <= b ->
        mem (moveblock b l d s) = copy_up (Z.to_nat l) 0 b d (mem s))) /\
  (himem s < d + l ->
     er (moveblock b l d s) = EOUTOFMEMORY /\
     mem (moveblock b l d s) = mem s).
Proof.
  intros Hd Hmem. split.
  - intros Hfit. unfold moveblock.
    destruct (Z.ltb_spec (himem s) (d + l)); [lia|].
    destruct (Z.ltb_spec l 1).
    + repeat split; intros; auto; lia.
    + destruct (Z.ltb_spec b d); simpl_state.
      * repeat split; intros; auto; try lia.
        -- rewrite copy_down_get by lia. rewrite Z2Nat.id by lia.
           ztest; cbn [andb]; try lia. f_equal; lia.
        -- rewrite copy_down_get by lia. rewrite Z2Nat.id by lia.
           ztest; cbn [andb]; try lia; auto.
      * repeat split; intros; auto; try lia.
        -- rewrite copy_up_get by lia. rewrite Z2Nat.id by lia.
           ztest; cbn [andb]; try lia. f_equal; lia.
        -- rewrite copy_up_get by lia. rewrite Z2Nat.id by lia.
           ztest; cbn [andb]; try lia; auto.
  - intros Hover. unfold moveblock.
    destruct (Z.ltb_spec (himem s) (d + l)); [|lia].
    split; [apply error_er | apply error_mem].
Qed.


Lemma moveblock_spec_witness :
  mem (moveblock 0 6 2 moveblock_example)
  = [1; 2; 1; 2; 3; 4; 5; 6; 0; 0; 0; 0; 0; 0; 0; 0] /\
  er (moveblock 0 6 14 moveblock_example) = EOUTOFMEMORY.
Proof.
  assert (H0 : 0 <= 2) by lia.
  assert (H0' : 0 <= 14) by lia.
  assert (H1 : himem moveblock_example
               < Z.of_nat (length (mem moveblock_example)))
    by (vm_compute; reflexivity).
  destruct (moveblock_spec moveblock_example 0 6 2 H0 H1) as (Hfit & _).
  destruct (moveblock_spec moveblock_example 0 6 14 H0' H1) as (_ & Hover).
  assert (F : 2 + 6 <= himem moveblock_example) by (vm_compute; discriminate).
  assert (O : himem moveblock_example < 14 + 6) by (vm_compute; reflexivity).
  destruct (Hfit F) as (_ & _ & _ & Hdown & _).
  destruct (Hover O) as (He & _).
  split; [rewrite Hdown by lia; vm_compute; reflexivity | exact He].
Defined.


(** * Machine integers *)

Lemma to_addr_range v : 0 <= to_addr v < 65536.
Proof. unfold to_addr; apply Z.mod_pos_bound; lia. Qed.

Lemma to_addr_small v : 0 <= v < 65536 -> to_addr v = v.
Proof. intros; unfold to_addr; now apply Z.mod_small. Qed.

Lemma to_addr_to_num v : to_addr (to_num v) = to_addr v.
Proof.
  unfold to_addr, to_num.
  rewrite (Z.mod_eq (v + 2147483648) 4294967296) by lia.
  replace (v + 2147483648 - 4294967296 * ((v + 2147483648) / 4294967296)
           - 2147483648)
    with (v + (- 65536 * ((v + 2147483648) / 4294967296)) * 65536) by lia.
  apply Z_mod_plus_full.
Qed.

Lemma to_addr_add_l a b : to_addr (to_addr a + b) = to_addr (a + b).
Proof. unfold to_addr. now rewrite Zplus_mod_idemp_l. Qed.

Lemma to_addr_sub_l a b : to_addr (to_addr a - b) = to_addr (a - b).
Proof. unfold to_addr. now rewrite Zminus_mod_idemp_l. Qed.


Lemma to_uchar_to_schar v : to_uchar (to_schar v) = to_uchar v.
Proof.
  unfold to_uchar, to_schar.
  rewrite (Z.mod_eq (v + 128) 256) by lia.
  replace (v + 128 - 256 * ((v + 128) / 256) - 128)
    with (v + (- ((v + 128) / 256)) * 256) by lia.
  apply Z_mod_plus_full.
Qed.

Lemma to_schar_char c : is_char c -> to_schar c = c.
Proof. apply to_schar_small. Qed.

Lemma le_value_two_range a b : 0 <= le_value [a; b] < 65536.
Proof.
  cbn [le_value]. unfold to_uchar.
  pose proof (Z.mod_pos_bound a 256). pose proof (Z.mod_pos_bound b 256). lia.
Qed.

(** The two low bytes of the accumulator hold [z.a]. *)
Lemma le_value_zbytes v :
  le_value [to_schar (zbyte 0 v); to_schar (zbyte 1 v)] = to_addr v.
Proof.
  cbn [le_value]. rewrite !to_uchar_to_schar. unfold zbyte, to_uchar, to_addr.
  rewrite !Z.mod_mod by lia. change (256 ^ 0) with 1. change (256 ^ 1) with 256.
  rewrite Z.div_1_r.
  change 65536 with (256 * 256).
  rewrite (Z.rem_mul_r v 256 256) by lia. lia.
Qed.

Lemma z_a_set_z_a v s : z_a (set_z_a v s) = to_addr v.
Proof.
  unfold z_a, set_z_a. simpl_state. rewrite to_addr_to_num.
  unfold to_addr.
  rewrite (Z.mod_eq (z s) 65536) at 1 by lia.
  replace (z s - (z s - 65536 * (z s / 65536)) + v mod 65536)
    with (v mod 65536 + (z s / 65536) * 65536) by lia.
  rewrite Z_mod_plus_full. apply Z.mod_mod; lia.
Qed.

(** * The heap *)

Lemma heap_objs_count n : forall b lo m,
  heap_objs n b lo m -> 5 * Z.of_nat n <= b - lo.
Proof.
  induction n as [|n IH]; intros b lo m H; cbn [heap_objs] in H.
  - lia.
  - destruct H as (H1 & H2 & H3). apply IH in H3. unfold addrsize in *. lia.
Qed.

(** The header of an object lies above the address below it. *)
Lemma obj_below_hdr m b : obj_below m b <= b - obj_hdr m b.
Proof.
  unfold obj_below, obj_len, numsize.
  destruct (_ =? _); [lia|].
  pose proof (le_value_two_range (mem_get m (b - 4)) (mem_get m (b - 3))). lia.
Qed.

Lemma obj_agree m m' b lo :
  (forall a, lo < a -> mem_get m' a = mem_get m a) ->
  lo <= obj_below m b ->
  obj_hdr m' b = obj_hdr m b /\ obj_len m' b = obj_len m b /\
  obj_below m' b = obj_below m b /\
  forall t c d, obj_match m' b t c d = obj_match m b t c d.
Proof.
  intros Hag Hlo. pose proof (obj_below_hdr m b) as Hh.
  assert (H2 : mem_get m' (b - 2) = mem_get m (b - 2)).
  { apply Hag. unfold obj_hdr, addrsize in Hh. destruct (_ =? _); lia. }
  assert (Hhdr : obj_hdr m' b = obj_hdr m b) by (unfold obj_hdr; now rewrite H2).
  assert (Hlen : obj_len m' b = obj_len m b).
  { unfold obj_len. rewrite H2. unfold obj_hdr, addrsize in Hh.
    destruct (_ =? _); auto. rewrite !Hag by lia. reflexivity. }
  repeat split; auto.
  - unfold obj_below. now rewrite Hhdr, Hlen.
  - intros. unfold obj_match. rewrite H2.
    unfold obj_hdr, addrsize in Hh.
    rewrite !Hag; auto; destruct (mem_get m (b - 2) =? VARIABLE); lia.
Qed.

Lemma heap_objs_agree n : forall b lo m m',
  (forall a, lo < a -> mem_get m' a = mem_get m a) ->
  heap_objs n b lo m -> heap_objs n b lo m'.
Proof.
  induction n as [|n IH]; intros b lo m m' Hag H; cbn [heap_objs] in *; auto.
  destruct H as (H1 & H2 & H3).
  destruct (obj_agree m m' b lo Hag H1) as (_ & _ & Hb & _).
  rewrite Hb. repeat split; auto. eapply IH; eauto.
Qed.

(** One turn of the loop of [bfind] at an object whose header is inside
    the memory addresses. *)
Lemma bfind_loop_step n b t c d s :
  4 <= b < 65536 ->
  exists zz,
    z_a (set_z zz s) = obj_len (mem s) b /\
    bfind_loop (S n) b t c d s =
    if obj_match (mem s) b t c d
    then (to_addr (to_addr (b - obj_hdr (mem s) b - obj_len (mem s) b) + 1),
          set_z zz s)
    else bfind_loop n (to_addr (b - obj_hdr (mem s) b - obj_len (mem s) b))
           t c d (set_z zz s).
Proof.
  intros Hb. cbn [bfind_loop].
  rewrite !(to_addr_small (b - 1)) by lia.
  rewrite !(to_addr_small (b - 1 - 1)) by lia.
  rewrite !(to_addr_small (b - 1 - 1 - 1)) by lia.
  replace (b - 1 - 1) with (b - 2) by lia.
  unfold obj_match, obj_hdr, obj_len.
  destruct (mem_get (mem s) (b - 2) =? VARIABLE) eqn:Hv.
  - exists (z (set_z_a numsize s)).
    assert (Hz : z_a (set_z (z (set_z_a numsize s)) s) = numsize).
    { change (set_z (z (set_z_a numsize s)) s) with (set_z_a numsize s).
      rewrite z_a_set_z_a. reflexivity. }
    split; [exact Hz|].
    change (set_z (z (set_z_a numsize s)) s) with (set_z_a numsize s) in *.
    cbv beta iota zeta.
    rewrite Hz.
    replace (b - 2 - 1 - numsize) with (b - 3 - numsize) by lia.
    reflexivity.
  - unfold addrsize.
    rewrite (to_addr_small (b - 2 - 1 - 2 + 1)) by lia.
    unfold getnumber. cbn [Z.eqb Pos.eqb].
    rewrite (to_addr_small (b - 2 - 1 - 2 + 1 + 1)) by lia.
    replace (b - 2 - 1 - 2 + 1) with (b - 4) by lia.
    replace (b - 4 + 1) with (b - 3) by lia.
    set (v := le_value _).
    exists v.
    assert (Hz : z_a (set_z v s) = v).
    { unfold z_a. simpl_state. apply to_addr_small. apply le_value_two_range. }
    split; [exact Hz|]. cbv beta iota zeta. rewrite Hz. simpl_state.
    rewrite to_addr_sub_l.
    replace (b - 4 - 1 - v) with (b - (2 + 3) - v) by lia.
    reflexivity.
Qed.

Lemma set_z_set_z v w s : set_z v (set_z w s) = set_z v s.
Proof. reflexivity. Qed.

(** [bfind] changes the accumulator [z] only. *)
Lemma bfind_loop_only_z n : forall b t c d s,
  exists zz, snd (bfind_loop n b t c d s) = set_z zz s \/
             snd (bfind_loop n b t c d s) = s.
Proof.
  induction n as [|n IH]; intros; cbn [bfind_loop].
  - exists 0; now right.
  - set (b3 := to_addr (to_addr (to_addr (b - 1) - 1) - 1)).
    destruct (mem_get (mem s) (to_addr (to_addr (b - 1) - 1)) =? VARIABLE).
    + destruct (_ && _).
      * eexists; left; reflexivity.
      * destruct (IH (to_addr (b3 - z_a (set_z_a numsize s))) t c d
                     (set_z_a numsize s)) as (zz & [H|H]); rewrite H.
        -- exists zz; now left.
        -- eexists; left; reflexivity.
    + set (s1 := getnumber _ _ s).
      assert (Hs1 : s1 = set_z (z s1) s).
      { subst s1. unfold getnumber. split_ifs; reflexivity. }
      destruct (_ && _).
      * cbn [snd]. exists (z s1); now left.
      * match goal with |- context [bfind_loop n ?bb t c d s1] =>
          destruct (IH bb t c d s1) as (zz & [H|H]); rewrite H end.
        -- exists zz; left. rewrite Hs1. reflexivity.
        -- exists (z s1); now left.
Qed.

Lemma set_z_same s : set_z (z s) s = s.
Proof. destruct s; reflexivity. Qed.

Lemma bfind_loop_z n b t c d s :
  exists zz, snd (bfind_loop n b t c d s) = set_z zz s.
Proof.
  destruct (bfind_loop_only_z n b t c d s) as (zz & [H|H]).
  - now exists zz.
  - exists (z s). now rewrite set_z_same.
Qed.

(** Over a chain of objects none of which has the name, the walk goes
    on below the chain; the bytes at or below its end do not matter. *)
Lemma bfind_loop_skip n : forall b lo t c d s s',
  heap_objs n b lo (mem s) -> 0 <= lo -> b < 65536 ->
  fst (bfind_loop n b t c d s) = 0 ->
  (forall a, lo < a -> mem_get (mem s') a = mem_get (mem s) a) ->
  forall k, exists zz,
    bfind_loop (n + k) b t c d s' = bfind_loop k lo t c d (set_z zz s').
Proof.
  induction n as [|n IH]; intros b lo t c d s s' Hobjs Hlo Hb Hnone Hag k.
  - cbn [heap_objs] in Hobjs. subst b. exists (z s'). now rewrite set_z_same.
  - cbn [heap_objs] in Hobjs. destruct Hobjs as (H1 & H2 & H3).
    unfold addrsize in H2.
    destruct (obj_agree (mem s) (mem s') b lo Hag H1) as (Eh & El & Eb & Em).
    destruct (bfind_loop_step n b t c d s) as (zz & Hz & Hs); [lia|].
    destruct (bfind_loop_step (n + k) b t c d s') as (zz' & Hz' & Hs'); [lia|].
    change (S n + k)%nat with (S (n + k)). rewrite Hs'. rewrite Hs in Hnone.
    rewrite Em, Eh, El. fold (obj_below (mem s) b) in *.
    rewrite (to_addr_small (obj_below (mem s) b)) in * by lia.
    destruct (obj_match (mem s) b t c d).
    + cbn [fst] in Hnone. rewrite to_addr_small in Hnone by lia. lia.
    + destruct (IH (obj_below (mem s) b) lo t c d (set_z zz s) (set_z zz' s'))
        with (k := k) as (zz'' & Hk); auto; try lia.
      exists zz''. rewrite Hk. reflexivity.
Qed.
(** [bfind] reaches an object just written below a chain that does not
    hold its name. *)
Lemma bfind_new_object (s sN : state) (t c d : Z) :
  heap_ok s -> 4 <= himem s ->
  fst (bfind t c d s) = 0 ->
  nvars sN = nvars s + 1 -> memsize sN = memsize s ->
  (forall a, himem s < a -> mem_get (mem sN) a = mem_get (mem s) a) ->
  mem_get (mem sN) (himem s) = c ->
  mem_get (mem sN) (himem s - 1) = d ->
  mem_get (mem sN) (himem s - 2) = t ->
  fst (bfind t c d sN)
  = to_addr (himem s - obj_hdr (mem sN) (himem s)
             - obj_len (mem sN) (himem s) + 1) /\
  z_a (snd (bfind t c d sN)) = obj_len (mem sN) (himem s).
Proof.
  intros (Hhi & Hms & Hms16 & Hnv & Hobjs) Hh4 Hnone HnN HmN Hag Hc Hd Ht.
  pose proof (heap_objs_count _ _ _ _ Hobjs) as Hcount.
  rewrite Z2Nat.id in Hcount by lia.
  unfold bfind in *. rewrite HnN, HmN.
  replace (Z.to_nat (nvars s + 1)) with (Z.to_nat (nvars s) + 1)%nat by lia.
  destruct (bfind_loop_skip _ _ _ t c d s sN Hobjs Hhi Hms16 Hnone Hag 1%nat)
    as (zz & ->).
  destruct (bfind_loop_step 0 (himem s) t c d (set_z zz sN)) as (zz' & Hz & ->);
    [lia|].
  simpl_state.
  assert (Hm : obj_match (mem sN) (himem s) t c d = true).
  { unfold obj_match. rewrite Hc, Hd, Ht, !Z.eqb_refl. reflexivity. }
  rewrite Hm. cbn [fst snd]. split; [|exact Hz].
  rewrite to_addr_add_l. reflexivity.
Qed.

Lemma bfind_z t c d s : exists zz, snd (bfind t c d s) = set_z zz s.
Proof. apply bfind_loop_z. Qed.

Lemma bmalloc_cases t c d l s :
  fst (bmalloc t c d l s) <> 0 ->
  fst (bfind t c d s) = 0 /\
  bmalloc_vsize t l <= himem s - top s /\
  fst (bmalloc t c d l s) = to_addr (to_addr (himem s - bmalloc_vsize t l) + 1).
Proof.
  unfold bmalloc. destruct (bfind_z t c d s) as (zz & Hz).
  destruct (bfind t c d s) as [b s0]. cbn [fst snd] in *. subst s0.
  destruct (Z.eqb_spec b 0); cbn [negb fst]; [|congruence].
  simpl_state.
  destruct (Z.ltb_spec (himem s - top s) (bmalloc_vsize t l));
    cbn [fst]; [congruence|].
  intros _. repeat split; auto.
  unfold setnumber, set_z_a, poke.
  destruct (_ || _); reflexivity.
Qed.

(** The state that a successful [bmalloc] leaves. *)
Lemma bmalloc_snd t c d l s :
  fst (bmalloc t c d l s) <> 0 ->
  exists zz, snd (bmalloc t c d l s) = bmalloc_fill t c d l (set_z zz s).
Proof.
  intros Hok.
  destruct (bmalloc_cases t c d l s Hok) as (Hnone & Hroom & _).
  unfold bmalloc. destruct (bfind_z t c d s) as (zz & Hz).
  rewrite (surjective_pairing (bfind t c d s)), Hnone, Hz.
  cbn [negb Z.eqb]. simpl_state.
  destruct (Z.ltb_spec (himem s - top s) (bmalloc_vsize t l)); [lia|].
  exists zz. reflexivity.
Qed.

Lemma poke_mem a v s : mem (poke a v s) = mem_set (mem s) a (to_schar v).
Proof. reflexivity. Qed.

Lemma setnumber2_mem a s :
  mem (setnumber a addrsize s)
  = mem_set (mem_set (mem s) a (to_schar (zbyte 0 (z s))))
      (to_addr (a + 1)) (to_schar (zbyte 1 (z s))).
Proof. reflexivity. Qed.

Lemma bmalloc_fill_mem t c d l s :
  4 <= himem s < 65536 ->
  exists v,
    to_addr v = to_addr (bmalloc_vsize t l - 5) /\
    mem (bmalloc_fill t c d l s) =
    let h := himem s in
    let m3 := mem_set (mem_set (mem_set (mem s) h (to_schar c))
               (h - 1) (to_schar d)) (h - 2) (to_schar t) in
    if (t =? ARRAYVAR) || (t =? STRINGVAR)
    then mem_set (mem_set m3 (h - 4) (to_schar (zbyte 0 v)))
           (h - 3) (to_schar (zbyte 1 v))
    else m3.
Proof.
  intros Hh. unfold bmalloc_fill. cbv zeta.
  rewrite !(to_addr_small (himem s - 1)) by lia.
  rewrite !(to_addr_small (himem s - 1 - 1)) by lia.
  rewrite !(to_addr_small (himem s - 1 - 1 - 1)) by lia.
  replace (himem s - 1 - 1) with (himem s - 2) by lia.
  destruct ((t =? ARRAYVAR) || (t =? STRINGVAR)).
  - unfold addrsize.
    rewrite !(to_addr_small (himem s - 2 - 1 - 2 + 1)) by lia.
    replace (himem s - 2 - 1 - 2 + 1) with (himem s - 4) by lia.
    simpl_state. fold addrsize. rewrite setnumber2_mem.
    rewrite (to_addr_small (himem s - 4 + 1)) by lia.
    replace (himem s - 4 + 1) with (himem s - 3) by lia.
    match goal with |- context [zbyte 0 (z (set_z_a ?w ?S))] =>
      exists (z (set_z_a w S)); split;
      [ change (to_addr (z (set_z_a w S))) with (z_a (set_z_a w S));
        rewrite z_a_set_z_a; f_equal; unfold addrsize; lia | ]
    end.
    reflexivity.
  - exists (bmalloc_vsize t l - 5). split; reflexivity.
Qed.

Lemma bmalloc_fill_regs t c d l s :
  nvars (bmalloc_fill t c d l s) = to_addr (nvars s + 1) /\
  himem (bmalloc_fill t c d l s) = to_addr (himem s - bmalloc_vsize t l) /\
  memsize (bmalloc_fill t c d l s) = memsize s /\
  er (bmalloc_fill t c d l s) = er s /\
  top (bmalloc_fill t c d l s) = top s.
Proof.
  unfold bmalloc_fill. cbv zeta. destruct (_ || _); repeat split; reflexivity.
Qed.


Lemma payload_of_vsize t l :
  t <> VARIABLE ->
  to_addr (bmalloc_vsize t l - 5) = to_addr (payload_request t l).
Proof.
  intros Ht. unfold bmalloc_vsize, payload_request.
  destruct (Z.eqb_spec t VARIABLE); [contradiction|].
  rewrite to_addr_sub_l. unfold numsize, addrsize.
  destruct (t =? ARRAYVAR); f_equal; lia.
Qed.





(** * Reading tokens *)

Lemma core_tok_next s s' :
  core_tok s' = core_tok s -> core_next s' = core_next s.
Proof.
  unfold core_tok, core_next. intros H; injection H; intros.
  repeat match goal with H : _ = _ |- _ => rewrite H; clear H end.
  reflexivity.
Qed.

Lemma nexttoken_core s : core_next (nexttoken s) = core_next s.
Proof.
  unfold nexttoken. destruct (_ || _).
  - apply core_tok_next, gettoken_core.
  - reflexivity.
Qed.

Lemma core_next_top s s' : core_next s' = core_next s -> top s' = top s.
Proof. unfold core_next; intros H; injection H; intros; assumption. Qed.
Lemma core_next_mem s s' : core_next s' = core_next s -> mem s' = mem s.
Proof. unfold core_next; intros H; injection H; intros; assumption. Qed.
Lemma core_next_himem s s' : core_next s' = core_next s -> himem s' = himem s.
Proof. unfold core_next; intros H; injection H; intros; assumption. Qed.
Lemma core_next_st s s' : core_next s' = core_next s -> st s' = st s.
Proof. unfold core_next; intros H; injection H; intros; assumption. Qed.
Lemma core_next_er s s' : core_next s' = core_next s -> er s' = er s.
Proof. unfold core_next; intros H; injection H; intros; assumption. Qed.
Lemma core_next_y s s' : core_next s' = core_next s -> y s' = y s.
Proof. unfold core_next; intros H; injection H; intros; assumption. Qed.
Lemma core_next_stack s s' : core_next s' = core_next s -> stack s' = stack s.
Proof. unfold core_next; intros H; injection H; intros; assumption. Qed.
Lemma core_next_forstack s s' :
  core_next s' = core_next s -> forstack s' = forstack s.
Proof. unfold core_next; intros H; injection H; intros; assumption. Qed.
Lemma core_next_fnc s s' : core_next s' = core_next s -> fnc s' = fnc s.
Proof. unfold core_next; intros H; injection H; intros; assumption. Qed.
Lemma core_next_gosubstack s s' :
  core_next s' = core_next s -> gosubstack s' = gosubstack s.
Proof. unfold core_next; intros H; injection H; intros; assumption. Qed.
Lemma core_next_vars s s' : core_next s' = core_next s -> vars s' = vars s.
Proof. unfold core_next; intros H; injection H; intros; assumption. Qed.
Lemma core_next_nvars s s' : core_next s' = core_next s -> nvars s' = nvars s.
Proof. unfold core_next; intros H; injection H; intros; assumption. Qed.
Lemma core_next_memsize s s' :
  core_next s' = core_next s -> memsize s' = memsize s.
Proof. unfold core_next; intros H; injection H; intros; assumption. Qed.
Lemma core_next_out s s' : core_next s' = core_next s -> out s' = out s.
Proof. unfold core_next; intros H; injection H; intros; assumption. Qed.

(** * RND *)

Lemma to_num_small v : -2147483648 <= v < 2147483648 -> to_num v = v.
Proof. intros H; unfold to_num. rewrite Z.mod_small; lia. Qed.

Lemma quot_neg_floor a :
  a < 0 ->
  Z.quot a 65536 = a / 65536 + (if a mod 65536 =? 0 then 0 else 1).
Proof.
  intros Ha.
  replace a with (- (- a)) at 1 by lia.
  rewrite Z.quot_opp_l by lia. rewrite Z.quot_div_nonneg by lia.
  destruct (Z.eqb_spec (a mod 65536) 0) as [H0|H0];
    Z.div_mod_to_equations; lia.
Qed.

(** C9, as the code has it. [rnd] replaces the state [rd] by
    [(31421 * rd + 6927) mod 2^16].  With [r] the new state, it pushes
    the floor of [r * arg / 2^16] for an argument that is not negative.
    For a negative argument it pushes the quotient truncated toward
    zero plus one: the floor plus one when 2^16 divides [r * arg], and
    the floor plus two otherwise. *)
Theorem rnd_spec (s : state) (arg : Z) (rest : list Z) :
  stack s = arg :: rest ->
  Z.of_nat (length (stack s)) <= STACKSIZE ->
  0 <= rd s < 65536 ->
  -2147483648 <= arg < 2147483648 ->
  let r := (31421 * rd s + 6927) mod 65536 in
  rd (rnd s) = r /\
  stack (rnd s) =
    (if 0 <=? arg then r * arg / 65536
     else r * arg / 65536 + (if (r * arg) mod 65536 =? 0 then 1 else 2))
    :: rest.
Proof.
  intros Hst Hlen Hrd Harg r.
  assert (Hr : 0 <= r < 65536) by (apply Z.mod_pos_bound; lia).
  assert (Hrem : to_addr (Z.rem (31421 * rd s + 6927) 65536) = r).
  { rewrite Z.rem_mod_nonneg by lia. apply to_addr_small. exact Hr. }
  unfold rnd, pop. rewrite Hst. simpl_state. rewrite Hrem.
  rewrite Hst in Hlen. cbn [length] in Hlen. unfold STACKSIZE in Hlen.
  assert (Hq : -2147483648 <= Z.quot (r * arg) 65536 < 2147483647).
  { destruct (Z_lt_le_dec arg 0).
    - assert (Ha : r * arg <= 0) by nia.
      assert (Hb : - (65536 * 2147483648) <= r * arg) by nia.
      pose proof (Z.quot_le_mono (r * arg) 0 65536 ltac:(lia) Ha) as Hc.
      rewrite Z.quot_0_l in Hc by lia.
      pose proof (Z.quot_le_mono _ _ 65536 ltac:(lia) Hb) as Hd.
      change (Z.quot (- (65536 * 2147483648)) 65536) with (-2147483648) in Hd.
      lia.
    - assert (Ha : 0 <= r * arg) by nia.
      assert (Hb : r * arg <= 65535 * 2147483647) by nia.
      pose proof (Z.quot_pos (r * arg) 65536 Ha ltac:(lia)) as Hc.
      pose proof (Z.quot_le_mono _ _ 65536 ltac:(lia) Hb) as Hd.
      change (Z.quot (65535 * 2147483647) 65536) with 2147450879 in Hd.
      lia. }
  destruct (Z.leb_spec 0 arg).
  - unfold push. simpl_state.
    destruct (Z.eqb_spec (Z.of_nat (length rest)) STACKSIZE);
      [unfold STACKSIZE in *; lia|].
    simpl_state. rewrite to_num_small by lia.
    rewrite Z.quot_div_nonneg by nia. split; reflexivity.
  - unfold push. simpl_state.
    destruct (Z.eqb_spec (Z.of_nat (length rest)) STACKSIZE);
      [unfold STACKSIZE in *; lia|].
    simpl_state. rewrite to_num_small by lia.
    destruct (Z.eq_dec r 0) as [H0|H0].
    + rewrite H0. cbn. split; reflexivity.
    + rewrite quot_neg_floor by nia.
      split; [reflexivity|]. destruct (_ =? _); f_equal; lia.
Qed.

(** C9, the sentence as it stands: for [RND(-1)] after power-on the
    value pushed is 1, and the floor of [r * arg / 2^16] plus one is 0. *)
Lemma rnd_negative_not_floor :
  stack (rnd rnd_example) = [1] /\
  rd (rnd rnd_example) * -1 / 65536 + 1 = 0.
Proof. vm_compute. split; reflexivity. Qed.

Lemma rnd_spec_witness :
  rd (rnd rnd_example) = 6927 /\ stack (rnd rnd_example) = [1].
Proof.
  assert (H1 : stack rnd_example = -1 :: []) by reflexivity.
  assert (H2 : Z.of_nat (length (stack rnd_example)) <= STACKSIZE)
    by (vm_compute; discriminate).
  assert (H3 : 0 <= rd rnd_example < 65536)
    by (vm_compute; split; [discriminate | reflexivity]).
  assert (H4 : -2147483648 <= -1 < 2147483648) by lia.
  destruct (rnd_spec rnd_example (-1) [] H1 H2 H3 H4) as (Hr & Hs).
  split.
  - rewrite Hr. vm_compute. reflexivity.
  - rewrite Hs. vm_compute. reflexivity.
Defined.


(** * PEEK and POKE *)

Lemma pop_cons v rest s :
  stack s = v :: rest -> pop s = (v, set_stack rest s).
Proof. intros H; unfold pop; now rewrite H. Qed.

(** A negative argument of PEEK never reaches the EEPROM: [a] is an
    [address_t], so the test [a < 0] is false; the argument wraps to an
    address above the memory and the RANGE error is raised. *)
Lemma peek_negative (s : state) (v : Z) (rest : list Z) :
  stack s = v :: rest ->
  - elength s <= v < 0 ->
  0 <= memsize s -> memsize s + elength s <= 65536 -> memsize s <= maxnum ->
  er (peek s) = ERANGE /\ stack (peek s) = [].
Proof.
  intros Hst Hv Hm0 Hsz Hmax. unfold peek. rewrite (pop_cons _ _ _ Hst).
  simpl_state.
  assert (Ha : to_addr v = v + 65536).
  { unfold to_addr. replace v with (v + 65536 + (-1) * 65536) at 1 by lia.
    rewrite Z_mod_plus_full. apply Z.mod_small.
    unfold elength in *. lia. }
  rewrite Ha.
  destruct (Z.ltb_spec maxnum (memsize s)); [lia|].
  destruct (Z.leb_spec 0 (v + 65536)), (Z.ltb_spec (v + 65536) (memsize s)),
    (Z.ltb_spec (v + 65536) 0); cbn [andb]; try (unfold elength in *; lia).
  all: destruct (error_sets ERANGE (set_stack rest s)) as (He & Hs & _);
    split; assumption.
Qed.

(** C7 at PEEK(-1) on a board with an EEPROM: the RANGE error, and
    nothing on the stack, where the specification has the EEPROM byte 42. *)
Lemma peek_eeprom_unreachable :
  er (peek peek_example) = ERANGE /\ stack (peek peek_example) = [] /\
  eread 0 peek_example = 42.
Proof. vm_compute. repeat split. Qed.

(** The same for POKE: a negative address raises the RANGE error and
    the EEPROM is not written. *)
Lemma xpoke_negative (s : state) (v w : Z) (rest : list Z) :
  stack s = w :: v :: rest ->
  - elength s <= v < 0 ->
  0 <= memsize s -> memsize s + elength s <= 65536 -> memsize s <= maxnum ->
  er (xpoke_store s) = ERANGE /\ eeprom (xpoke_store s) = eeprom s /\
  mem (xpoke_store s) = mem s.
Proof.
  intros Hst Hv Hm0 Hsz Hmax. unfold xpoke_store. rewrite (pop_cons _ _ _ Hst).
  simpl_state. rewrite (pop_cons v rest) by reflexivity. simpl_state.
  assert (Ha : to_addr v = v + 65536).
  { unfold to_addr. replace v with (v + 65536 + (-1) * 65536) at 1 by lia.
    rewrite Z_mod_plus_full. apply Z.mod_small.
    unfold elength in *. lia. }
  rewrite Ha.
  destruct (Z.ltb_spec maxnum (memsize s)); [lia|].
  destruct (Z.leb_spec 0 (v + 65536)), (Z.ltb_spec (v + 65536) (memsize s)),
    (Z.ltb_spec (v + 65536) 0); cbn [andb]; try (unfold elength in *; lia).
  all: rewrite error_er, error_eeprom, error_mem; repeat split.
Qed.

(** * NEXT *)

(** C6 at [NEXT J] inside the loop of [I]: the error raised is the FOR
    error, not the NEXT error. *)
Lemma xnext_raises_for_error :
  er (xnext xnext_example) = EFOR /\ er (xnext xnext_example) <> ENEXT.
Proof. vm_compute. split; [reflexivity | discriminate]. Qed.

(** C6, as the code has it. When NEXT names a variable that differs
    from the variable of the top FOR record, [xnext] raises the FOR
    error, which is not the NEXT error. *)
Theorem xnext_name_mismatch (s : state) (r : forrec) (rest : list forrec) :
  token (nexttoken s) = VARIABLE ->
  termsymbol (nexttoken (nexttoken s)) = true ->
  forstack s = r :: rest ->
  xc (nexttoken s) <> 0 ->
  xc (nexttoken s) <> varx r \/ yc (nexttoken s) <> vary r ->
  er (xnext s) = EFOR /\ er (xnext s) <> ENEXT.
Proof.
  intros Htok Hterm Hfor Hname Hdiff.
  assert (H : er (xnext s) = EFOR).
  { unfold xnext.
    set (s1 := nexttoken s) in *. set (s2 := nexttoken s1) in *.
    assert (Ht1 : termsymbol s1 = false)
      by (unfold termsymbol; now rewrite Htok).
    rewrite Ht1. rewrite Htok. change (VARIABLE =? VARIABLE) with true.
    cbv iota. rewrite Hterm. cbn [negb].
    assert (Hf2 : forstack s2 = r :: rest).
    { subst s2 s1.
      rewrite (core_next_forstack _ _ (nexttoken_core _)).
      rewrite (core_next_forstack _ _ (nexttoken_core _)). exact Hfor. }
    unfold popforstack. rewrite Hf2. simpl_state.
    destruct (Z.eqb_spec (xc s1) 0) as [|_]; [contradiction|].
    cbn [negb andb].
    destruct (Z.eqb_spec (xc s1) (varx r)), (Z.eqb_spec (yc s1) (vary r));
      cbn [negb orb]; try apply error_er.
    destruct Hdiff; contradiction. }
  split; [exact H|]. rewrite H. discriminate.
Qed.

Lemma xnext_name_mismatch_witness :
  er (xnext xnext_example) = EFOR /\ er (xnext xnext_example) <> ENEXT.
Proof.
  apply (xnext_name_mismatch xnext_example (mkfor 73 0 0 10 1) []).
  - reflexivity.
  - reflexivity.
  - reflexivity.
  - vm_compute. discriminate.
  - left. vm_compute. discriminate.
Defined.

(** * FOR *)

(** [findnext] on a state whose cursor is at or beyond [top] and whose
    token is not NEXT: the first turn of the loop calls [error] with
    the token code TFOR, and no token is read. *)
Lemma findnext_at_end (s : state) :
  top s <= here s -> token s <> TNEXT ->
  findnext s
  = error TFOR
      (if token s =? TFOR then set_fnc (to_schar (fnc s + 1)) s else s).
Proof.
  intros Hend Htok. unfold findnext. cbn [findnext_loop].
  apply Z.eqb_neq in Htok. rewrite Htok. cbn [andb].
  destruct (token s =? TFOR); simpl_state;
    destruct (Z.leb_spec (top s) (here s)); try lia; reflexivity.
Qed.

(** C5 at [FOR I=5 TO 1: PRINT I: NEXT] typed at the prompt without a
    program.  The start value exceeds the limit, so [xfor] calls
    [findnext]; the cursor [here] is the offset 14 of the input cursor
    and [top] is 0, so [findnext] calls [error] with the token code
    TFOR in its first turn and reads no token.  TFOR is no code of the
    message catalogue: the call prints a message that does not exist,
    where the C program leaves its defined behaviour. *)
Lemma xfor_skip_interactive_fails :
  st xfor_example = SINT /\ top xfor_example = 0 /\
  token xfor_example = 58 /\ ub xfor_example = false /\
  xfor_enter 73 0 xfor_example = nexttoken (findnext xfor_skip_example) /\
  here xfor_skip_example = 14 /\ top xfor_skip_example = 0 /\
  token xfor_skip_example = 58 /\
  findnext xfor_skip_example = error TFOR xfor_skip_example /\
  to_schar TFOR = -111 /\ getmessage (to_schar TFOR) = None /\
  ub (error TFOR xfor_skip_example) = true /\
  ub (xfor_enter 73 0 xfor_example) = true.
Proof. vm_compute. repeat split. Qed.

(** With a step of 0, NEXT puts the record back on the FOR stack and
    goes back to the address that the record holds. *)
Lemma xnext_step_zero (s : state) (r : forrec) (rest : list forrec) :
  st s = SRUN -> termsymbol (nexttoken s) = true ->
  forstack s = r :: rest -> for_step r = 0 ->
  Z.of_nat (length (forstack s)) <= FORDEPTH ->
  xnext s = nexttoken
    (set_forstack (r :: rest)
       (set_y 0 (set_x (for_to r) (set_here (for_here r)
          (set_yc (vary r) (set_xc (varx r)
             (set_forstack rest (nexttoken s)))))))).
Proof.
  intros Hst Hterm Hfor Hstep Hdepth. unfold xnext.
  rewrite Hterm. cbn [negb].
  assert (Hf1 : forstack (nexttoken s) = r :: rest)
    by (rewrite (core_next_forstack _ _ (nexttoken_core _)); exact Hfor).
  assert (Hs1 : st (nexttoken s) = SRUN)
    by (rewrite (core_next_st _ _ (nexttoken_core _)); exact Hst).
  unfold popforstack. rewrite Hf1. simpl_state. cbn [Z.eqb negb andb].
  rewrite Hstep. cbn [Z.eqb].
  unfold pushforstack. simpl_state.
  rewrite Hfor in Hdepth. cbn [length] in Hdepth. unfold FORDEPTH in *.
  destruct (Z.ltb_spec (Z.of_nat (length rest)) 4); [|lia].
  simpl_state. rewrite Hs1. change (SRUN =? SINT) with false. cbv iota.
  destruct r as [vx vy fh ft fs]. cbn in Hstep. subst fs. reflexivity.
Qed.


(** * The error handler *)

Section ErrorRegisters.

(** The three registers that [error] sets before it looks for the
    line number. *)
Variables e o i : Z.





End ErrorRegisters.

(** ** What is written to the serial console *)

Lemma outch_serial c s :
  od s = OSERIAL ->
  out (outch c s) = out s ++ [to_schar c] /\ od (outch c s) = OSERIAL /\
  form (outch c s) = form s.
Proof.
  intros H. unfold outch, serialwrite. rewrite H.
  change (OSERIAL =? OSERIAL) with true. cbv iota. simpl_state. rewrite H.
  change (OSERIAL =? OFILE) with false. cbv iota. simpl_state. auto.
Qed.

Lemma outsc_serial l : forall s,
  od s = OSERIAL ->
  out (outsc l s) = out s ++ map to_schar l /\ od (outsc l s) = OSERIAL /\
  form (outsc l s) = form s.
Proof.
  induction l as [|c l IH]; intros s H; cbn [outsc map].
  - rewrite app_nil_r; auto.
  - destruct (outch_serial c s H) as (H1 & H2 & H3).
    destruct (IH _ H2) as (H4 & H5 & H6).
    rewrite H4, H1, H6, H3, <- app_assoc. auto.
Qed.

Lemma outspaces_serial n : forall s,
  od s = OSERIAL ->
  out (outspaces n s) = out s ++ repeat 32 n /\ od (outspaces n s) = OSERIAL.
Proof.
  induction n as [|n IH]; intros s H; cbn [outspaces repeat].
  - rewrite app_nil_r; auto.
  - destruct (outch_serial 32 s H) as (H1 & H2 & _).
    destruct (IH _ H2) as (H4 & H5).
    unfold outspc. rewrite H4, H1, <- app_assoc. auto.
Qed.

Lemma map_to_schar_chars l : Forall is_char l -> map to_schar l = l.
Proof.
  induction 1 as [|c l Hc _ IH]; cbn [map]; auto.
  now rewrite IH, to_schar_char.
Qed.

Lemma digits_loop_chars n : forall v, Forall is_char (digits_loop n v).
Proof.
  induction n as [|n IH]; intros; cbn [digits_loop]; constructor.
  - unfold is_char. pose proof (Z.mod_pos_bound v 10 ltac:(lia)). lia.
  - destruct (0 <? v / 10); auto.
Qed.

Lemma writenumber_chars v : Forall is_char (writenumber v).
Proof.
  unfold writenumber. apply Forall_rev.
  destruct (v <? 0); [apply Forall_app; split|]; try apply digits_loop_chars.
  constructor; [unfold is_char; lia | constructor].
Qed.




Lemma outnumber_serial v s :
  od s = OSERIAL ->
  out (outnumber v s) =
    out s ++ writenumber v
    ++ repeat 32 (Z.to_nat (form s - Z.of_nat (length (writenumber v)))) /\
  od (outnumber v s) = OSERIAL.
Proof.
  intros H. unfold outnumber.
  destruct (outsc_serial (writenumber v) s H) as (H1 & H2 & H3).
  destruct (outspaces_serial
              (Z.to_nat (form (outsc (writenumber v) s)
                         - Z.of_nat (length (writenumber v)))) _ H2)
    as (H4 & H5).
  cbv zeta. split; [|exact H5].
  rewrite H4, H1, H3, (map_to_schar_chars _ (writenumber_chars v)).
  rewrite <- app_assoc. reflexivity.
Qed.

Lemma error_unfold e s :
  error e s =
  iodefaults (clrgosubstack (clrforstack (clearst
    (outcr (printmessage EGENERAL (outspc (printmessage e
      (error_where
         (set_id (idd (set_od (odd (set_er (to_schar e) s))
                              (set_er (to_schar e) s)))
            (set_od (odd (set_er (to_schar e) s))
               (set_er (to_schar e) s))))))))))).
Proof. reflexivity. Qed.




(** * Messages outside the catalogue *)

Lemma outch_ub c s : ub (outch c s) = ub s.
Proof. unfold outch, serialwrite, filewrite. split_ifs; reflexivity. Qed.

Lemma outsc_ub l : forall s, ub (outsc l s) = ub s.
Proof.
  induction l as [|c l IH]; intros; cbn [outsc]; auto.
  rewrite IH; apply outch_ub.
Qed.








(** The codes from 0 to 22 are the messages of the catalogue. *)
Lemma getmessage_catalogue e :
  0 <= e <= 22 -> getmessage (to_schar e) = Some (message_text e).
Proof.
  intros He. unfold message_text.
  destruct (getmessage (to_schar e)) as [m|] eqn:H; [reflexivity|].
  exfalso. rewrite to_schar_small in H by lia. unfold getmessage in H.
  destruct (Z.leb_spec NKEYWORDS e); [unfold NKEYWORDS in *; lia|].
  destruct (Z.ltb_spec e 0); [lia|].
  apply nth_error_None in H.
  change (length message) with 23%nat in H. lia.
Qed.

Lemma printmessage_ub e s : 0 <= e <= 22 -> ub (printmessage e s) = ub s.
Proof.
  intros He. unfold printmessage. rewrite (getmessage_catalogue e He).
  apply outsc_ub.
Qed.

Lemma printmessage_outside e s :
  getmessage (to_schar e) = None -> ub (printmessage e s) = true.
Proof. intros H. unfold printmessage. rewrite H. reflexivity. Qed.

Lemma ub_after_clear s :
  ub (iodefaults (clrgosubstack (clrforstack (clearst s)))) = ub s.
Proof. reflexivity. Qed.


(** Printing a message outside the catalogue is where the C program
    leaves its defined behaviour. *)
Lemma error_outside e s :
  getmessage (to_schar e) = None -> ub (error e s) = true.
Proof.
  intros He. rewrite error_unfold, ub_after_clear. unfold outcr, outspc.
  rewrite outch_ub, printmessage_ub by (unfold EGENERAL; lia).
  rewrite outch_ub. apply printmessage_outside. exact He.
Qed.

(** * The end of the program *)

(** In run mode below [top] the token is the byte at the cursor. *)
Lemma nexttoken_reads_below_top (s : state) :
  st s = SRUN \/ st s = SERUN -> here s < top s ->
  token (nexttoken s) = memread (here s) s.
Proof.
  intros Hst Hlt.
  assert (Hrun : (st s =? SRUN) || (st s =? SERUN) = true)
    by (destruct Hst as [-> | ->]; reflexivity).
  unfold nexttoken. rewrite Hrun.
  assert (Hc : core_tok (gettoken s) = core_tok s) by apply gettoken_core.
  unfold gettoken. destruct (Z.leb_spec (top s) (here s)); [lia|].
  unfold here_inc, getnumber, egetnumber. simpl_state.
  split_ifs; simpl_state; try reflexivity.
  all: match goal with
       | |- context [copy_to_ibuffer ?n ?i ?S] =>
           let Hx := fresh "Hx" in
           destruct (copy_to_ibuffer_core n i S) as (_ & _ & _ & Hx);
           rewrite Hx; reflexivity
       end.
Qed.


(** * Strings *)

(** ** An object that [bfind] found stays found *)

Lemma obj_agree_hdr m m' b :
  (forall k, b - obj_hdr m b < k <= b -> mem_get m' k = mem_get m k) ->
  obj_hdr m' b = obj_hdr m b /\ obj_len m' b = obj_len m b /\
  forall t c d, obj_match m' b t c d = obj_match m b t c d.
Proof.
  intros Hag.
  assert (Hh : 3 <= obj_hdr m b)
    by (unfold obj_hdr, addrsize; destruct (_ =? _); lia).
  assert (H0 : mem_get m' b = mem_get m b) by (apply Hag; lia).
  assert (H1 : mem_get m' (b - 1) = mem_get m (b - 1)) by (apply Hag; lia).
  assert (H2 : mem_get m' (b - 2) = mem_get m (b - 2)) by (apply Hag; lia).
  assert (Hhdr : obj_hdr m' b = obj_hdr m b) by (unfold obj_hdr; now rewrite H2).
  repeat split; auto.
  - unfold obj_len. rewrite H2. unfold obj_hdr, addrsize in Hag.
    destruct (mem_get m (b - 2) =? VARIABLE); auto.
    rewrite !Hag by lia. reflexivity.
  - intros. unfold obj_match. now rewrite H0, H1, H2.
Qed.

Lemma obj_len_nonneg m b : 0 <= obj_len m b.
Proof.
  unfold obj_len. destruct (_ =? _); [unfold numsize; lia|].
  pose proof (le_value_two_range (mem_get m (b - 4)) (mem_get m (b - 3))). lia.
Qed.

Lemma bfind_loop_found n : forall b lo t c d s a,
  heap_objs n b lo (mem s) -> 0 <= lo -> b < 65536 ->
  fst (bfind_loop n b t c d s) = a -> a <> 0 ->
  exists len,
    z_a (snd (bfind_loop n b t c d s)) = len /\
    lo < a /\ a + len <= b + 1 /\ 0 <= len /\
    forall s',
      (forall k, ~ (a <= k < a + len) -> mem_get (mem s') k = mem_get (mem s) k) ->
      fst (bfind_loop n b t c d s') = a /\
      z_a (snd (bfind_loop n b t c d s')) = len.
Proof.
  induction n as [|n IH]; intros b lo t c d s a Hobjs Hlo Hb Ha Hne.
  - cbn [bfind_loop fst] in Ha. congruence.
  - cbn [heap_objs] in Hobjs. destruct Hobjs as (H1 & H2 & H3).
    unfold addrsize in H2.
    pose proof (obj_len_nonneg (mem s) b) as Hlen.
    assert (Hh : 3 <= obj_hdr (mem s) b)
      by (unfold obj_hdr, addrsize; destruct (_ =? _); lia).
    destruct (bfind_loop_step n b t c d s) as (zz & Hz & Hs); [lia|].
    rewrite Hs in Ha |- *.
    fold (obj_below (mem s) b) in *.
    rewrite (to_addr_small (obj_below (mem s) b)) in * by lia.
    assert (Hbel : obj_below (mem s) b = b - obj_hdr (mem s) b - obj_len (mem s) b)
      by reflexivity.
    destruct (obj_match (mem s) b t c d) eqn:Hm.
    + cbn [fst snd] in *. rewrite to_addr_small in Ha by lia.
      exists (obj_len (mem s) b).
      refine (conj Hz (conj _ (conj _ (conj Hlen _)))); try lia.
      intros s' Hag.
      destruct (obj_agree_hdr (mem s) (mem s') b) as (Eh & El & Em).
      { intros k Hk. apply Hag. lia. }
      destruct (bfind_loop_step n b t c d s') as (zz' & Hz' & Hs'); [lia|].
      rewrite Hs', Em, Hm, Eh, El. cbn [fst snd].
      fold (obj_below (mem s) b).
      rewrite (to_addr_small (obj_below (mem s) b)) by lia.
      rewrite to_addr_small by lia. rewrite Hz'. auto.
    + destruct (IH (obj_below (mem s) b) lo t c d (set_z zz s) a)
        as (len & Hl1 & Hl2 & Hl3 & Hl4 & Hl5); auto; try lia.
      exists len.
      refine (conj Hl1 (conj Hl2 (conj _ (conj Hl4 _)))); try lia.
      intros s' Hag.
      destruct (obj_agree_hdr (mem s) (mem s') b) as (Eh & El & Em).
      { intros k Hk. apply Hag. lia. }
      destruct (bfind_loop_step n b t c d s') as (zz' & Hz' & Hs'); [lia|].
      rewrite Hs', Em, Hm, Eh, El.
      fold (obj_below (mem s) b).
      rewrite (to_addr_small (obj_below (mem s) b)) by lia.
      apply (Hl5 (set_z zz' s')). exact Hag.
Qed.

(** The object that [bfind] finds lies between [himem] and [memsize],
    and it is found again, with the same length, in every state that
    differs in the payload of that object only. *)
Lemma bfind_found t c d s a :
  heap_ok s -> fst (bfind t c d s) = a -> a <> 0 ->
  exists len,
    z_a (snd (bfind t c d s)) = len /\
    himem s < a /\ a + len <= memsize s + 1 /\ 0 <= len /\
    forall s',
      nvars s' = nvars s -> memsize s' = memsize s ->
      (forall k, ~ (a <= k < a + len) -> mem_get (mem s') k = mem_get (mem s) k) ->
      fst (bfind t c d s') = a /\ z_a (snd (bfind t c d s')) = len.
Proof.
  intros (Hh & Hm & Hm' & Hn & Hobjs) Ha Hne.
  destruct (bfind_loop_found _ _ _ t c d s a Hobjs Hh Hm' Ha Hne)
    as (len & H1 & H2 & H3 & H4 & H5).
  exists len. refine (conj H1 (conj H2 (conj H3 (conj H4 _)))).
  intros s' En Em Hag. unfold bfind. rewrite En, Em. now apply H5.
Qed.

(** ** The copy loops of a string assignment *)

Lemma string_copy_up_mem n : forall j s p,
  ir s = Pmem p ->
  exists m',
    string_copy_up n j s = set_mem m' s /\
    length m' = length (mem s) /\
    forall k, ~ (p + j <= k < p + j + Z.of_nat n) ->
              mem_get m' k = mem_get (mem s) k.
Proof.
  induction n as [|n IH]; intros j s p Hir; cbn [string_copy_up].
  - exists (mem s). split; [now destruct s|auto].
  - rewrite Hir. cbn [store_at].
    set (v := deref_at _ _ _).
    destruct (IH (j + 1) (set_mem (mem_set (mem s) (p + j) v) s) p Hir)
      as (m' & E & Hlen & Hag).
    exists m'. split; [rewrite E; reflexivity|].
    split; [rewrite Hlen; simpl_state; apply length_mem_set|].
    intros k Hk. rewrite Hag by lia. simpl_state.
    apply mem_get_set_other. lia.
Qed.

Lemma string_copy_down_mem n : forall s p,
  ir s = Pmem p ->
  exists m',
    string_copy_down n s = set_mem m' s /\
    length m' = length (mem s) /\
    forall k, ~ (p <= k < p + Z.of_nat n) ->
              mem_get m' k = mem_get (mem s) k.
Proof.
  induction n as [|n IH]; intros s p Hir; cbn [string_copy_down].
  - exists (mem s). split; [now destruct s|auto].
  - rewrite Hir. cbn [store_at].
    set (v := deref_at _ _ _).
    destruct (IH (set_mem (mem_set (mem s) (p + Z.of_nat n) v) s) p Hir)
      as (m' & E & Hlen & Hag).
    exists m'. split; [rewrite E; reflexivity|].
    split; [rewrite Hlen; simpl_state; apply length_mem_set|].
    intros k Hk. rewrite Hag by lia. simpl_state.
    apply mem_get_set_other. lia.
Qed.

Lemma string_copy_up_ibuffer n : forall j s p,
  ir s = Pibuf p ->
  exists b',
    string_copy_up n j s = set_ibuffer b' s /\
    length b' = length (ibuffer s) /\
    forall k, ~ (p + j <= k < p + j + Z.of_nat n) ->
              mem_get b' k = mem_get (ibuffer s) k.
Proof.
  induction n as [|n IH]; intros j s p Hir; cbn [string_copy_up].
  - exists (ibuffer s). split; [now destruct s|auto].
  - rewrite Hir. cbn [store_at].
    set (v := deref_at _ _ _).
    destruct (IH (j + 1) (set_ibuffer (mem_set (ibuffer s) (p + j) v) s) p Hir)
      as (m' & E & Hlen & Hag).
    exists m'. split; [rewrite E; reflexivity|].
    split; [rewrite Hlen; simpl_state; apply length_mem_set|].
    intros k Hk. rewrite Hag by lia. simpl_state.
    apply mem_get_set_other. lia.
Qed.

Lemma string_copy_down_ibuffer n : forall s p,
  ir s = Pibuf p ->
  exists b',
    string_copy_down n s = set_ibuffer b' s /\
    length b' = length (ibuffer s) /\
    forall k, ~ (p <= k < p + Z.of_nat n) ->
              mem_get b' k = mem_get (ibuffer s) k.
Proof.
  induction n as [|n IH]; intros s p Hir; cbn [string_copy_down].
  - exists (ibuffer s). split; [now destruct s|auto].
  - rewrite Hir. cbn [store_at].
    set (v := deref_at _ _ _).
    destruct (IH (set_ibuffer (mem_set (ibuffer s) (p + Z.of_nat n) v) s) p Hir)
      as (m' & E & Hlen & Hag).
    exists m'. split; [rewrite E; reflexivity|].
    split; [rewrite Hlen; simpl_state; apply length_mem_set|].
    intros k Hk. rewrite Hag by lia. simpl_state.
    apply mem_get_set_other. lia.
Qed.

(** ** The string functions on a string that exists *)

Section FoundString.

Variables (xcl ycl a len : Z) (s : state).
Hypothesis Hname : xcl <> 64.
Hypothesis Hfound : fst (bfind STRINGVAR xcl ycl s) = a.
Hypothesis Hlen : z_a (snd (bfind STRINGVAR xcl ycl s)) = len.
Hypothesis Hnz : a <> 0.
Hypothesis Her : er s = 0.
Hypothesis Ha : 0 <= a /\ a + 1 < 65536.

Lemma found_pair :
  exists zz, bfind STRINGVAR xcl ycl s = (a, set_z zz s) /\
             z_a (set_z zz s) = len.
Proof.
  destruct (bfind_z STRINGVAR xcl ycl s) as (zz & Hz).
  exists zz. rewrite <- Hz. split; [|exact Hlen].
  rewrite <- Hfound. apply surjective_pairing.
Qed.

Lemma getstring_found i :
  1 <= i <= len - strindexsize ->
  exists zz, getstring xcl ycl i s
             = (Pmem (to_addr (a + i - 1 + strindexsize)), set_z zz s).
Proof.
  intros Hi. destruct found_pair as (zz & E & Hz). exists zz.
  unfold getstring. destruct (Z.eqb_spec xcl 64); [contradiction|].
  rewrite E. simpl_state. rewrite Her. cbn [Z.eqb negb].
  destruct (Z.eqb_spec a 0); [contradiction|]. rewrite Hz.
  destruct (Z.ltb_spec i 1); [lia|].
  destruct (Z.ltb_spec (len - strindexsize) i); [lia|]. reflexivity.
Qed.

Lemma lenstring_found :
  exists zz, lenstring xcl ycl s
             = (le_value [mem_get (mem s) a; mem_get (mem s) (a + 1)],
                set_z zz s).
Proof.
  destruct found_pair as (zz & E & Hz).
  unfold lenstring. destruct (Z.eqb_spec xcl 64); [contradiction|].
  rewrite E. simpl_state. rewrite Her. cbn [Z.eqb negb].
  unfold getnumber, strindexsize. cbn [Z.eqb Pos.eqb]. simpl_state.
  rewrite (to_addr_small (a + 1)) by lia.
  set (v := le_value _). exists v. rewrite set_z_set_z. f_equal.
  unfold z_a. simpl_state. apply to_addr_small. apply le_value_two_range.
Qed.

Lemma stringdim_found :
  exists zz, stringdim xcl ycl s = (len - strindexsize, set_z zz s).
Proof.
  destruct found_pair as (zz & E & Hz). exists zz.
  unfold stringdim, blength. destruct (Z.eqb_spec xcl 64); [contradiction|].
  rewrite E. destruct (Z.eqb_spec a 0); [contradiction|]. now rewrite Hz.
Qed.

Lemma setstringlength_found l :
  0 <= l < len -> l < 65536 ->
  exists zz, setstringlength xcl ycl l s
             = set_mem (mem_set (mem_set (mem s) a (to_schar (zbyte 0 l)))
                          (a + 1) (to_schar (zbyte 1 l)))
                 (set_z zz s).
Proof.
  intros Hl Hl'. destruct found_pair as (zz & E & Hz).
  unfold setstringlength. destruct (Z.eqb_spec xcl 64); [contradiction|].
  rewrite E. simpl_state. rewrite Her. cbn [Z.eqb negb].
  destruct (Z.eqb_spec a 0); [contradiction|]. rewrite Hz.
  destruct (Z.ltb_spec l len); [|lia].
  exists (z (set_z_a l (set_z zz s))).
  unfold setnumber, strindexsize, poke. cbn [Z.eqb Pos.eqb]. simpl_state.
  rewrite (to_addr_small (a + 1)) by lia.
  assert (Hb : forall i, 0 <= i <= 1 ->
             zbyte i (z (set_z_a l (set_z zz s))) = zbyte i l).
  { intros i Hi. unfold set_z_a. simpl_state. unfold zbyte, to_num.
    rewrite (to_addr_small l) by lia.
    assert (Ei : i = 0 \/ i = 1) by lia.
    destruct Ei as [-> | ->]; cbn [Z.pow Z.pow_pos Pos.iter Z.mul Pos.mul];
      Z.div_mod_to_equations; lia. }
  rewrite !Hb by lia. unfold set_z_a. simpl_state.
  rewrite set_z_set_z. reflexivity.
Qed.

End FoundString.

Lemma max_length_cases old i n :
  (if old <? i + n then i + n - 1 else old) = Z.max old (i + n - 1).
Proof. destruct (Z.ltb_spec old (i + n)); lia. Qed.

(** C4. The assignment of a string of [n] characters to [A$(i)], for a
    string that exists, an index [i] inside its dimension and a length
    that was inside the dimension before: when [i + n - 1] does not
    exceed the dimension, no error is raised and the new length is the
    maximum of the old length and [i + n - 1].  The string is a
    string of the heap or the input buffer [@$]. *)
Theorem assignment_string_length
  (s : state) (xcl ycl i n : Z) (rest : list Z) :
  er s = 0 -> stack s = n :: rest -> 0 <= n < 65536 ->
  (xcl = 64 -> ibuffer s <> []) ->
  (xcl <> 64 -> heap_ok s /\ fst (bfind STRINGVAR xcl ycl s) <> 0) ->
  1 <= i <= fst (stringdim xcl ycl s) ->
  0 <= fst (lenstring xcl ycl s) <= fst (stringdim xcl ycl s) ->
  i + n - 1 <= fst (stringdim xcl ycl s) ->
  er (assignment_string xcl ycl i s) = 0 /\
  fst (lenstring xcl ycl (assignment_string xcl ycl i s))
  = Z.max (fst (lenstring xcl ycl s)) (i + n - 1).
Proof.
  intros Her Hst Hn Hbuf Hheap Hi Hold Hfit.
  destruct (Z.eq_dec xcl 64) as [Hat | Hname].
  - (* the input buffer *)
    clear Hheap. specialize (Hbuf Hat).
    unfold stringdim, lenstring in Hi, Hold, Hfit |- *.
    unfold assignment_string, pop, getstring, lenstring, stringdim,
      setstringlength.
    rewrite Hst. subst xcl. cbn [Z.eqb Pos.eqb fst snd] in *.
    simpl_state. rewrite Her. cbn [Z.eqb negb].
    unfold BUFSIZE in *.
    rewrite (to_addr_small n) by lia.
    set (old := mem_get (ibuffer s) 0) in *.
    rewrite (to_addr_small old) by lia.
    destruct (Z.ltb_spec (92 - 1) (i + n - 1)); [lia|].
    rewrite max_length_cases.
    rewrite (to_addr_small (Z.max old (i + n - 1))) by lia.
    rewrite (to_schar_char (Z.max old (i + n - 1))) by (unfold is_char; lia).
    set (s4 := set_ir (Pibuf i) (set_stack rest s)).
    assert (Hir : ir s4 = Pibuf i) by reflexivity.
    assert (Hc : exists b',
               (if i <? x s4 then string_copy_up (Z.to_nat n) 0 s4
                else string_copy_down (Z.to_nat n) s4) = set_ibuffer b' s4 /\
               length b' = length (ibuffer s)).
    { destruct (i <? x s4).
      - destruct (string_copy_up_ibuffer (Z.to_nat n) 0 s4 i Hir)
          as (b' & E & Hl & _). exists b'. auto.
      - destruct (string_copy_down_ibuffer (Z.to_nat n) s4 i Hir)
          as (b' & E & Hl & _). exists b'. auto. }
    destruct Hc as (b' & E & Hl).
    first [rewrite E | change (x s4) with (x s) in E; rewrite E]. simpl_state.
    split; [exact Her|].
    apply mem_get_set_same.
    destruct (ibuffer s); [congruence|]. destruct b'; [discriminate|].
    cbn [length]. lia.
  - (* a string of the heap *)
    clear Hbuf. destruct (Hheap Hname) as (Hok & Hnz). clear Hheap.
    set (a := fst (bfind STRINGVAR xcl ycl s)) in *.
    destruct (bfind_found STRINGVAR xcl ycl s a Hok eq_refl Hnz)
      as (len & Hlen & Hlo & Hhi & Hlen0 & Fr).
    destruct Hok as (Hh & Hm & Hm' & _).
    destruct (stringdim_found xcl ycl a len s Hname eq_refl Hlen Hnz)
      as (zd & Ed).
    rewrite Ed in Hi, Hold, Hfit. cbn [fst] in Hi, Hold, Hfit.
    unfold strindexsize in Hi, Hold, Hfit.
    assert (Ha : 0 <= a /\ a + 1 < 65536) by lia.
    destruct (lenstring_found xcl ycl a len s Hname eq_refl Hlen Hnz Her Ha)
      as (zl & El).
    rewrite El in Hold |- *. cbn [fst] in Hold |- *.
    set (old := le_value [mem_get (mem s) a; mem_get (mem s) (a + 1)]) in *.
    (* the state that [getstring] sees *)
    unfold assignment_string, pop. rewrite Hst.
    set (s1 := set_stack rest s).
    assert (F1 : fst (bfind STRINGVAR xcl ycl s1) = a /\
                 z_a (snd (bfind STRINGVAR xcl ycl s1)) = len)
      by (apply Fr; auto).
    destruct F1 as (F1a & F1l).
    destruct (getstring_found xcl ycl a len s1 Hname F1a F1l Hnz Her Ha i)
      as (z1 & E1); [unfold strindexsize; lia|].
    rewrite E1. cbv beta iota zeta. simpl_state.
    change (er s1) with (er s). rewrite Her.
    cbn [Z.eqb negb]. unfold strindexsize.
    rewrite (to_addr_small (a + i - 1 + 2)) by lia.
    set (s2 := set_ir (Pmem (a + i - 1 + 2)) (set_z z1 s1)).
    assert (F2 : fst (bfind STRINGVAR xcl ycl s2) = a /\
                 z_a (snd (bfind STRINGVAR xcl ycl s2)) = len)
      by (apply Fr; auto).
    destruct F2 as (F2a & F2l).
    destruct (lenstring_found xcl ycl a len s2 Hname F2a F2l Hnz Her Ha)
      as (z2 & E2).
    rewrite E2. cbv beta iota zeta.
    change (mem s2) with (mem s). fold old.
    set (s3 := set_z z2 s2).
    assert (F3 : fst (bfind STRINGVAR xcl ycl s3) = a /\
                 z_a (snd (bfind STRINGVAR xcl ycl s3)) = len)
      by (apply Fr; auto).
    destruct F3 as (F3a & F3l).
    destruct (stringdim_found xcl ycl a len s3 Hname F3a F3l Hnz)
      as (z3 & E3).
    rewrite E3. cbv beta iota zeta.
    rewrite (to_addr_small n) by lia.
    rewrite (to_addr_small old) by lia.
    unfold strindexsize.
    destruct (Z.ltb_spec (len - 2) (i + n - 1)); [lia|].
    rewrite max_length_cases.
    rewrite (to_addr_small (Z.max old (i + n - 1))) by lia.
    set (s4 := set_z z3 s3).
    assert (Hir : ir s4 = Pmem (a + i - 1 + 2)) by reflexivity.
    assert (Hc : exists m',
               (if i <? x s4 then string_copy_up (Z.to_nat n) 0 s4
                else string_copy_down (Z.to_nat n) s4) = set_mem m' s4 /\
               length m' = length (mem s) /\
               forall k, ~ (a <= k < a + len) -> mem_get m' k = mem_get (mem s) k).
    { destruct (i <? x s4).
      - destruct (string_copy_up_mem (Z.to_nat n) 0 s4 _ Hir)
          as (m' & E & Hl & Hag). exists m'. repeat split; auto.
        intros k Hk. apply Hag. lia.
      - destruct (string_copy_down_mem (Z.to_nat n) s4 _ Hir)
          as (m' & E & Hl & Hag). exists m'. repeat split; auto.
        intros k Hk. apply Hag. lia. }
    destruct Hc as (m' & E & Hl & Hag).
    first [rewrite E | change (x s4) with (x s) in E; rewrite E].
    set (s5 := set_mem m' s4).
    assert (F5 : fst (bfind STRINGVAR xcl ycl s5) = a /\
                 z_a (snd (bfind STRINGVAR xcl ycl s5)) = len)
      by (apply Fr; auto).
    destruct F5 as (F5a & F5l).
    destruct (setstringlength_found xcl ycl a len s5 Hname F5a F5l Hnz Her Ha
                (Z.max old (i + n - 1))) as (z5 & E5); [lia|lia|].
    rewrite E5. simpl_state. change (mem s5) with m'.
    set (m6 := mem_set (mem_set m' a _) (a + 1) _).
    set (s6 := set_mem m6 (set_z z5 s5)).
    split; [exact Her|].
    assert (F6 : fst (bfind STRINGVAR xcl ycl s6) = a /\
                 z_a (snd (bfind STRINGVAR xcl ycl s6)) = len).
    { apply Fr; auto. intros k Hk. subst s6 m6. simpl_state.
      rewrite !mem_get_set_other by lia. now apply Hag. }
    destruct F6 as (F6a & F6l).
    destruct (lenstring_found xcl ycl a len s6 Hname F6a F6l Hnz Her Ha)
      as (z6 & E6).
    rewrite E6. cbn [fst]. change (mem s6) with m6. subst m6.
    rewrite mem_get_set_other by lia.
    rewrite mem_get_set_same by lia.
    rewrite mem_get_set_same by (rewrite length_mem_set; lia).
    rewrite le_value_zbytes. apply to_addr_small. lia.
Qed.

Lemma assignment_string_length_witness :
  er (assignment_string 65 0 3 hexyo_example) = 0 /\
  fst (lenstring 65 0 (assignment_string 65 0 3 hexyo_example)) = 5 /\
  string_chars 65 0 (assignment_string 65 0 3 hexyo_example) = codes "HEXYO".
Proof.
  assert (H : er (assignment_string 65 0 3 hexyo_example) = 0 /\
              fst (lenstring 65 0 (assignment_string 65 0 3 hexyo_example))
              = Z.max (fst (lenstring 65 0 hexyo_example)) (3 + 2 - 1)).
  { apply (assignment_string_length hexyo_example 65 0 3 2 []).
    - vm_compute; reflexivity.
    - vm_compute; reflexivity.
    - lia.
    - intros H; discriminate H.
    - intros _. split.
      + vm_compute. repeat split; discriminate.
      + vm_compute. discriminate.
    - vm_compute. split; discriminate.
    - vm_compute. split; discriminate.
    - vm_compute. discriminate. }
  destruct H as (H1 & H2). split; [exact H1|]. split.
  - rewrite H2. vm_compute. reflexivity.
  - vm_compute. reflexivity.
Defined.

(** C4, the counterexample.  After [DIM A$(8)] and [A$=] with HELLO,
    the assignment [A$(9)=] with the empty string has start + length
    - 1 = 8, the dimension, and on a fresh [DIM A$(8)] the assignment
    [A$(0)=] with XY has start + length - 1 = 1; both raise the Range
    error, and the length of the string stays what it was instead of
    becoming 8 and 1. *)
Lemma assignment_string_start_range :
  (stack empty_source_example = [0] /\
   fst (stringdim 65 0 empty_source_example) = 8 /\
   fst (lenstring 65 0 empty_source_example) = 5 /\
   9 + 0 - 1 <= fst (stringdim 65 0 empty_source_example) /\
   Z.max (fst (lenstring 65 0 empty_source_example)) (9 + 0 - 1) = 8 /\
   er (assignment_string 65 0 9 empty_source_example) = ERANGE /\
   mem (assignment_string 65 0 9 empty_source_example)
   = mem empty_source_example /\
   fst (lenstring 65 0
          (reseterror (assignment_string 65 0 9 empty_source_example))) = 5) /\
  (stack start_zero_example = [2] /\
   fst (stringdim 65 0 start_zero_example) = 8 /\
   fst (lenstring 65 0 start_zero_example) = 0 /\
   0 + 2 - 1 <= fst (stringdim 65 0 start_zero_example) /\
   Z.max (fst (lenstring 65 0 start_zero_example)) (0 + 2 - 1) = 1 /\
   er (assignment_string 65 0 0 start_zero_example) = ERANGE /\
   mem (assignment_string 65 0 0 start_zero_example)
   = mem start_zero_example /\
   fst (lenstring 65 0
          (reseterror (assignment_string 65 0 0 start_zero_example))) = 0).
Proof.
  split.
  - refine (conj _ (conj _ (conj _ (conj _ (conj _ (conj _ (conj _ _)))))));
      vm_compute; try reflexivity; discriminate.
  - refine (conj _ (conj _ (conj _ (conj _ (conj _ (conj _ (conj _ _)))))));
      vm_compute; try reflexivity; discriminate.
Qed.


(** * The program editor *)

(** C1 on a machine with 128 bytes that holds the lines 20 and 30, 58
    bytes each, when [10 PRINT A] is typed: the line is appended at 116
    and has to go in front.  The first [moveblock] of the insertion
    needs 7 bytes beyond [top] and fails, the report is printed, and the
    second [moveblock] runs all the same: it copies the 7 bytes beyond
    [top] over the start of line 20.  The program then starts with a
    byte that is no line number, the line 10 stands after line 30, and
    [firstline] finds no line. *)
Theorem storeline_insert_overflow :
  top storeline_example = 116 /\ er storeline_example = 0 /\
  firstn 6 (mem storeline_example) = [LINENUMBER; 20; 0; TPRINT; STRING; 52] /\
  top storeline_overflow = 123 /\
  firstn 8 (mem storeline_overflow) = [0; 0; 0; 0; 0; 0; 0; 66] /\
  firstn 7 (skipn 116 (mem storeline_overflow))
  = [LINENUMBER; 10; 0; TPRINT; VARIABLE; 65; 0] /\
  token (firstline storeline_overflow) = EOL /\
  out storeline_overflow
  = out storeline_example ++ codes "> Memory Error" ++ [10].
Proof. vm_compute. repeat split; reflexivity. Qed.


(** * The evaluation stack *)

(** A value pushed on a stack that is not full is popped again, as a
    [number_t], and the state is the one before the push. *)
Theorem push_pop (v : Z) (s : state) :
  Z.of_nat (length (stack s)) < STACKSIZE ->
  pop (push v s) = (to_num v, s).
Proof.
  intros H. unfold push.
  destruct (Z.eqb_spec (Z.of_nat (length (stack s))) STACKSIZE); [lia|].
  unfold pop. simpl_state. destruct s; reflexivity.
Qed.

Lemma push_pop_witness :
  pop (push 4294967303 bmalloc_example) = (7, bmalloc_example).
Proof.
  assert (H : Z.of_nat (length (stack bmalloc_example)) < STACKSIZE)
    by (vm_compute; reflexivity).
  rewrite (push_pop 4294967303 bmalloc_example H). reflexivity.
Defined.

(** A push on a full stack and a pop from an empty one raise the
    STACK error, which empties the stack; the pop yields 0. *)
Theorem stack_errors (v : Z) (s : state) :
  (Z.of_nat (length (stack s)) = STACKSIZE ->
   er (push v s) = ESTACK /\ stack (push v s) = []) /\
  (stack s = [] ->
   fst (pop s) = 0 /\ er (snd (pop s)) = ESTACK /\ stack (snd (pop s)) = []).
Proof.
  split.
  - intros H. unfold push. rewrite H. rewrite Z.eqb_refl.
    destruct (error_sets ESTACK s) as (He & Hs & _). auto.
  - intros H. unfold pop. rewrite H. cbn [fst snd].
    destruct (error_sets ESTACK s) as (He & Hs & _). auto.
Qed.

Lemma stack_errors_witness :
  er (push 1 (set_stack (repeat 0 15) bmalloc_example)) = ESTACK /\
  fst (pop bmalloc_example) = 0 /\ er (snd (pop bmalloc_example)) = ESTACK.
Proof.
  split.
  - destruct (stack_errors 1 (set_stack (repeat 0 15) bmalloc_example))
      as (H & _).
    destruct H as (H & _); [vm_compute; reflexivity | exact H].
  - destruct (stack_errors 1 bmalloc_example) as (_ & H).
    destruct H as (H1 & H2 & _); [vm_compute; reflexivity | auto].
Defined.

(** * Numbers in memory *)

Lemma zbyte_range i v : 0 <= zbyte i v < 256.
Proof. unfold zbyte. apply Z.mod_pos_bound. lia. Qed.

Lemma to_uchar_schar_zbyte i v : to_uchar (to_schar (zbyte i v)) = zbyte i v.
Proof.
  rewrite to_uchar_to_schar. unfold to_uchar. apply Z.mod_small.
  apply zbyte_range.
Qed.

Lemma zbytes_value v :
  to_num (zbyte 0 v + 256 * (zbyte 1 v + 256 * (zbyte 2 v + 256 * (zbyte 3 v + 256 * 0))))
  = to_num v.
Proof.
  unfold zbyte, to_num.
  change (256 ^ 0) with 1. change (256 ^ 1) with 256.
  change (256 ^ 2) with 65536. change (256 ^ 3) with 16777216.
  Z.div_mod_to_equations. lia.
Qed.

(** Four bytes written at [a] and read back, as a [number_t]. *)
Lemma read_write_bytes a v m :
  0 <= a -> a + 3 < Z.of_nat (length m) -> a + 3 < 65536 ->
  to_num (le_value (read_bytes 4 a (mem_get (write_bytes 4 0 a v m))))
  = to_num v.
Proof.
  intros Ha Hlen Hhi. cbn [write_bytes read_bytes].
  rewrite !to_addr_small by lia.
  replace (a + 1 + 1) with (a + 2) by lia.
  replace (a + 2 + 1) with (a + 3) by lia.
  rewrite !mem_get_set by (rewrite ?length_mem_set; lia).
  repeat match goal with
         | |- context [?p =? ?q] =>
             destruct (Z.eqb_spec p q); [lia|]
         end.
  rewrite !Z.eqb_refl.
  cbn [le_value]. rewrite !to_uchar_schar_zbyte.
  change (0 + 1) with 1. change (1 + 1) with 2. change (2 + 1) with 3.
  apply zbytes_value.
Qed.

(** A number written by [setnumber] is read back by [getnumber]. *)
Theorem setnumber_getnumber (a : Z) (s : state) :
  0 <= a -> a + 3 < Z.of_nat (length (mem s)) -> a + 3 < 65536 ->
  -2147483648 <= z s < 2147483648 ->
  z (getnumber a numsize (setnumber a numsize s)) = z s.
Proof.
  intros Ha Hlen Hhi Hz.
  unfold getnumber, setnumber, numsize. cbn [Z.eqb Pos.eqb]. simpl_state.
  change (Z.to_nat 4) with 4%nat.
  rewrite read_write_bytes by assumption. apply to_num_small. exact Hz.
Qed.

Lemma setnumber_getnumber_witness :
  z (getnumber 10 numsize (setnumber 10 numsize (set_z (-2) bmalloc_example)))
  = -2.
Proof.
  apply (setnumber_getnumber 10 (set_z (-2) bmalloc_example)).
  - lia.
  - vm_compute. reflexivity.
  - lia.
  - vm_compute. split; [discriminate | reflexivity].
Defined.

(** * The variables A to Z *)

(** The value assigned to one of the static variables A..Z is the
    value read back, and the other static variables keep theirs. *)
Theorem setvar_getvar_static (c c' v : Z) (s : state) :
  65 <= c <= 90 -> 65 <= c' <= 90 ->
  length (vars s) = Z.to_nat VARSIZE ->
  fst (getvar c' 0 (setvar c 0 v s))
  = if c' =? c then v else fst (getvar c' 0 s).
Proof.
  intros Hc Hc' Hlen. unfold getvar, setvar.
  destruct (Z.leb_spec 65 c); [|lia]. destruct (Z.leb_spec c 91); [|lia].
  destruct (Z.leb_spec 65 c'); [|lia]. destruct (Z.leb_spec c' 91); [|lia].
  cbn [Z.eqb andb fst]. simpl_state.
  destruct (Z.eqb_spec c' c) as [-> | Hne].
  - apply nth_list_upd_same. rewrite Hlen. unfold VARSIZE. lia.
  - apply nth_list_upd_other. lia.
Qed.

Lemma setvar_getvar_static_witness :
  fst (getvar 73 0 (setvar 73 0 5 bmalloc_example)) = 5 /\
  fst (getvar 74 0 (setvar 73 0 5 bmalloc_example)) = 0.
Proof.
  assert (H : length (vars bmalloc_example) = Z.to_nat VARSIZE)
    by (vm_compute; reflexivity).
  split.
  - rewrite (setvar_getvar_static 73 73 5 bmalloc_example); [reflexivity|lia|lia|exact H].
  - rewrite (setvar_getvar_static 73 74 5 bmalloc_example); [reflexivity|lia|lia|exact H].
Defined.

(** * ABS and SGN *)

(** ABS replaces the top of the stack by its absolute value. *)
Theorem xabs_spec (v : Z) (rest : list Z) (s : state) :
  stack s = v :: rest -> Z.of_nat (length (stack s)) <= STACKSIZE ->
  -2147483648 < v < 2147483648 ->
  stack (xabs s) = Z.abs v :: rest /\ er (xabs s) = er s.
Proof.
  intros Hst Hlen Hv. unfold xabs. rewrite (pop_cons _ _ _ Hst).
  simpl_state.
  assert (Hp : forall w sx, stack sx = rest -> er sx = er s ->
               stack (push w sx) = to_num w :: rest /\ er (push w sx) = er s).
  { intros w sx Hs He. unfold push. rewrite Hs.
    rewrite Hst in Hlen. cbn [length] in Hlen.
    destruct (Z.eqb_spec (Z.of_nat (length rest)) STACKSIZE); [lia|].
    simpl_state. rewrite ?Hs. auto. }
  destruct (Z.ltb_spec v 0).
  - simpl_state.
    destruct (Hp (to_num (- v))
                (set_x (to_num (- v)) (set_x v (set_stack rest s))))
      as (H1 & H2); auto.
    rewrite H1, H2. split; auto. f_equal.
    rewrite (to_num_small (- v)) by lia. rewrite to_num_small by lia. lia.
  - simpl_state. destruct (Hp v (set_x v (set_stack rest s))) as (H1 & H2); auto.
    rewrite H1, H2. split; auto. f_equal.
    rewrite to_num_small by lia. lia.
Qed.

Lemma xabs_spec_witness : stack (xabs rnd_example) = [1].
Proof.
  assert (H1 : stack rnd_example = -1 :: []) by reflexivity.
  assert (H2 : Z.of_nat (length (stack rnd_example)) <= STACKSIZE)
    by (vm_compute; discriminate).
  assert (H3 : -2147483648 < -1 < 2147483648) by lia.
  destruct (xabs_spec (-1) [] rnd_example H1 H2 H3) as (H & _).
  rewrite H. reflexivity.
Defined.

(** SGN replaces the top of the stack by its sign. *)
Theorem xsgn_spec (v : Z) (rest : list Z) (s : state) :
  stack s = v :: rest -> Z.of_nat (length (stack s)) <= STACKSIZE ->
  stack (xsgn s) = Z.sgn v :: rest /\ er (xsgn s) = er s.
Proof.
  intros Hst Hlen. unfold xsgn. rewrite (pop_cons _ _ _ Hst).
  unfold push. simpl_state.
  rewrite Hst in Hlen. cbn [length] in Hlen.
  destruct (Z.eqb_spec (Z.of_nat (length rest)) STACKSIZE); [lia|].
  simpl_state. split; auto. f_equal.
  destruct (Z.ltb_spec 0 v).
  - destruct (Z.ltb_spec 1 0); [lia|]. rewrite to_num_small by lia. lia.
  - destruct (Z.ltb_spec v 0).
    + rewrite to_num_small by lia. lia.
    + assert (v = 0) by lia. subst v. reflexivity.
Qed.

Lemma xsgn_spec_witness : stack (xsgn rnd_example) = [-1].
Proof.
  assert (H1 : stack rnd_example = -1 :: []) by reflexivity.
  assert (H2 : Z.of_nat (length (stack rnd_example)) <= STACKSIZE)
    by (vm_compute; discriminate).
  destruct (xsgn_spec (-1) [] rnd_example H1 H2) as (H & _).
  rewrite H. reflexivity.
Defined.

(** * RND *)

(** For a positive argument the random number is at least 0 and less
    than the argument. *)
Theorem rnd_range (arg : Z) (rest : list Z) (s : state) :
  stack s = arg :: rest -> Z.of_nat (length (stack s)) <= STACKSIZE ->
  0 <= rd s < 65536 -> 0 < arg < 2147483648 ->
  exists r, stack (rnd s) = r :: rest /\ 0 <= r < arg.
Proof.
  intros Hst Hlen Hrd Harg. unfold rnd. rewrite (pop_cons _ _ _ Hst).
  simpl_state.
  destruct (Z.leb_spec 0 arg); [|lia].
  rewrite Z.rem_mod_nonneg by lia.
  set (r := to_addr ((31421 * rd s + 6927) mod 65536)).
  assert (Hr : 0 <= r < 65536) by apply to_addr_range.
  unfold push. simpl_state.
  rewrite Hst in Hlen. cbn [length] in Hlen.
  destruct (Z.eqb_spec (Z.of_nat (length rest)) STACKSIZE); [lia|].
  simpl_state. eexists. split; [reflexivity|].
  rewrite Z.quot_div_nonneg by nia.
  assert (Hq : 0 <= r * arg / 65536 < arg).
  { split; [apply Z.div_pos; nia|].
    apply Z.div_lt_upper_bound; nia. }
  rewrite to_num_small by lia. exact Hq.
Qed.

Lemma rnd_range_witness :
  exists r, stack (rnd (set_stack [6] bmalloc_example)) = [r] /\ 0 <= r < 6.
Proof.
  apply (rnd_range 6 [] (set_stack [6] bmalloc_example)).
  - reflexivity.
  - vm_compute. discriminate.
  - vm_compute. split; [discriminate | reflexivity].
  - lia.
Defined.

(** * The FOR stack *)

(** A record pushed on the FOR stack is popped again into the
    registers it came from, and dropped without a trace; a push on a
    full FOR stack raises the FOR error. *)
Theorem forstack_push_pop (s : state) :
  (Z.of_nat (length (forstack s)) < FORDEPTH ->
   popforstack (pushforstack s) = s /\ dropforstack (pushforstack s) = s) /\
  (FORDEPTH <= Z.of_nat (length (forstack s)) ->
   er (pushforstack s) = EFOR).
Proof.
  split; intros H; unfold pushforstack.
  - destruct (Z.ltb_spec (Z.of_nat (length (forstack s))) FORDEPTH); [|lia].
    unfold popforstack, dropforstack. simpl_state.
    split; destruct s; reflexivity.
  - destruct (Z.ltb_spec (Z.of_nat (length (forstack s))) FORDEPTH); [lia|].
    apply error_er.
Qed.

Lemma forstack_push_pop_witness :
  popforstack (pushforstack xnext_example) = xnext_example /\
  er (pushforstack (set_forstack (repeat (mkfor 73 0 0 10 1) 4) xnext_example))
  = EFOR.
Proof.
  split.
  - destruct (forstack_push_pop xnext_example) as (H & _).
    destruct H as (H & _); [vm_compute; reflexivity | exact H].
  - destruct (forstack_push_pop
                (set_forstack (repeat (mkfor 73 0 0 10 1) 4) xnext_example))
      as (_ & H).
    apply H. vm_compute. discriminate.
Defined.


(** * Clearing memory *)

Lemma length_zero_up n : forall i b m, length (zero_up n i b m) = length m.
Proof.
  induction n as [|n IH]; intros; cbn [zero_up]; auto.
  rewrite IH. apply length_mem_set.
Qed.

Lemma zero_up_get n : forall i b m a,
  0 <= b + i -> b + i + Z.of_nat n <= Z.of_nat (length m) ->
  mem_get (zero_up n i b m) a =
  if (b + i <=? a) && (a <? b + i + Z.of_nat n) then 0 else mem_get m a.
Proof.
  induction n as [|n IH]; intros i b m a H0 Hlen; cbn [zero_up].
  - destruct (Z.leb_spec (b + i) a), (Z.ltb_spec a (b + i + Z.of_nat 0));
      cbn [andb]; auto; lia.
  - rewrite IH by (rewrite ?length_mem_set; lia).
    rewrite mem_get_set by lia.
    replace (b + (i + 1)) with (b + i + 1) by lia.
    destruct (Z.leb_spec (b + i + 1) a), (Z.ltb_spec a (b + i + 1 + Z.of_nat n)),
      (Z.leb_spec (b + i) a), (Z.ltb_spec a (b + i + Z.of_nat (S n))),
      (Z.eqb_spec (b + i) a); cbn [andb]; auto; lia.
Qed.

(** [zeroblock b l] clears the [l + 1] bytes from [b] to [b + l], one
    more than [l], and no other byte; a block that ends beyond [himem]
    raises the memory error and clears nothing. *)
Theorem zeroblock_spec (b l : Z) (s : state) :
  0 <= b -> himem s < Z.of_nat (length (mem s)) ->
  (1 <= l -> b + l <= himem s ->
   forall a, mem_get (mem (zeroblock b l s)) a
             = if (b <=? a) && (a <=? b + l) then 0 else mem_get (mem s) a) /\
  (himem s < b + l ->
   er (zeroblock b l s) = EOUTOFMEMORY /\ mem (zeroblock b l s) = mem s).
Proof.
  intros Hb Hlen. split.
  - intros Hl Hfit a. unfold zeroblock.
    destruct (Z.ltb_spec (himem s) (b + l)); [lia|].
    destruct (Z.ltb_spec l 1); [lia|]. simpl_state.
    rewrite zero_up_get by lia.
    rewrite Z2Nat.id by lia. replace (b + 0) with b by lia.
    destruct (Z.leb_spec b a), (Z.ltb_spec a (b + (l + 1))),
      (Z.leb_spec a (b + l)); cbn [andb]; auto; lia.
  - intros Hover. unfold zeroblock.
    destruct (Z.ltb_spec (himem s) (b + l)); [|lia].
    rewrite error_er, error_mem. auto.
Qed.

Lemma zeroblock_spec_witness :
  mem (zeroblock 2 3 moveblock_example)
  = [1; 2; 0; 0; 0; 0; 7; 8; 0; 0; 0; 0; 0; 0; 0; 0] /\
  er (zeroblock 14 2 moveblock_example) = EOUTOFMEMORY.
Proof.
  assert (H0 : 0 <= 2) by lia.
  assert (H0' : 0 <= 14) by lia.
  assert (H1 : himem moveblock_example
               < Z.of_nat (length (mem moveblock_example)))
    by (vm_compute; reflexivity).
  split.
  - vm_compute. reflexivity.
  - destruct (zeroblock_spec 14 2 moveblock_example H0' H1) as (_ & H).
    destruct H as (H & _); [vm_compute; reflexivity | exact H].
Defined.

(** * NEW *)

Lemma bfind_no_objects t c d s : nvars s = 0 -> bfind t c d s = (0, s).
Proof. intros H. unfold bfind. rewrite H. reflexivity. Qed.

(** NEW leaves an empty program, an empty heap in which no name is
    found, empty stacks, no error and interactive mode, and a memory
    of zeros up to [memsize]. *)
Theorem xnew_spec (s : state) :
  1 <= memsize s < Z.of_nat (length (mem s)) -> memsize s < 65536 ->
  top (xnew s) = 0 /\ himem (xnew s) = memsize s /\ nvars (xnew s) = 0 /\
  er (xnew s) = 0 /\ st (xnew s) = SINT /\
  stack (xnew s) = [] /\ forstack (xnew s) = [] /\ gosubstack (xnew s) = [] /\
  heap_ok (xnew s) /\
  (forall t c d, fst (bfind t c d (xnew s)) = 0) /\
  (forall a, 0 <= a <= memsize s -> mem_get (mem (xnew s)) a = 0).
Proof.
  intros Hm Hm16.
  assert (E : xnew s =
    set_fnc 0 (set_forstack [] (set_gosubstack [] (set_nvars 0 (set_st SINT
      (set_st SINT (set_here 0 (set_er 0
        (set_mem (zero_up (Z.to_nat (memsize s + 1)) 0 0 (mem s))
          (set_top 0 (set_himem (memsize s) (set_stack [] s)))))))))))).
  { unfold xnew, clrforstack, clrgosubstack, reseterror, clearst, zeroblock.
    simpl_state.
    destruct (Z.ltb_spec (memsize s) (0 + memsize s)); [lia|].
    destruct (Z.ltb_spec (memsize s) 1); [lia|]. reflexivity. }
  rewrite E. simpl_state.
  repeat (split; [reflexivity|]).
  split; [|split].
  - unfold heap_ok. simpl_state. rewrite length_zero_up.
    repeat split; try lia.
  - intros t c d. rewrite bfind_no_objects by reflexivity. reflexivity.
  - intros a Ha. rewrite zero_up_get by lia.
    rewrite Z2Nat.id by lia.
    destruct (Z.leb_spec (0 + 0) a), (Z.ltb_spec a (0 + 0 + (memsize s + 1)));
      cbn [andb]; auto; lia.
Qed.

Lemma xnew_spec_witness :
  top (xnew storeline_example) = 0 /\
  mem_get (mem (xnew storeline_example)) 3 = 0 /\
  mem_get (mem storeline_example) 3 = TPRINT.
Proof.
  assert (H1 : 1 <= memsize storeline_example
               < Z.of_nat (length (mem storeline_example)))
    by (vm_compute; split; [discriminate | reflexivity]).
  assert (H2 : memsize storeline_example < 65536) by (vm_compute; reflexivity).
  destruct (xnew_spec storeline_example H1 H2)
    as (Ht & _ & _ & _ & _ & _ & _ & _ & _ & _ & Hz).
  split; [exact Ht|]. split.
  - apply Hz. vm_compute. split; discriminate.
  - vm_compute. reflexivity.
Defined.

(** * What the error handler and the lexer leave alone *)






(** * The heap after an allocation *)

(** The walk of [bfind] that found an object finds it again with more
    fuel and in every memory that agrees above the lowest object; the
    object matches the name, and its payload lies above the lowest
    object. *)
Lemma bfind_loop_found_more n : forall b lo t c d s a,
  heap_objs n b lo (mem s) -> 0 <= lo -> b < 65536 ->
  fst (bfind_loop n b t c d s) = a -> a <> 0 ->
  exists b',
    obj_match (mem s) b' t c d = true /\ a = obj_below (mem s) b' + 1 /\
    z_a (snd (bfind_loop n b t c d s)) = obj_len (mem s) b' /\
    lo <= obj_below (mem s) b' /\ b' <= b /\
    forall k s',
      (forall j, lo < j -> mem_get (mem s') j = mem_get (mem s) j) ->
      fst (bfind_loop (n + k) b t c d s') = a /\
      z_a (snd (bfind_loop (n + k) b t c d s')) = obj_len (mem s) b'.
Proof.
  induction n as [|n IH]; intros b lo t c d s a Hobjs Hlo Hb Ha Hne.
  - cbn [bfind_loop fst] in Ha. congruence.
  - cbn [heap_objs] in Hobjs. destruct Hobjs as (H1 & H2 & H3).
    unfold addrsize in H2.
    destruct (bfind_loop_step n b t c d s) as (zz & Hz & Hs); [lia|].
    rewrite Hs in Ha |- *.
    fold (obj_below (mem s) b) in *.
    rewrite (to_addr_small (obj_below (mem s) b)) in * by lia.
    destruct (obj_match (mem s) b t c d) eqn:Hm.
    + cbn [fst snd] in *. rewrite to_addr_small in Ha by lia.
      exists b.
      refine (conj Hm (conj (eq_sym Ha) (conj Hz (conj H1 (conj _ _)))));
        [lia|].
      intros k s' Hag.
      destruct (obj_agree (mem s) (mem s') b lo Hag H1) as (Eh & El & Eb & Em).
      destruct (bfind_loop_step (n + k) b t c d s') as (zz' & Hz' & Hs');
        [lia|].
      change (S n + k)%nat with (S (n + k)).
      rewrite Hs', Em, Hm, Eh, El. cbn [fst snd].
      fold (obj_below (mem s) b).
      rewrite (to_addr_small (obj_below (mem s) b)) by lia.
      rewrite to_addr_small by lia. rewrite Hz'. auto.
    + destruct (IH (obj_below (mem s) b) lo t c d (set_z zz s) a)
        as (b' & M & A & L & B & B' & F); auto; try lia.
      exists b'.
      refine (conj M (conj A (conj L (conj B (conj _ _))))); [lia|].
      intros k s' Hag.
      destruct (obj_agree (mem s) (mem s') b lo Hag H1) as (Eh & El & Eb & Em).
      destruct (bfind_loop_step (n + k) b t c d s') as (zz' & Hz' & Hs');
        [lia|].
      change (S n + k)%nat with (S (n + k)).
      rewrite Hs', Em, Hm, Eh, El.
      fold (obj_below (mem s) b).
      rewrite (to_addr_small (obj_below (mem s) b)) by lia.
      apply (F k (set_z zz' s')). exact Hag.
Qed.

Lemma heap_objs_extend n : forall b lo lo' m m',
  heap_objs n b lo m ->
  (forall j, lo < j -> mem_get m' j = mem_get m j) ->
  obj_below m' lo = lo' -> lo' <= lo - (addrsize + 3) ->
  heap_objs (S n) b lo' m'.
Proof.
  induction n as [|n IH]; intros b lo lo' m m' Hobjs Hag Hbel Hlo.
  - cbn [heap_objs] in *. subst b. rewrite Hbel. lia.
  - cbn [heap_objs] in Hobjs. destruct Hobjs as (H1 & H2 & H3).
    destruct (obj_agree m m' b lo Hag H1) as (_ & _ & Eb & _).
    change (heap_objs (S (S n)) b lo' m')
      with (lo' <= obj_below m' b /\ obj_below m' b <= b - (addrsize + 3) /\
            heap_objs (S n) (obj_below m' b) lo' m').
    rewrite Eb. unfold addrsize in *.
    split; [lia|]. split; [lia|].
    apply (IH _ lo lo' m m'); auto.
Qed.

(** The state after a successful [bmalloc]: everything the theorems
    below need. *)
Lemma bmalloc_post (s : state) (t c d l : Z) :
  heap_ok s -> is_char c -> is_char d ->
  t = VARIABLE \/ t = ARRAYVAR \/ t = STRINGVAR ->
  4 <= himem s ->
  fst (bmalloc t c d l s) <> 0 ->
  let s' := snd (bmalloc t c d l s) in
  nvars s' = nvars s + 1 /\ memsize s' = memsize s /\ top s' = top s /\
  er s' = er s /\
  himem s' = to_addr (himem s - bmalloc_vsize t l) /\
  bmalloc_vsize t l <= himem s - top s /\
  length (mem s') = length (mem s) /\
  (forall j, himem s < j -> mem_get (mem s') j = mem_get (mem s) j) /\
  obj_match (mem s') (himem s) t c d = true /\
  obj_hdr (mem s') (himem s) = (if t =? VARIABLE then 3 else 5) /\
  obj_len (mem s') (himem s) = to_addr (payload_request t l).
Proof.
  intros Hheap Hc Hd Ht Hh4 Hok.
  pose proof Hheap as (Hhi & Hms & Hms16 & Hnv & Hobjs).
  pose proof (heap_objs_count _ _ _ _ Hobjs) as Hcount.
  rewrite Z2Nat.id in Hcount by lia.
  assert (Hh16 : himem s < 65536) by lia.
  assert (Hnv16 : nvars s + 1 < 65536) by lia.
  assert (Hlen : himem s < Z.of_nat (length (mem s))) by lia.
  destruct (bmalloc_cases t c d l s Hok) as (Hnone & Hroom & Hret).
  destruct (bmalloc_snd t c d l s Hok) as (zz & Hsnd).
  cbv zeta. rewrite Hsnd. clear Hsnd Hret.
  set (s0 := set_z zz s).
  assert (Hh0 : himem s0 = himem s) by reflexivity.
  assert (Hm0 : mem s0 = mem s) by reflexivity.
  destruct (bmalloc_fill_regs t c d l s0) as (Rn & Rh & Rm & Re & Rt).
  destruct (bmalloc_fill_mem t c d l s0) as (v & Hv & Hmem);
    [rewrite Hh0; clear - Hh4 Hh16; lia|].
  cbv zeta in Hmem. rewrite Hh0, Hm0 in Hmem.
  rewrite (to_schar_char c Hc), (to_schar_char d Hd) in Hmem.
  assert (Htc : to_schar t = t) by (destruct Ht as [-> | [-> | ->]]; reflexivity).
  rewrite Htc in Hmem.
  set (sN := bmalloc_fill t c d l s0) in *.
  set (h := himem s) in *.
  assert (Hag : forall a, h < a -> mem_get (mem sN) a = mem_get (mem s) a).
  { intros a Ha. rewrite Hmem. destruct (_ || _);
      rewrite ?mem_get_set_other by lia; reflexivity. }
  assert (Cc : mem_get (mem sN) h = c).
  { rewrite Hmem. destruct (_ || _); rewrite ?mem_get_set_other by lia;
      apply mem_get_set_same; lia. }
  assert (Cd : mem_get (mem sN) (h - 1) = d).
  { rewrite Hmem. destruct (_ || _); rewrite ?mem_get_set_other by lia;
      apply mem_get_set_same; rewrite !length_mem_set; lia. }
  assert (Ct : mem_get (mem sN) (h - 2) = t).
  { rewrite Hmem. destruct (_ || _); rewrite ?mem_get_set_other by lia;
      apply mem_get_set_same; rewrite !length_mem_set; lia. }
  assert (Hl : length (mem sN) = length (mem s)).
  { rewrite Hmem. destruct (_ || _); rewrite !length_mem_set; reflexivity. }
  assert (Hn : nvars sN = nvars s + 1).
  { rewrite Rn. apply to_addr_small. subst s0; simpl_state. lia. }
  refine (conj Hn (conj Rm (conj Rt (conj Re (conj Rh (conj Hroom
            (conj Hl (conj Hag (conj _ (conj _ _)))))))))).
  - unfold obj_match. rewrite Cc, Cd, Ct, !Z.eqb_refl. reflexivity.
  - unfold obj_hdr. rewrite Ct. reflexivity.
  - unfold obj_len. rewrite Ct.
    destruct (Z.eqb_spec t VARIABLE) as [->|Hnv']; [reflexivity|].
    assert (Hb : (t =? ARRAYVAR) || (t =? STRINGVAR) = true).
    { destruct Ht as [-> | [-> | ->]]; try reflexivity. contradiction. }
    rewrite Hb in Hmem.
    assert (C4 : mem_get (mem sN) (h - 4) = to_schar (zbyte 0 v)).
    { rewrite Hmem. rewrite ?mem_get_set_other by lia.
      apply mem_get_set_same; rewrite !length_mem_set; lia. }
    assert (C3 : mem_get (mem sN) (h - 3) = to_schar (zbyte 1 v)).
    { rewrite Hmem. apply mem_get_set_same; rewrite !length_mem_set; lia. }
    rewrite C4, C3, le_value_zbytes, Hv.
    apply (payload_of_vsize t l Hnv').
Qed.

Lemma vsize_hdr_payload t l :
  bmalloc_vsize t l
  = to_addr (payload_request t l + (if t =? VARIABLE then 3 else 5)).
Proof.
  unfold bmalloc_vsize, payload_request, numsize, addrsize.
  destruct (t =? VARIABLE); [reflexivity|].
  destruct (t =? ARRAYVAR); f_equal; lia.
Qed.

Lemma bmalloc_post_found (s : state) (t c d l : Z) :
  heap_ok s -> is_char c -> is_char d ->
  t = VARIABLE \/ t = ARRAYVAR \/ t = STRINGVAR ->
  4 <= himem s ->
  fst (bmalloc t c d l s) <> 0 ->
  fst (bfind t c d (snd (bmalloc t c d l s))) = fst (bmalloc t c d l s).
Proof.
  intros Hheap Hc Hd Ht Hh4 Hok.
  destruct (bmalloc_post s t c d l Hheap Hc Hd Ht Hh4 Hok)
    as (Hn & Hm & _ & _ & _ & _ & _ & Hag & Hmatch & Hhdr & Hlen).
  destruct (bmalloc_cases t c d l s Hok) as (Hnone & _ & Hret).
  unfold obj_match in Hmatch.
  apply andb_prop in Hmatch. destruct Hmatch as (Hcd & Et).
  apply andb_prop in Hcd. destruct Hcd as (Ec & Ed).
  apply Z.eqb_eq in Ec, Ed, Et.
  destruct (bfind_new_object s (snd (bmalloc t c d l s)) t c d) as (Ha & _);
    auto.
  rewrite Ha, Hret, Hhdr, Hlen, vsize_hdr_payload.
  unfold to_addr. destruct (t =? VARIABLE); Z.div_mod_to_equations; lia.
Qed.

(** A successful allocation of less than 2^16 bytes keeps the heap a
    chain of objects: one object more, [himem] lower by the payload
    and the header, everything else in place. *)
Theorem bmalloc_heap_ok (s : state) (t c d l : Z) :
  heap_ok s -> is_char c -> is_char d ->
  t = VARIABLE \/ t = ARRAYVAR \/ t = STRINGVAR ->
  0 <= top s ->
  0 <= payload_request t l -> payload_request t l + 5 < 65536 ->
  fst (bmalloc t c d l s) <> 0 ->
  heap_ok (snd (bmalloc t c d l s)) /\
  nvars (snd (bmalloc t c d l s)) = nvars s + 1 /\
  himem (snd (bmalloc t c d l s))
  = himem s - payload_request t l - (if t =? VARIABLE then 3 else 5) /\
  top s <= himem (snd (bmalloc t c d l s)).
Proof.
  intros Hheap Hc Hd Ht Htop Hp0 Hp16 Hok.
  destruct (bmalloc_cases t c d l s Hok) as (_ & Hroom & _).
  assert (Hk : 3 <= (if t =? VARIABLE then 3 else 5) <= 5)
    by (destruct (t =? VARIABLE); lia).
  assert (Hk' : addrsize + 3 <= payload_request t l
                                 + (if t =? VARIABLE then 3 else 5)).
  { unfold payload_request, addrsize, numsize in *.
    destruct (t =? VARIABLE); lia. }
  set (k := if t =? VARIABLE then 3 else 5) in *.
  assert (Hv : bmalloc_vsize t l = payload_request t l + k).
  { rewrite vsize_hdr_payload. fold k. apply to_addr_small. lia. }
  unfold addrsize in Hk'.
  assert (Hh4 : 4 <= himem s) by lia.
  destruct (bmalloc_post s t c d l Hheap Hc Hd Ht Hh4 Hok)
    as (Hn & Hm & _ & _ & Hh & _ & Hl & Hag & _ & Hhdr & Hlen).
  fold k in Hhdr.
  destruct Hheap as (Hhi & Hms & Hms16 & Hnv & Hobjs).
  pose proof (heap_objs_count _ _ _ _ Hobjs) as Hcount.
  rewrite Hv in Hh.
  rewrite to_addr_small in Hh by lia.
  assert (Hh' : himem (snd (bmalloc t c d l s))
                = himem s - payload_request t l - k)
    by (rewrite Hh; lia).
  refine (conj _ (conj Hn (conj Hh' _))); [|lia].
  unfold heap_ok. rewrite Hm, Hl, Hn, Hh'.
  refine (conj _ (conj Hms (conj Hms16 (conj _ _)))); try lia.
  replace (Z.to_nat (nvars s + 1)) with (S (Z.to_nat (nvars s))) by lia.
  apply (heap_objs_extend _ _ (himem s) _ (mem s)); auto.
  - unfold obj_below. rewrite Hhdr, Hlen.
    rewrite to_addr_small by lia. lia.
  - unfold addrsize. lia.
Qed.

Lemma bmalloc_heap_ok_witness :
  heap_ok (snd (bmalloc STRINGVAR 65 0 10 bmalloc_example)) /\
  himem (snd (bmalloc STRINGVAR 65 0 10 bmalloc_example)) = 112.
Proof.
  assert (Hok : heap_ok bmalloc_example)
    by (vm_compute; repeat split; discriminate).
  assert (Hc : is_char 65) by (unfold is_char; lia).
  assert (Hd : is_char 0) by (unfold is_char; lia).
  assert (Ht : STRINGVAR = VARIABLE \/ STRINGVAR = ARRAYVAR
               \/ STRINGVAR = STRINGVAR) by (right; right; reflexivity).
  assert (Htop : 0 <= top bmalloc_example) by (vm_compute; discriminate).
  assert (Hp0 : 0 <= payload_request STRINGVAR 10) by (vm_compute; discriminate).
  assert (Hp1 : payload_request STRINGVAR 10 + 5 < 65536)
    by (vm_compute; reflexivity).
  assert (Hne : fst (bmalloc STRINGVAR 65 0 10 bmalloc_example) <> 0)
    by (vm_compute; discriminate).
  destruct (bmalloc_heap_ok bmalloc_example STRINGVAR 65 0 10
              Hok Hc Hd Ht Htop Hp0 Hp1 Hne) as (H1 & _ & H2 & _).
  split; [exact H1|]. rewrite H2. reflexivity.
Defined.

(** [bmalloc] lowers [himem] by the size of the object modulo 2^16,
    and the capacity it records is the payload modulo 2^16: a request
    of 2^16 bytes or more succeeds with less memory than it records. *)
Theorem bmalloc_size_wraps (s : state) (t c d l : Z) :
  heap_ok s -> is_char c -> is_char d ->
  t = VARIABLE \/ t = ARRAYVAR \/ t = STRINGVAR ->
  4 <= himem s -> 0 <= top s ->
  fst (bmalloc t c d l s) <> 0 ->
  himem (snd (bmalloc t c d l s))
  = himem s - (payload_request t l + (if t =? VARIABLE then 3 else 5)) mod 65536 /\
  z_a (snd (bfind t c d (snd (bmalloc t c d l s))))
  = payload_request t l mod 65536.
Proof.
  intros Hheap Hc Hd Ht Hh4 Htop Hok.
  destruct (bmalloc_post s t c d l Hheap Hc Hd Ht Hh4 Hok)
    as (Hn & Hm & _ & _ & Hh & Hroom & _ & Hag & Hmatch & Hhdr & Hlen).
  destruct (bmalloc_cases t c d l s Hok) as (Hnone & _ & _).
  pose proof Hheap as (Hhi & Hms & Hms16 & Hnv & Hobjs).
  pose proof (heap_objs_count _ _ _ _ Hobjs) as Hcount.
  split.
  - rewrite Hh. rewrite vsize_hdr_payload in Hroom |- *.
    pose proof (to_addr_range
      (payload_request t l + (if t =? VARIABLE then 3 else 5))) as Hr.
    rewrite to_addr_small by lia. reflexivity.
  - unfold obj_match in Hmatch.
    apply andb_prop in Hmatch. destruct Hmatch as (Hcd & Et).
    apply andb_prop in Hcd. destruct Hcd as (Ec & Ed).
    apply Z.eqb_eq in Ec, Ed, Et.
    destruct (bfind_new_object s (snd (bmalloc t c d l s)) t c d) as (_ & Hz);
      auto.
    rewrite Hz, Hlen. reflexivity.
Qed.

Lemma bmalloc_size_wraps_witness :
  himem bmalloc_example = 127 /\
  himem (snd (bmalloc ARRAYVAR 65 0 16383 bmalloc_example)) = 126 /\
  z_a (snd (bfind ARRAYVAR 65 0
              (snd (bmalloc ARRAYVAR 65 0 16383 bmalloc_example)))) = 65532.
Proof.
  assert (Hok : heap_ok bmalloc_example)
    by (vm_compute; repeat split; discriminate).
  assert (Hc : is_char 65) by (unfold is_char; lia).
  assert (Hd : is_char 0) by (unfold is_char; lia).
  assert (Ht : ARRAYVAR = VARIABLE \/ ARRAYVAR = ARRAYVAR
               \/ ARRAYVAR = STRINGVAR) by (right; left; reflexivity).
  assert (Hh : 4 <= himem bmalloc_example) by (vm_compute; discriminate).
  assert (Htop : 0 <= top bmalloc_example) by (vm_compute; discriminate).
  assert (Hne : fst (bmalloc ARRAYVAR 65 0 16383 bmalloc_example) <> 0)
    by (vm_compute; discriminate).
  destruct (bmalloc_size_wraps bmalloc_example ARRAYVAR 65 0 16383
              Hok Hc Hd Ht Hh Htop Hne) as (H1 & H2).
  split; [vm_compute; reflexivity|]. split.
  - rewrite H1. vm_compute. reflexivity.
  - rewrite H2. vm_compute. reflexivity.
Defined.

(** An allocation does not disturb the other objects: a name that
    [bfind] found before is found afterwards at the same address and
    with the same length. *)
Theorem bmalloc_keeps_others (s : state) (t c d l t' c' d' : Z) :
  heap_ok s -> is_char c -> is_char d ->
  t = VARIABLE \/ t = ARRAYVAR \/ t = STRINGVAR ->
  4 <= himem s ->
  fst (bmalloc t c d l s) <> 0 ->
  fst (bfind t' c' d' s) <> 0 ->
  fst (bfind t' c' d' (snd (bmalloc t c d l s))) = fst (bfind t' c' d' s) /\
  z_a (snd (bfind t' c' d' (snd (bmalloc t c d l s))))
  = z_a (snd (bfind t' c' d' s)).
Proof.
  intros Hheap Hc Hd Ht Hh4 Hok Hfound.
  destruct (bmalloc_post s t c d l Hheap Hc Hd Ht Hh4 Hok)
    as (Hn & Hm & _ & _ & _ & _ & _ & Hag & _).
  destruct Hheap as (Hhi & Hms & Hms16 & Hnv & Hobjs).
  destruct (bfind_loop_found_more _ _ _ t' c' d' s _ Hobjs Hhi Hms16
              eq_refl Hfound) as (b' & _ & _ & L & _ & _ & F).
  unfold bfind at 1 3. rewrite Hn, Hm.
  replace (Z.to_nat (nvars s + 1)) with (Z.to_nat (nvars s) + 1)%nat by lia.
  destruct (F 1%nat (snd (bmalloc t c d l s)) Hag) as (F1 & F2).
  split; [exact F1|]. rewrite F2. symmetry. exact L.
Qed.

Lemma bmalloc_keeps_others_witness :
  fst (bfind STRINGVAR 65 0 (snd (bmalloc ARRAYVAR 66 0 3 hexyo_example)))
  = fst (bfind STRINGVAR 65 0 hexyo_example).
Proof.
  assert (Hok : heap_ok hexyo_example)
    by (vm_compute; repeat split; discriminate).
  assert (Hc : is_char 66) by (unfold is_char; lia).
  assert (Hd : is_char 0) by (unfold is_char; lia).
  assert (Ht : ARRAYVAR = VARIABLE \/ ARRAYVAR = ARRAYVAR
               \/ ARRAYVAR = STRINGVAR) by (right; left; reflexivity).
  assert (Hh : 4 <= himem hexyo_example) by (vm_compute; discriminate).
  assert (Hne : fst (bmalloc ARRAYVAR 66 0 3 hexyo_example) <> 0)
    by (vm_compute; discriminate).
  assert (Hf : fst (bfind STRINGVAR 65 0 hexyo_example) <> 0)
    by (vm_compute; discriminate).
  destruct (bmalloc_keeps_others hexyo_example ARRAYVAR 66 0 3 STRINGVAR 65 0
              Hok Hc Hd Ht Hh Hne Hf) as (H & _).
  exact H.
Defined.

(** [bmalloc] refuses a name that exists with the VARIABLE error and
    a request that does not fit between [top] and [himem] with the
    memory error; both leave the memory and the heap as they were. *)
Theorem bmalloc_refuses (s : state) (t c d l : Z) :
  fst (bfind t c d s) <> 0 \/ himem s - top s < bmalloc_vsize t l ->
  fst (bmalloc t c d l s) = 0 /\
  er (snd (bmalloc t c d l s))
  = (if fst (bfind t c d s) =? 0 then EOUTOFMEMORY else EVARIABLE) /\
  mem (snd (bmalloc t c d l s)) = mem s /\
  himem (snd (bmalloc t c d l s)) = himem s /\
  nvars (snd (bmalloc t c d l s)) = nvars s.
Proof.
  intros H. unfold bmalloc. destruct (bfind_z t c d s) as (zz & Hz).
  destruct (bfind t c d s) as [b s0]. cbn [fst snd] in *. subst s0.
  destruct (Z.eqb_spec b 0) as [-> | Hb]; cbn [negb fst snd].
  - destruct H as [H | H]; [congruence|]. simpl_state.
    destruct (Z.ltb_spec (himem s - top s) (bmalloc_vsize t l)); [|lia].
    cbn [fst snd].
    rewrite error_er, error_mem, error_himem, error_nvars. auto.
  - rewrite error_er, error_mem, error_himem, error_nvars. auto.
Qed.

Lemma bmalloc_refuses_witness :
  er (snd (bmalloc STRINGVAR 65 0 4 hexyo_example)) = EVARIABLE /\
  er (snd (bmalloc ARRAYVAR 66 0 100 hexyo_example)) = EOUTOFMEMORY.
Proof.
  split.
  - destruct (bmalloc_refuses hexyo_example STRINGVAR 65 0 4) as (_ & H & _).
    + left. vm_compute. discriminate.
    + rewrite H. vm_compute. reflexivity.
  - destruct (bmalloc_refuses hexyo_example ARRAYVAR 66 0 100) as (_ & H & _).
    + right. vm_compute. reflexivity.
    + rewrite H. vm_compute. reflexivity.
Defined.


(** * Variables and arrays of the heap *)

Lemma bfind_pair t c d s :
  exists zz, bfind t c d s = (fst (bfind t c d s), set_z zz s) /\
             z_a (set_z zz s) = z_a (snd (bfind t c d s)).
Proof.
  destruct (bfind_z t c d s) as (zz & Hz). exists zz.
  rewrite <- Hz. split; [apply surjective_pairing | reflexivity].
Qed.

(** The four bytes that [setnumber] writes at [a], in the state. *)
Lemma setnumber4_mem a s :
  mem (setnumber a numsize s) = write_bytes 4 0 a (z s) (mem s).
Proof. reflexivity. Qed.

Lemma write_bytes4_other a v m k :
  0 <= a -> a + 3 < 65536 -> ~ (a <= k < a + 4) ->
  mem_get (write_bytes 4 0 a v m) k = mem_get m k.
Proof.
  intros Ha Hhi Hk. cbn [write_bytes].
  rewrite !to_addr_small by lia.
  rewrite !mem_get_set_other by lia. reflexivity.
Qed.

Lemma length_write_bytes n : forall i a v m,
  length (write_bytes n i a v m) = length m.
Proof.
  induction n as [|n IH]; intros; cbn [write_bytes]; auto.
  rewrite IH. apply length_mem_set.
Qed.

(** A variable of the heap that exists: the value assigned by
    [setvar] is the value that [getvar] reads. *)
Theorem setvar_getvar_heap (c d v : Z) (s : state) :
  heap_ok s -> fst (bfind VARIABLE c d s) <> 0 ->
  (65 <=? c) && (c <=? 91) && (d =? 0) = false -> c <> 64 ->
  fst (getvar c d (setvar c d v s)) = to_num v /\
  er (snd (getvar c d (setvar c d v s))) = er s.
Proof.
  intros Hok Hfound Hstatic Hat.
  set (a := fst (bfind VARIABLE c d s)) in *.
  destruct (bfind_found VARIABLE c d s a Hok eq_refl Hfound)
    as (len & Hlen & Hlo & Hhi & Hlen0 & Fr).
  pose proof Hok as (Hh & Hm & Hm' & Hnv & Hobjs).
  destruct (bfind_loop_found_more _ _ _ VARIABLE c d s a Hobjs Hh Hm'
              eq_refl Hfound) as (b' & M & _ & L & _ & _ & _).
  assert (Hl4 : len = numsize).
  { rewrite <- Hlen. unfold bfind. rewrite L. unfold obj_len.
    unfold obj_match in M. apply andb_prop in M. destruct M as (_ & Et).
    rewrite Et. reflexivity. }
  unfold numsize in Hl4. subst len.
  assert (Hc64 : (c =? 64) = false) by (apply Z.eqb_neq; exact Hat).
  destruct (bfind_pair VARIABLE c d s) as (zz & E & _). fold a in E.
  assert (Es : setvar c d v s
               = setnumber a numsize (set_z_i v (set_z zz s))).
  { unfold setvar. rewrite Hstatic, Hc64. cbn [andb]. rewrite E.
    destruct (Z.eqb_spec a 0); [contradiction|]. reflexivity. }
  rewrite Es. set (s1 := setnumber a numsize (set_z_i v (set_z zz s))).
  assert (Hm1 : mem s1 = write_bytes 4 0 a (to_num v) (mem s)) by reflexivity.
  assert (F1 : fst (bfind VARIABLE c d s1) = a).
  { apply Fr; try reflexivity. intros k Hk. rewrite Hm1.
    apply write_bytes4_other; lia. }
  destruct (bfind_pair VARIABLE c d s1) as (z1 & E1 & _). rewrite F1 in E1.
  unfold getvar. rewrite Hstatic, Hc64. cbn [andb]. rewrite E1.
  destruct (Z.eqb_spec a 0); [contradiction|]. cbn [fst snd].
  unfold getnumber, numsize. cbn [Z.eqb Pos.eqb]. simpl_state.
  change (Z.to_nat 4) with 4%nat. change (mem s1) with (mem s1).
  rewrite Hm1. rewrite read_write_bytes by lia.
  split; [|reflexivity].
  unfold to_num. Z.div_mod_to_equations. lia.
Qed.

Lemma setvar_getvar_heap_witness :
  fst (getvar 65 49 (setvar 65 49 (-7) (setvar 65 49 0 bmalloc_example))) = -7.
Proof.
  assert (Hok : heap_ok (setvar 65 49 0 bmalloc_example))
    by (vm_compute; repeat split; discriminate).
  assert (Hf : fst (bfind VARIABLE 65 49 (setvar 65 49 0 bmalloc_example)) <> 0)
    by (vm_compute; discriminate).
  assert (Hs : (65 <=? 65) && (65 <=? 91) && (49 =? 0) = false)
    by reflexivity.
  assert (Hat : 65 <> 64) by discriminate.
  destruct (setvar_getvar_heap 65 49 (-7) (setvar 65 49 0 bmalloc_example)
              Hok Hf Hs Hat) as (H & _).
  rewrite H. reflexivity.
Defined.

(** An element of an array of the heap: the value stored with ['s'] is
    the value read with ['g']. *)
Theorem array_set_get (c d i v w : Z) (s : state) :
  heap_ok s -> c <> 64 -> fst (bfind ARRAYVAR c d s) <> 0 ->
  1 <= i <= z_a (snd (bfind ARRAYVAR c d s)) / numsize ->
  fst (array 103 c d i w (snd (array 115 c d i v s))) = to_num v /\
  er (snd (array 103 c d i w (snd (array 115 c d i v s)))) = er s.
Proof.
  intros Hok Hat Hfound Hi.
  set (a := fst (bfind ARRAYVAR c d s)) in *.
  destruct (bfind_found ARRAYVAR c d s a Hok eq_refl Hfound)
    as (len & Hlen & Hlo & Hhi & Hlen0 & Fr).
  rewrite Hlen in Hi. unfold numsize in Hi.
  pose proof Hok as (Hh & Hm & Hm' & Hnv & Hobjs).
  assert (Hc64 : (c =? 64) = false) by (apply Z.eqb_neq; exact Hat).
  assert (Hq : 4 * (len / 4) <= len)
    by (Z.div_mod_to_equations; lia).
  assert (Hq16 : len / 4 < 65536) by (Z.div_mod_to_equations; lia).
  set (p := a + (i - 1) * 4).
  assert (Hp : 0 <= p /\ p + 3 < 65536 /\ a <= p /\ p + 4 <= a + len)
    by (unfold p; lia).
  destruct (bfind_pair ARRAYVAR c d s) as (zz & E & Ez). fold a in E.
  rewrite Hlen in Ez.
  assert (Es : array 115 c d i v s
               = (v, setnumber p numsize (set_z_i v (set_z zz s)))).
  { unfold array. rewrite Hc64, E.
    destruct (Z.eqb_spec a 0); [contradiction|].
    rewrite Ez. unfold numsize. rewrite (to_addr_small (len / 4)) by lia.
    fold p. rewrite (to_addr_small p) by lia.
    destruct (Z.ltb_spec i 1); [lia|].
    destruct (Z.ltb_spec (len / 4) i); [lia|]. reflexivity. }
  rewrite Es. cbn [snd].
  set (s1 := setnumber p numsize (set_z_i v (set_z zz s))).
  assert (Hm1 : mem s1 = write_bytes 4 0 p (to_num v) (mem s)) by reflexivity.
  assert (F1 : fst (bfind ARRAYVAR c d s1) = a /\
               z_a (snd (bfind ARRAYVAR c d s1)) = len).
  { apply Fr; try reflexivity. intros k Hk. rewrite Hm1.
    apply write_bytes4_other; lia. }
  destruct F1 as (F1 & F1l).
  destruct (bfind_pair ARRAYVAR c d s1) as (z1 & E1 & Ez1).
  rewrite F1 in E1. rewrite F1l in Ez1.
  unfold array. rewrite Hc64, E1.
  destruct (Z.eqb_spec a 0); [contradiction|].
  rewrite Ez1. unfold numsize. rewrite (to_addr_small (len / 4)) by lia.
  fold p. rewrite (to_addr_small p) by lia.
  destruct (Z.ltb_spec i 1); [lia|].
  destruct (Z.ltb_spec (len / 4) i); [lia|].
  cbn [orb Z.eqb Pos.eqb negb fst snd].
  unfold getnumber. cbn [Z.eqb Pos.eqb]. simpl_state.
  change (Z.to_nat 4) with 4%nat. rewrite Hm1.
  rewrite read_write_bytes by lia.
  split; [|reflexivity].
  unfold to_num. Z.div_mod_to_equations. lia.
Qed.

(** An index outside the array raises the RANGE error, a name that
    is no array the VARIABLE error; the memory is not written. *)
Theorem array_errors (m c d i v : Z) (s : state) :
  c <> 64 -> 0 <= i < 65536 ->
  (fst (bfind ARRAYVAR c d s) = 0 ->
   er (snd (array m c d i v s)) = EVARIABLE /\
   mem (snd (array m c d i v s)) = mem s) /\
  (fst (bfind ARRAYVAR c d s) <> 0 ->
   i = 0 \/ z_a (snd (bfind ARRAYVAR c d s)) / numsize < i ->
   er (snd (array m c d i v s)) = ERANGE /\
   mem (snd (array m c d i v s)) = mem s).
Proof.
  intros Hat Hi.
  assert (Hc64 : (c =? 64) = false) by (apply Z.eqb_neq; exact Hat).
  destruct (bfind_pair ARRAYVAR c d s) as (zz & E & Ez).
  split.
  - intros H0. unfold array. rewrite Hc64, E, H0. cbn [Z.eqb snd].
    rewrite error_er, error_mem. auto.
  - intros Hne Hout. unfold array. rewrite Hc64, E.
    destruct (Z.eqb_spec (fst (bfind ARRAYVAR c d s)) 0); [contradiction|].
    rewrite Ez.
    pose proof (to_addr_range (z (snd (bfind ARRAYVAR c d s)))) as Hr.
    fold (z_a (snd (bfind ARRAYVAR c d s))) in Hr.
    unfold numsize in *.
    rewrite (to_addr_small (z_a (snd (bfind ARRAYVAR c d s)) / 4))
      by (Z.div_mod_to_equations; lia).
    destruct (Z.ltb_spec i 1), (Z.ltb_spec (z_a (snd (bfind ARRAYVAR c d s)) / 4) i);
      cbn [orb snd]; try lia.
    all: rewrite error_er, error_mem; auto.
Qed.

Lemma array_set_get_witness :
  fst (array 103 66 0 2 0 (snd (array 115 66 0 2 (-5) array_example))) = -5.
Proof.
  assert (Hok : heap_ok array_example)
    by (vm_compute; repeat split; discriminate).
  assert (Hat : 66 <> 64) by discriminate.
  assert (Hf : fst (bfind ARRAYVAR 66 0 array_example) <> 0)
    by (vm_compute; discriminate).
  assert (Hi : 1 <= 2 <= z_a (snd (bfind ARRAYVAR 66 0 array_example)) / numsize)
    by (vm_compute; split; discriminate).
  destruct (array_set_get 66 0 2 (-5) 0 array_example Hok Hat Hf Hi) as (H & _).
  rewrite H. reflexivity.
Defined.

Lemma array_errors_witness :
  er (snd (array 103 66 0 4 0 array_example)) = ERANGE /\
  er (snd (array 103 67 0 1 0 array_example)) = EVARIABLE.
Proof.
  assert (Hat : 66 <> 64) by discriminate.
  assert (Hat' : 67 <> 64) by discriminate.
  assert (H4 : 0 <= 4 < 65536) by lia.
  assert (H1 : 0 <= 1 < 65536) by lia.
  split.
  - destruct (array_errors 103 66 0 4 0 array_example Hat H4) as (_ & H).
    destruct H as (H & _).
    + vm_compute. discriminate.
    + right. vm_compute. reflexivity.
    + exact H.
  - destruct (array_errors 103 67 0 1 0 array_example Hat' H1) as (H & _).
    destruct H as (H & _); [vm_compute; reflexivity | exact H].
Defined.

(** * DIM *)

(** DIM of an array or a string that exists raises the VARIABLE error
    and allocates nothing. *)
Theorem dim_existing (c d j : Z) (s : state) :
  (fst (bfind ARRAYVAR c d s) <> 0 ->
   er (createarray c d j s) = EVARIABLE /\
   mem (createarray c d j s) = mem s /\
   himem (createarray c d j s) = himem s /\
   nvars (createarray c d j s) = nvars s) /\
  (fst (bfind STRINGVAR c d s) <> 0 ->
   er (createstring c d j s) = EVARIABLE /\
   mem (createstring c d j s) = mem s /\
   himem (createstring c d j s) = himem s /\
   nvars (createstring c d j s) = nvars s).
Proof.
  split; intros Hne.
  - unfold createarray.
    destruct (bfind_pair ARRAYVAR c d s) as (zz & E & _). rewrite E.
    destruct (Z.eqb_spec (fst (bfind ARRAYVAR c d s)) 0); [contradiction|].
    cbn [negb].
    rewrite error_er, error_mem, error_himem, error_nvars. auto.
  - unfold createstring.
    destruct (bfind_pair STRINGVAR c d s) as (zz & E & _). rewrite E.
    destruct (Z.eqb_spec (fst (bfind STRINGVAR c d s)) 0); [contradiction|].
    cbn [negb].
    rewrite error_er, error_mem, error_himem, error_nvars. auto.
Qed.

Lemma dim_existing_witness :
  er array_example = 0 /\ er (createarray 66 0 5 array_example) = EVARIABLE.
Proof.
  split; [vm_compute; reflexivity|].
  destruct (dim_existing 66 0 5 array_example) as (H & _).
  destruct H as (H & _); [vm_compute; discriminate | exact H].
Defined.


(** * The lexer *)

(** Every keyword of the table, typed at the start of a line, is read
    as its own token: [getkeyword] and the lexer are inverse to each
    other, whatever the lexer registers held before. *)
Theorem keyword_lexes (t : Z) (kw : list Z) (l : lexer) :
  getkeyword t = Some kw ->
  ltoken (scan (lexer_at_start (line_buffer kw) l)) = t.
Proof.
  unfold getkeyword. destruct l as [b0 bi0 tk0 x0 xc0 yc0 ir0].
  unfold lexer_at_start, lex_bi, lex_buf; cbn [lbuf lbi ltoken lx lxc lyc lir].
  destruct (Z.ltb_spec t BASEKEYWORD) as [Hlo|Hlo]; [discriminate|].
  destruct (Z.ltb_spec (BASEKEYWORD + NKEYWORDS) t) as [Hhi|Hhi];
    [discriminate|].
  cbn [orb]. intros Hk.
  assert (Ht : t = BASEKEYWORD + Z.of_nat (Z.to_nat (t - BASEKEYWORD))) by lia.
  revert Hk. generalize (Z.to_nat (t - BASEKEYWORD)) Ht. clear.
  intros n -> Hk.
  do 64 (destruct n as [|n];
         [vm_compute in Hk;
          first [discriminate Hk
                | injection Hk as <-; vm_compute; reflexivity]|]).
  vm_compute in Hk. discriminate Hk.
Qed.

(** ** Numbers: written, then read *)

Lemma digits_loop_digit n : forall v,
  0 <= v -> Forall (fun c => 48 <= c <= 57) (digits_loop n v).
Proof.
  induction n as [|n IH]; intros v Hv; cbn [digits_loop]; constructor.
  - pose proof (Z.mod_pos_bound v 10 ltac:(lia)). lia.
  - destruct (Z.ltb_spec 0 (v / 10)); [apply IH; lia | constructor].
Qed.

Lemma length_digits_loop n : forall v, (length (digits_loop n v) <= n)%nat.
Proof.
  induction n as [|n IH]; intros v; cbn [digits_loop length]; [lia|].
  destruct (0 <? v / 10); [specialize (IH (v / 10)) | cbn [length]]; lia.
Qed.

Lemma digits_loop_nonempty n v : digits_loop (S n) v <> [].
Proof. cbn [digits_loop]. discriminate. Qed.

Lemma digits_fold n : forall v,
  0 <= v < 10 ^ Z.of_nat n -> v < 2147483648 ->
  fold_right (fun ch acc => to_num (acc * 10 + ch - 48)) 0 (digits_loop n v)
  = v.
Proof.
  induction n as [|n IH]; intros v Hv Hmax.
  - cbn [digits_loop fold_right]. change (10 ^ Z.of_nat 0) with 1 in Hv. lia.
  - cbn [digits_loop fold_right].
    assert (Hp : 10 ^ Z.of_nat (S n) = 10 * 10 ^ Z.of_nat n).
    { rewrite Nat2Z.inj_succ, Z.pow_succ_r by lia. reflexivity. }
    rewrite Hp in Hv.
    assert (Hq : 0 <= v / 10 < 10 ^ Z.of_nat n)
      by (split; [apply Z.div_pos; lia | apply Z.div_lt_upper_bound; lia]).
    assert (Hr : fold_right (fun ch acc => to_num (acc * 10 + ch - 48)) 0
                   (if 0 <? v / 10 then digits_loop n (v / 10) else [])
                 = v / 10).
    { destruct (Z.ltb_spec 0 (v / 10)).
      - apply IH; [exact Hq|]. Z.div_mod_to_equations. lia.
      - cbn [fold_right]. lia. }
    rewrite Hr. rewrite to_num_small; Z.div_mod_to_equations; lia.
Qed.

Lemma parse_digits : forall ds fuel buf c r nd,
  Forall (fun ch => 48 <= ch <= 57) ds ->
  (forall i, (i < length ds)%nat ->
             mem_get buf (c + Z.of_nat i) = nth i ds 0) ->
  (length ds <= fuel)%nat -> 0 <= nd ->
  nd + Z.of_nat (length ds) < SBUFSIZE ->
  parsenumber_loop fuel buf c r nd
  = parsenumber_loop (fuel - length ds) buf (c + Z.of_nat (length ds))
      (fold_left (fun r ch => to_num (r * 10 + ch - 48)) ds r)
      (nd + Z.of_nat (length ds)).
Proof.
  induction ds as [|d ds IH]; intros fuel buf c r nd Hd Hbuf Hfuel Hnd Hsb.
  - cbn [length fold_left]. rewrite Nat.sub_0_r, !Z.add_0_r. reflexivity.
  - cbn [length] in *. destruct fuel as [|fuel]; [lia|].
    cbn [parsenumber_loop].
    assert (H0 : mem_get buf c = d).
    { specialize (Hbuf 0%nat ltac:(lia)). rewrite Z.add_0_r in Hbuf.
      exact Hbuf. }
    rewrite H0. apply Forall_cons_iff in Hd. destruct Hd as (Hd0 & Hds).
    destruct (Z.leb_spec 48 d); [|lia]. destruct (Z.leb_spec d 57); [|lia].
    destruct (Z.eqb_spec d 0); [lia|]. cbn [andb negb].
    destruct (Z.eqb_spec (nd + 1) SBUFSIZE); [lia|].
    rewrite (IH fuel buf (c + 1) (to_num (r * 10 + d - 48)) (nd + 1));
      auto; try lia.
    + cbn [fold_left Nat.sub]. f_equal; lia.
    + intros i Hi. specialize (Hbuf (S i) ltac:(lia)).
      cbn [nth] in Hbuf. rewrite <- Hbuf. f_equal. lia.
Qed.

Lemma mem_get_cons_app n0 ds post i :
  (i < length ds)%nat ->
  mem_get (n0 :: ds ++ post) (1 + Z.of_nat i) = nth i ds 0.
Proof.
  intros Hi. unfold mem_get.
  destruct (Z.ltb_spec (1 + Z.of_nat i) 0); [lia|].
  replace (Z.to_nat (1 + Z.of_nat i)) with (S i) by lia.
  cbn [nth]. apply app_nth1. exact Hi.
Qed.

Lemma mem_get_cons_end n0 ds c post :
  mem_get (n0 :: ds ++ c :: post) (1 + Z.of_nat (length ds)) = c.
Proof.
  unfold mem_get.
  destruct (Z.ltb_spec (1 + Z.of_nat (length ds)) 0); [lia|].
  replace (Z.to_nat (1 + Z.of_nat (length ds))) with (S (length ds)) by lia.
  cbn [nth]. rewrite app_nth2 by lia. rewrite Nat.sub_diag. reflexivity.
Qed.

(** The lexer at a digit: the token is NUMBER, with the value and the
    length that [parsenumber] finds. *)
Lemma scan_number (buf : list Z) (tk x0 xc0 yc0 : Z) (ir0 : ptr) :
  48 <= mem_get buf 1 <= 57 ->
  scan (mklex buf 0 tk x0 xc0 yc0 ir0)
  = mklex buf (1 + snd (parsenumber buf 1)) NUMBER (fst (parsenumber buf 1))
      xc0 yc0 ir0.
Proof.
  intros Hd.
  set (l1 := mklex buf 1 tk x0 xc0 yc0 ir0).
  assert (Hw : whitespaces l1 = l1).
  { unfold whitespaces. cbn [whitespaces_loop]. unfold cur. cbn [lbuf lbi l1].
    destruct (Z.eqb_spec (mem_get buf 1) 32); [lia|].
    destruct (Z.eqb_spec (mem_get buf 1) 9); [lia|]. reflexivity. }
  assert (Hc : cur l1 = mem_get buf 1) by reflexivity.
  unfold scan. cbn [lbi Z.eqb].
  change (bi_inc 1 (mklex buf 0 tk x0 xc0 yc0 ir0)) with l1.
  rewrite Hw, Hc.
  destruct (Z.eqb_spec (mem_get buf 1) 0); [lia|].
  destruct (Z.leb_spec (mem_get buf 1) 57); [|lia].
  destruct (Z.leb_spec 48 (mem_get buf 1)); [|lia]. cbn [andb].
  cbn [lbuf lbi l1].
  destruct (parsenumber buf 1) as [r nd]. reflexivity.
Qed.

(** A number from 0 to the greatest [number_t], written by
    [writenumber] and typed at the start of a line, is read by the
    lexer as the token NUMBER with that value, and the cursor stands at
    the end of the line. *)
Theorem writenumber_scan (v : Z) (l : lexer) :
  0 <= v < 2147483648 ->
  let r := scan (lexer_at_start (line_buffer (writenumber v)) l) in
  ltoken r = NUMBER /\ lx r = v /\
  lbi r = 1 + Z.of_nat (length (writenumber v)) /\ cur r = 0.
Proof.
  intros Hv. cbv zeta.
  destruct l as [b0 bi0 tk0 x0 xc0 yc0 ir0].
  unfold lexer_at_start, lex_bi, lex_buf; cbn [lbuf lbi ltoken lx lxc lyc lir].
  assert (Ew : writenumber v = rev (digits_loop 20 v)).
  { unfold writenumber. destruct (Z.ltb_spec v 0); [lia|]. reflexivity. }
  rewrite Ew. generalize (length_digits_loop 20 v).
  generalize (digits_loop_digit 20 v ltac:(lia)).
  generalize (digits_fold 20 v ltac:(lia) ltac:(lia)).
  generalize (digits_loop_nonempty 19 v).
  generalize (digits_loop 20 v). intros le Hne Hfr Hdig Hle.
  set (ds := rev le).
  assert (Hds : Forall (fun ch => 48 <= ch <= 57) ds)
    by (apply Forall_rev; exact Hdig).
  assert (Hlen : (1 <= length ds <= 20)%nat).
  { unfold ds. rewrite length_rev. split; [|exact Hle].
    destruct le; [congruence | cbn [length]; lia]. }
  assert (Hfold : fold_left (fun r ch => to_num (r * 10 + ch - 48)) ds 0 = v).
  { unfold ds. rewrite <- fold_left_rev_right, rev_involutive. exact Hfr. }
  clearbody ds. clear Hne Hfr Hdig Hle le Ew.
  unfold line_buffer. set (buf := Z.of_nat (length ds) :: ds ++ [0]).
  assert (Hfirst : mem_get buf 1 = nth 0 ds 0).
  { apply (mem_get_cons_app _ ds [0] 0). lia. }
  assert (Hd0 : 48 <= nth 0 ds 0 <= 57).
  { rewrite Forall_forall in Hds. apply Hds. apply nth_In. lia. }
  assert (Hend : mem_get buf (1 + Z.of_nat (length ds)) = 0)
    by apply mem_get_cons_end.
  assert (Hp : parsenumber buf 1 = (v, Z.of_nat (length ds))).
  { unfold parsenumber.
    rewrite (parse_digits ds (Z.to_nat SBUFSIZE) buf 1 0 0 Hds);
      [| intros i Hi; apply mem_get_cons_app; exact Hi
       | unfold SBUFSIZE; lia | lia | unfold SBUFSIZE; lia].
    rewrite Hfold, Z.add_0_l.
    destruct (Z.to_nat SBUFSIZE - length ds)%nat as [|k];
      cbn [parsenumber_loop]; [reflexivity|].
    rewrite Hend. reflexivity. }
  rewrite scan_number by (rewrite Hfirst; exact Hd0).
  rewrite Hp. cbn [fst snd ltoken lx lbi]. unfold cur. cbn [lbuf lbi].
  repeat split; try reflexivity. exact Hend.
Qed.

Lemma writenumber_scan_witness :
  lx (scan (lexer_at_start (line_buffer (writenumber 2147483647))
              (get_lexer bmalloc_example))) = 2147483647.
Proof.
  assert (H : 0 <= 2147483647 < 2147483648) by lia.
  destruct (writenumber_scan 2147483647 (get_lexer bmalloc_example) H)
    as (_ & Hx & _).
  exact Hx.
Defined.

Lemma keyword_lexes_witness :
  ltoken (scan (lexer_at_start (line_buffer (codes "PRINT"))
                  (get_lexer bmalloc_example))) = TPRINT.
Proof.
  apply (keyword_lexes TPRINT (codes "PRINT") (get_lexer bmalloc_example)).
  vm_compute. reflexivity.
Defined.


(** * Output of a number *)

(** On the serial console [outnumber] writes the digits of the number
    and pads them with blanks to the field width [form]; a number
    wider than the field is written in full. *)
Theorem outnumber_field (v : Z) (s : state) :
  od s = OSERIAL ->
  exists pad,
    out (outnumber v s) = out s ++ writenumber v ++ repeat 32 pad /\
    Z.of_nat (length (writenumber v) + pad)
    = Z.max (Z.of_nat (length (writenumber v))) (form s).
Proof.
  intros Ho. destruct (outnumber_serial v s Ho) as (H & _).
  exists (Z.to_nat (form s - Z.of_nat (length (writenumber v)))).
  split; [exact H | lia].
Qed.

Lemma outnumber_field_witness :
  out (outnumber (-42) (set_form 6 (set_out [] bmalloc_example)))
  = codes "-42   ".
Proof.
  destruct (outnumber_field (-42) (set_form 6 (set_out [] bmalloc_example)))
    as (pad & H & Hp); [vm_compute; reflexivity|].
  rewrite H.
  assert (L : length (writenumber (-42)) = 3%nat) by reflexivity.
  assert (F : form (set_form 6 (set_out [] bmalloc_example)) = 6)
    by reflexivity.
  rewrite L, F in Hp.
  assert (E : pad = 3%nat) by lia.
  rewrite E. vm_compute. reflexivity.
Defined.

(** * Reading a line *)

(** [k] characters that are no line end, read from the serial input
    into the buffer from index [i] on. *)
Lemma ins_loop_chars : forall l n i nb s rest,
  id s = ISERIAL -> input s = l ++ rest ->
  Forall (fun c => is_char c /\ c <> 10 /\ c <> 13) l ->
  (length l <= n)%nat -> 0 <= i -> i + Z.of_nat (length l) <= nb - 1 ->
  exists b',
    ins_loop n i nb s
    = ins_loop (n - length l) (i + Z.of_nat (length l)) nb
        (set_ibuffer b' (set_input rest s)) /\
    length b' = length (ibuffer s) /\
    (forall j, (j < length l)%nat ->
               i + Z.of_nat j < Z.of_nat (length (ibuffer s)) ->
               mem_get b' (i + Z.of_nat j) = nth j l 0) /\
    (forall k, ~ (i <= k < i + Z.of_nat (length l)) ->
               mem_get b' k = mem_get (ibuffer s) k).
Proof.
  induction l as [|c l IH]; intros n i nb s rest Hid Hin Hl Hn Hi Hnb.
  - exists (ibuffer s). cbn [length]. rewrite Nat.sub_0_r, Z.add_0_r.
    cbn [app] in Hin. rewrite <- Hin.
    split; [destruct s; reflexivity|].
    split; [reflexivity|]. split; [intros j Hj; cbn in Hj; lia | auto].
  - cbn [length app] in *. destruct n as [|n]; [lia|].
    apply Forall_cons_iff in Hl. destruct Hl as ((Hc & H10 & H13) & Hl).
    cbn [ins_loop]. destruct (Z.ltb_spec i (nb - 1)); [|lia].
    unfold inch. rewrite Hid. change (ISERIAL =? ISERIAL) with true.
    rewrite Hin. rewrite (to_schar_char c Hc). cbv beta iota.
    destruct (Z.eqb_spec c 10); [contradiction|].
    destruct (Z.eqb_spec c 13); [contradiction|]. cbn [orb].
    simpl_state.
    destruct (IH n (i + 1) nb
                (set_ibuffer (mem_set (ibuffer s) i c) (set_input (l ++ rest) s))
                rest) as (b' & E & Hlen & Hget & Hother); auto; try lia.
    exists b'. rewrite E. simpl_state_all.
    rewrite length_mem_set in Hlen, Hget.
    split; [|split; [exact Hlen|split]].
    + cbn [Nat.sub]. replace (i + 1 + Z.of_nat (length l))
        with (i + Z.of_nat (S (length l))) by lia.
      first [reflexivity | f_equal; destruct s; reflexivity].
    + intros j Hj Hb. destruct j as [|j].
      * rewrite Z.add_0_r. rewrite Hother by lia.
        cbn [nth]. apply mem_get_set_same. lia.
      * cbn [nth]. replace (i + Z.of_nat (S j)) with (i + 1 + Z.of_nat j) by lia.
        apply Hget; lia.
    + intros k Hk. rewrite Hother by lia. apply mem_get_set_other. lia.
Qed.

(** A line of at most 89 characters, ended by a line feed or a
    carriage return: [ins] stores its length in the first byte of the
    buffer, its characters behind it and a zero at the end, and takes
    the line and its end from the input. *)
Theorem ins_line (l : list Z) (e : Z) (rest : list Z) (s : state) :
  id s = ISERIAL -> input s = l ++ e :: rest -> e = 10 \/ e = 13 ->
  Forall (fun c => is_char c /\ c <> 10 /\ c <> 13) l ->
  (length l <= 89)%nat -> length (ibuffer s) = Z.to_nat BUFSIZE ->
  input (ins s) = rest /\
  mem_get (ibuffer (ins s)) 0 = Z.of_nat (length l) /\
  (forall j, (j < length l)%nat ->
             mem_get (ibuffer (ins s)) (1 + Z.of_nat j) = nth j l 0) /\
  mem_get (ibuffer (ins s)) (1 + Z.of_nat (length l)) = 0.
Proof.
  intros Hid Hin He Hl Hlen Hbuf. unfold ins, BUFSIZE in *.
  destruct (ins_loop_chars l (Z.to_nat 92) 1 92 s (e :: rest))
    as (b' & E & Hb' & Hget & Hother); auto; try lia.
  rewrite E. clear E.
  destruct (Z.to_nat 92 - length l)%nat as [|m] eqn:Em; [lia|].
  cbn [ins_loop]. destruct (Z.ltb_spec (1 + Z.of_nat (length l)) (92 - 1)); [|lia].
  unfold inch. simpl_state. rewrite Hid. change (ISERIAL =? ISERIAL) with true.
  assert (Hec : to_schar e = e) by (destruct He as [-> | ->]; reflexivity).
  rewrite Hec. cbv beta iota.
  assert (Hnl : (e =? 10) || (e =? 13) = true)
    by (destruct He as [-> | ->]; reflexivity).
  rewrite Hnl. simpl_state.
  replace (1 + Z.of_nat (length l) - 1) with (Z.of_nat (length l)) by lia.
  rewrite (to_schar_char (Z.of_nat (length l))) by (unfold is_char; lia).
  rewrite Hbuf in Hb', Hget.
  split; [reflexivity|]. split; [|split].
  - apply mem_get_set_same. rewrite length_mem_set, Hb'. lia.
  - intros j Hj. rewrite mem_get_set_other by lia.
    rewrite mem_get_set_other by lia. apply Hget; lia.
  - rewrite mem_get_set_other by lia. apply mem_get_set_same.
    rewrite Hb'. lia.
Qed.

Lemma ins_line_witness :
  firstn 5 (ibuffer (ins (set_input (codes "RUN" ++ [10; 76]) bmalloc_example)))
  = 3 :: codes "RUN" ++ [0] /\
  input (ins (set_input (codes "RUN" ++ [10; 76]) bmalloc_example)) = [76].
Proof.
  destruct (ins_line (codes "RUN") 10 [76]
              (set_input (codes "RUN" ++ [10; 76]) bmalloc_example))
    as (H & _).
  - reflexivity.
  - reflexivity.
  - left. reflexivity.
  - apply Forall_forall. intros c Hc. cbn in Hc.
    destruct Hc as [<- | [<- | [<- | []]]]; unfold is_char; lia.
  - cbn. lia.
  - reflexivity.
  - split; [vm_compute; reflexivity | exact H].
Defined.

(** A line of 90 characters or more is cut without a sign: [ins]
    takes 90 characters, stores them, and writes neither the length
    nor the zero at the end; the rest of the line stays in the input. *)
Theorem ins_overlong (l rest : list Z) (s : state) :
  id s = ISERIAL -> input s = l ++ rest ->
  Forall (fun c => is_char c /\ c <> 10 /\ c <> 13) l ->
  length l = 90%nat -> length (ibuffer s) = Z.to_nat BUFSIZE ->
  input (ins s) = rest /\
  mem_get (ibuffer (ins s)) 0 = mem_get (ibuffer s) 0 /\
  mem_get (ibuffer (ins s)) 91 = mem_get (ibuffer s) 91 /\
  (forall j, (j < 90)%nat ->
             mem_get (ibuffer (ins s)) (1 + Z.of_nat j) = nth j l 0).
Proof.
  intros Hid Hin Hl Hlen Hbuf. unfold ins, BUFSIZE in *.
  destruct (ins_loop_chars l (Z.to_nat 92) 1 92 s rest)
    as (b' & E & Hb' & Hget & Hother); auto; try lia.
  rewrite E. clear E. rewrite Hlen in *.
  change (Z.to_nat 92 - 90)%nat with 2%nat. change (1 + Z.of_nat 90) with 91.
  cbn [ins_loop]. change (91 <? 92 - 1) with false. cbv iota. simpl_state.
  split; [reflexivity|]. split; [apply Hother; lia|].
  split; [apply Hother; lia|].
  intros j Hj. apply Hget; [exact Hj|]. rewrite Hbuf. lia.
Qed.

Lemma ins_overlong_witness :
  input (ins (set_input (repeat 65 95 ++ [10]) bmalloc_example))
  = repeat 65 5 ++ [10] /\
  mem_get (ibuffer (ins (set_input (repeat 65 95 ++ [10]) bmalloc_example))) 0
  = 0.
Proof.
  destruct (ins_overlong (repeat 65 90) (repeat 65 5 ++ [10])
              (set_input (repeat 65 95 ++ [10]) bmalloc_example))
    as (H1 & H2 & _).
  - reflexivity.
  - reflexivity.
  - apply Forall_forall. intros c Hc. apply repeat_spec in Hc. subst c.
    unfold is_char. lia.
  - apply repeat_length.
  - reflexivity.
  - split; [exact H1|]. rewrite H2. reflexivity.
Defined.


(** * Tokens in memory *)

(** ** What [gettoken] reads, by the byte at the cursor *)

Section GetToken.

Variable s : state.
Hypothesis Hst : st s <> SERUN.
Hypothesis Hhere : 0 <= here s < top s.
Hypothesis H16 : here s + 5 < 65536.

Lemma gettoken_at_linenumber :
  mem_get (mem s) (here s) = LINENUMBER ->
  token (gettoken s) = LINENUMBER /\
  x (gettoken s)
  = le_value [mem_get (mem s) (here s + 1); mem_get (mem s) (here s + 2)] /\
  here (gettoken s) = here s + 3 /\
  xc (gettoken s) = xc s /\ yc (gettoken s) = yc s.
Proof.
  intros Hm. unfold gettoken.
  destruct (Z.leb_spec (top s) (here s)); [lia|].
  unfold here_inc, memread, getnumber, addrsize, z_a. simpl_state.
  apply Z.eqb_neq in Hst. rewrite Hst, Hm.
  change (LINENUMBER =? LINENUMBER) with true. cbv iota.
  cbn [Z.eqb Pos.eqb]. simpl_state.
  rewrite !(to_addr_small (here s + 1)) by lia.
  rewrite (to_addr_small (here s + 1 + 1)) by lia.
  rewrite (to_addr_small (here s + 1 + 2)) by lia.
  replace (here s + 1 + 1) with (here s + 2) by lia.
  rewrite (to_addr_small (le_value _)) by apply le_value_two_range.
  repeat split; try reflexivity. lia.
Qed.

Lemma gettoken_at_number :
  mem_get (mem s) (here s) = NUMBER ->
  token (gettoken s) = NUMBER /\
  x (gettoken s)
  = to_num (le_value (read_bytes 4 (here s + 1) (mem_get (mem s)))) /\
  here (gettoken s) = here s + 5 /\
  xc (gettoken s) = xc s /\ yc (gettoken s) = yc s.
Proof.
  intros Hm. unfold gettoken.
  destruct (Z.leb_spec (top s) (here s)); [lia|].
  unfold here_inc, memread, getnumber, numsize. simpl_state.
  apply Z.eqb_neq in Hst. rewrite Hst, Hm.
  change (NUMBER =? LINENUMBER) with false.
  change (NUMBER =? NUMBER) with true. cbv iota.
  cbn [Z.eqb Pos.eqb]. simpl_state.
  rewrite !(to_addr_small (here s + 1)) by lia.
  rewrite (to_addr_small (here s + 1 + 4)) by lia.
  change (Z.to_nat 4) with 4%nat.
  repeat split; try reflexivity. lia.
Qed.

Lemma gettoken_at_variable (t : Z) :
  mem_get (mem s) (here s) = t ->
  t = VARIABLE \/ t = ARRAYVAR \/ t = STRINGVAR ->
  token (gettoken s) = t /\
  xc (gettoken s) = mem_get (mem s) (here s + 1) /\
  yc (gettoken s) = mem_get (mem s) (here s + 2) /\
  here (gettoken s) = here s + 3 /\ x (gettoken s) = x s.
Proof.
  intros Hm Ht. unfold gettoken.
  destruct (Z.leb_spec (top s) (here s)); [lia|].
  unfold here_inc, memread. simpl_state.
  apply Z.eqb_neq in Hst. rewrite Hst, Hm.
  assert (E1 : (t =? LINENUMBER) = false)
    by (destruct Ht as [-> | [-> | ->]]; reflexivity).
  assert (E2 : (t =? NUMBER) = false)
    by (destruct Ht as [-> | [-> | ->]]; reflexivity).
  assert (E3 : (t =? ARRAYVAR) || (t =? VARIABLE) || (t =? STRINGVAR) = true)
    by (destruct Ht as [-> | [-> | ->]]; reflexivity).
  rewrite E1, E2, E3. simpl_state. rewrite ?Hst.
  rewrite !(to_addr_small (here s + 1)) by lia.
  rewrite !(to_addr_small (here s + 1 + 1)) by lia.
  rewrite (to_addr_small (here s + 1 + 1 + 1)) by lia.
  replace (here s + 1 + 1) with (here s + 2) by lia.
  repeat split; try reflexivity. lia.
Qed.

Lemma gettoken_at_plain (t : Z) :
  mem_get (mem s) (here s) = t ->
  t <> LINENUMBER -> t <> NUMBER -> t <> STRING ->
  t <> VARIABLE -> t <> ARRAYVAR -> t <> STRINGVAR ->
  token (gettoken s) = t /\ here (gettoken s) = here s + 1 /\
  x (gettoken s) = x s /\ xc (gettoken s) = xc s /\ yc (gettoken s) = yc s.
Proof.
  intros Hm N1 N2 N3 N4 N5 N6. unfold gettoken.
  destruct (Z.leb_spec (top s) (here s)); [lia|].
  unfold here_inc, memread. simpl_state.
  apply Z.eqb_neq in Hst. rewrite Hst, Hm.
  apply Z.eqb_neq in N1, N2, N3, N4, N5, N6.
  rewrite N1, N2, N3, N4, N5, N6. cbn [orb]. simpl_state.
  rewrite (to_addr_small (here s + 1)) by lia.
  repeat split; reflexivity.
Qed.

End GetToken.

(** ** What [storetoken] writes, by the token *)

Section StoreToken.

Variable s : state.
Hypothesis Htop : 0 <= top s.
Hypothesis Hroom : top s + 5 < himem s.
Hypothesis H16 : himem s < 65536.

Lemma nomemory_room b : 0 <= b <= 5 -> nomemory b s = false.
Proof. intros Hb. unfold nomemory. apply Z.leb_gt. lia. Qed.

Lemma storetoken_linenumber :
  token s = LINENUMBER ->
  exists zz,
    to_addr zz = to_addr (x s) /\
    storetoken s
    = set_top (top s + 3)
        (set_mem
           (mem_set (mem_set (mem_set (mem s) (top s) LINENUMBER)
                       (top s + 1) (to_schar (zbyte 0 zz)))
              (top s + 2) (to_schar (zbyte 1 zz)))
           (set_z zz s)).
Proof.
  intros Et. exists (z (set_z_a (x s) s)).
  split; [apply (z_a_set_z_a (x s) s)|].
  unfold storetoken. rewrite Et.
  change (LINENUMBER =? LINENUMBER) with true. cbv iota.
  rewrite nomemory_room by (unfold addrsize; lia).
  unfold store_byte, setnumber, addrsize, set_z_a.
  cbn [Z.eqb Pos.eqb]. unfold poke. simpl_state.
  rewrite !(to_addr_small (top s + 1)) by lia.
  rewrite (to_addr_small (top s + 1 + 1)) by lia.
  rewrite (to_addr_small (top s + 1 + 2)) by lia.
  replace (top s + 1 + 1) with (top s + 2) by lia.
  replace (top s + 1 + 2) with (top s + 3) by lia.
  destruct s; reflexivity.
Qed.

Lemma storetoken_number :
  token s = NUMBER ->
  storetoken s
  = set_top (top s + 5)
      (set_mem
         (write_bytes 4 0 (top s + 1) (to_num (x s))
            (mem_set (mem s) (top s) NUMBER))
         (set_z (to_num (x s)) s)).
Proof.
  intros Et. unfold storetoken. rewrite Et.
  change (NUMBER =? LINENUMBER) with false.
  change (NUMBER =? NUMBER) with true. cbv iota.
  rewrite nomemory_room by (unfold numsize; lia).
  unfold store_byte, setnumber, numsize, set_z_i.
  cbn [Z.eqb Pos.eqb]. unfold poke. simpl_state.
  rewrite !(to_addr_small (top s + 1)) by lia.
  rewrite (to_addr_small (top s + 1 + 4)) by lia.
  replace (top s + 1 + 4) with (top s + 5) by lia.
  change (Z.to_nat 4) with 4%nat.
  destruct s; reflexivity.
Qed.

Lemma storetoken_variable :
  token s = VARIABLE \/ token s = ARRAYVAR \/ token s = STRINGVAR ->
  storetoken s
  = set_top (top s + 3)
      (set_mem
         (mem_set (mem_set (mem_set (mem s) (top s) (to_schar (token s)))
                     (top s + 1) (to_schar (xc s)))
            (top s + 2) (to_schar (yc s)))
         s).
Proof.
  intros Ht. unfold storetoken.
  assert (E1 : (token s =? LINENUMBER) = false)
    by (destruct Ht as [-> | [-> | ->]]; reflexivity).
  assert (E2 : (token s =? NUMBER) = false)
    by (destruct Ht as [-> | [-> | ->]]; reflexivity).
  assert (E3 : (token s =? ARRAYVAR) || (token s =? VARIABLE)
               || (token s =? STRINGVAR) = true)
    by (destruct Ht as [-> | [-> | ->]]; reflexivity).
  rewrite E1, E2, E3. rewrite nomemory_room by lia.
  unfold store_byte, poke. simpl_state.
  rewrite !(to_addr_small (top s + 1)) by lia.
  rewrite !(to_addr_small (top s + 1 + 1)) by lia.
  rewrite (to_addr_small (top s + 1 + 1 + 1)) by lia.
  replace (top s + 1 + 1 + 1) with (top s + 3) by lia.
  replace (top s + 1 + 1) with (top s + 2) by lia.
  destruct s; reflexivity.
Qed.

Lemma storetoken_plain :
  token s <> LINENUMBER -> token s <> NUMBER -> token s <> STRING ->
  token s <> VARIABLE -> token s <> ARRAYVAR -> token s <> STRINGVAR ->
  storetoken s
  = set_top (top s + 1)
      (set_mem (mem_set (mem s) (top s) (to_schar (token s))) s).
Proof.
  intros N1 N2 N3 N4 N5 N6. unfold storetoken.
  apply Z.eqb_neq in N1, N2, N3, N4, N5, N6.
  rewrite N1, N2, N3, N4, N5, N6. cbn [orb].
  rewrite nomemory_room by lia.
  unfold store_byte, poke. simpl_state.
  rewrite (to_addr_small (top s + 1)) by lia.
  destruct s; reflexivity.
Qed.

End StoreToken.

Lemma store_get_variable (s : state) :
  st s <> SERUN -> 0 <= top s -> top s + 5 < himem s ->
  himem s < Z.of_nat (length (mem s)) -> himem s < 65536 ->
  is_char (token s) -> is_char (xc s) -> is_char (yc s) ->
  token s = VARIABLE \/ token s = ARRAYVAR \/ token s = STRINGVAR ->
  er (storetoken s) = er s /\
  token (gettoken (set_here (top s) (storetoken s))) = token s /\
  here (gettoken (set_here (top s) (storetoken s))) = top (storetoken s) /\
  top s < top (storetoken s) /\
  xc (gettoken (set_here (top s) (storetoken s))) = xc s /\
  yc (gettoken (set_here (top s) (storetoken s))) = yc s.
Proof.
  intros Hst Htop Hroom Hlen H16 Htk Hxc Hyc Hkind.
  rewrite (storetoken_variable s Htop Hroom H16 Hkind).
  rewrite (to_schar_char _ Htk), (to_schar_char _ Hxc), (to_schar_char _ Hyc).
  set (m1 := mem_set (mem_set (mem_set (mem s) (top s) (token s))
                        (top s + 1) (xc s)) (top s + 2) (yc s)).
  set (s' := set_here (top s) (set_top (top s + 3) (set_mem m1 s))).
  assert (G0 : mem_get m1 (top s) = token s).
  { subst m1. rewrite !mem_get_set_other by lia.
    apply mem_get_set_same. lia. }
  assert (G1 : mem_get m1 (top s + 1) = xc s).
  { subst m1. rewrite mem_get_set_other by lia.
    apply mem_get_set_same. rewrite length_mem_set. lia. }
  assert (G2 : mem_get m1 (top s + 2) = yc s).
  { subst m1. apply mem_get_set_same. rewrite !length_mem_set. lia. }
  assert (A1 : st s' <> SERUN) by exact Hst.
  assert (A2 : 0 <= here s' < top s')
    by (change (0 <= top s < top s + 3); lia).
  assert (A3 : here s' + 5 < 65536) by (change (top s + 5 < 65536); lia).
  destruct (gettoken_at_variable s' A1 A2 A3 (token s) G0 Hkind)
    as (T & Xc & Yc & Hh & _).
  change (mem s') with m1 in Xc, Yc.
  change (here s') with (top s) in Xc, Yc, Hh.
  rewrite G1 in Xc. rewrite G2 in Yc. rewrite T, Xc, Yc, Hh.
  refine (conj eq_refl (conj eq_refl (conj eq_refl (conj _ (conj eq_refl eq_refl))))).
  change (top s < top s + 3). lia.
Qed.

(** A token stored by [storetoken] at [top] is the token that
    [gettoken] reads there, with its number, its line number or its
    variable name, and the cursor then stands at the new [top]. *)
Theorem storetoken_gettoken (s : state) :
  st s <> SERUN -> 0 <= top s -> top s + 5 < himem s ->
  himem s < Z.of_nat (length (mem s)) -> himem s < 65536 ->
  is_char (token s) -> token s <> STRING ->
  is_char (xc s) -> is_char (yc s) ->
  -2147483648 <= x s < 2147483648 ->
  let s1 := storetoken s in
  let s2 := gettoken (set_here (top s) s1) in
  er s1 = er s /\ token s2 = token s /\ here s2 = top s1 /\
  top s < top s1 /\
  (token s = NUMBER -> x s2 = x s) /\
  (token s = LINENUMBER -> x s2 = to_addr (x s)) /\
  (token s = VARIABLE \/ token s = ARRAYVAR \/ token s = STRINGVAR ->
   xc s2 = xc s /\ yc s2 = yc s).
Proof.
  intros Hst Htop Hroom Hlen H16 Htk Hstr Hxc Hyc Hx. cbv zeta.
  destruct (Z.eq_dec (token s) LINENUMBER) as [Eln | Nln].
  - destruct (storetoken_linenumber s Htop Hroom H16 Eln) as (zz & Hzz & E).
    rewrite E. clear E.
    set (m1 := mem_set (mem_set (mem_set (mem s) (top s) LINENUMBER)
                          (top s + 1) (to_schar (zbyte 0 zz)))
                 (top s + 2) (to_schar (zbyte 1 zz))).
    set (s' := set_here (top s) (set_top (top s + 3) (set_mem m1 (set_z zz s)))).
    assert (G0 : mem_get m1 (top s) = LINENUMBER).
    { subst m1. rewrite !mem_get_set_other by lia.
      apply mem_get_set_same. lia. }
    assert (G1 : mem_get m1 (top s + 1) = to_schar (zbyte 0 zz)).
    { subst m1. rewrite mem_get_set_other by lia.
      apply mem_get_set_same. rewrite length_mem_set. lia. }
    assert (G2 : mem_get m1 (top s + 2) = to_schar (zbyte 1 zz)).
    { subst m1. apply mem_get_set_same. rewrite !length_mem_set. lia. }
    assert (A1 : st s' <> SERUN) by exact Hst.
    assert (A2 : 0 <= here s' < top s')
      by (change (0 <= top s < top s + 3); lia).
    assert (A3 : here s' + 5 < 65536) by (change (top s + 5 < 65536); lia).
    destruct (gettoken_at_linenumber s' A1 A2 A3 G0) as (T & X & Hh & _).
    change (mem s') with m1 in X. change (here s') with (top s) in X, Hh.
    rewrite G1, G2, le_value_zbytes, Hzz in X.
    rewrite T, X, Hh, Eln.
    refine (conj eq_refl (conj eq_refl (conj eq_refl (conj _ (conj _ (conj _ _)))))).
    + change (top s < top s + 3). lia.
    + intros H. discriminate H.
    + intros _. reflexivity.
    + intros [H | [H | H]]; discriminate H.
  - destruct (Z.eq_dec (token s) NUMBER) as [Enum | Nnum].
    + rewrite (storetoken_number s Htop Hroom H16 Enum).
      set (m1 := write_bytes 4 0 (top s + 1) (to_num (x s))
                   (mem_set (mem s) (top s) NUMBER)).
      set (s' := set_here (top s)
                   (set_top (top s + 5) (set_mem m1 (set_z (to_num (x s)) s)))).
      assert (G0 : mem_get m1 (top s) = NUMBER).
      { subst m1. rewrite write_bytes4_other by lia.
        apply mem_get_set_same. lia. }
      assert (A1 : st s' <> SERUN) by exact Hst.
      assert (A2 : 0 <= here s' < top s')
        by (change (0 <= top s < top s + 5); lia).
      assert (A3 : here s' + 5 < 65536) by (change (top s + 5 < 65536); lia).
      destruct (gettoken_at_number s' A1 A2 A3 G0) as (T & X & Hh & _).
      change (mem s') with m1 in X. change (here s') with (top s) in X, Hh.
      unfold m1 in X.
      rewrite read_write_bytes in X by (rewrite ?length_mem_set; lia).
      rewrite (to_num_small (x s)) in X by lia.
      rewrite (to_num_small (x s)) in X by lia.
      rewrite T, X, Hh, Enum.
      refine (conj eq_refl (conj eq_refl (conj eq_refl (conj _ (conj _ (conj _ _)))))).
      * change (top s < top s + 5). lia.
      * intros _. reflexivity.
      * intros H. discriminate H.
      * intros [H | [H | H]]; discriminate H.
    + destruct (Z.eq_dec (token s) VARIABLE) as [Ev | Nv];
        [|destruct (Z.eq_dec (token s) ARRAYVAR) as [Ea | Na];
          [|destruct (Z.eq_dec (token s) STRINGVAR) as [Es | Ns]]].
      4: { (* a token of one byte *)
        rewrite (storetoken_plain s Htop Hroom H16 Nln Nnum Hstr Nv Na Ns).
        rewrite (to_schar_char _ Htk).
        set (m1 := mem_set (mem s) (top s) (token s)).
        set (s' := set_here (top s) (set_top (top s + 1) (set_mem m1 s))).
        assert (G0 : mem_get m1 (top s) = token s)
          by (apply mem_get_set_same; lia).
        assert (A1 : st s' <> SERUN) by exact Hst.
        assert (A2 : 0 <= here s' < top s')
          by (change (0 <= top s < top s + 1); lia).
        assert (A3 : here s' + 5 < 65536) by (change (top s + 5 < 65536); lia).
        destruct (gettoken_at_plain s' A1 A2 A3 (token s) G0
                    Nln Nnum Hstr Nv Na Ns) as (T & Hh & _).
        change (here s') with (top s) in Hh. rewrite T, Hh.
        refine (conj eq_refl (conj eq_refl (conj eq_refl (conj _ (conj _ (conj _ _)))))).
        - change (top s < top s + 1). lia.
        - intros H. contradiction.
        - intros H. contradiction.
        - intros [H | [H | H]]; contradiction. }
      all: destruct (store_get_variable s Hst Htop Hroom Hlen H16 Htk Hxc Hyc)
             as (R1 & R2 & R3 & R4 & R5 & R6); [auto|].
      all: refine (conj R1 (conj R2 (conj R3 (conj R4 (conj _ (conj _ _)))))).
      all: try (intros H; congruence).
      all: intros _; split; assumption.
Qed.

Lemma storetoken_gettoken_witness :
  x (gettoken (set_here 0 (storetoken (set_token NUMBER
       (set_x (-1234) bmalloc_example))))) = -1234 /\
  here (gettoken (set_here 0 (storetoken (set_token NUMBER
       (set_x (-1234) bmalloc_example))))) = 5.
Proof.
  destruct (storetoken_gettoken (set_token NUMBER (set_x (-1234) bmalloc_example)))
    as (_ & _ & Hh & _ & Hx & _).
  - vm_compute. discriminate.
  - vm_compute. discriminate.
  - vm_compute. reflexivity.
  - vm_compute. reflexivity.
  - vm_compute. reflexivity.
  - vm_compute. split; [discriminate | reflexivity].
  - vm_compute. discriminate.
  - vm_compute. split; [discriminate | reflexivity].
  - vm_compute. split; [discriminate | reflexivity].
  - vm_compute. split; [discriminate | reflexivity].
  - split.
    + apply Hx. reflexivity.
    + change (top (set_token NUMBER (set_x (-1234) bmalloc_example))) with 0 in Hh.
      rewrite Hh. vm_compute. reflexivity.
Defined.

(** * Lines of the program *)

Lemma findline_loop_post l n : forall s,
  er (findline_loop n l s) = ELINE \/
  (token (findline_loop n l s) = LINENUMBER /\ x (findline_loop n l s) = l /\
   er (findline_loop n l s) = er s).
Proof.
  induction n as [|n IH]; intros s; cbn [findline_loop].
  - left. apply error_er.
  - destruct (here s <? top s); [|left; apply error_er].
    destruct ((token (gettoken s) =? LINENUMBER) && (x (gettoken s) =? l))
      eqn:E.
    + right. apply andb_prop in E. destruct E as (E1 & E2).
      apply Z.eqb_eq in E1, E2.
      rewrite (core_tok_er _ _ (gettoken_core s)). auto.
    + destruct (IH (gettoken s)) as [H | (H1 & H2 & H3)]; [left; exact H|].
      right. rewrite H3, (core_tok_er _ _ (gettoken_core s)). auto.
Qed.

(** [findline] either raises the line error or stands behind the
    line number it was asked for, without an error of its own; it
    never stops at another line. *)
Theorem findline_post (l : Z) (s : state) :
  er (findline l s) = ELINE \/
  (token (findline l s) = LINENUMBER /\ x (findline l s) = l /\
   er (findline l s) = er s).
Proof.
  unfold findline.
  destruct (findline_loop_post l (S (Z.to_nat (top s))) (set_here 0 s))
    as [H | H]; [left | right]; exact H.
Qed.


(** * Instances of the theorems about PEEK, POKE and NEXT *)

Lemma peek_negative_witness :
  er (peek (set_stack [-1024] peek_example)) = ERANGE.
Proof.
  destruct (peek_negative (set_stack [-1024] peek_example) (-1024) [])
    as (H & _).
  - reflexivity.
  - vm_compute. split; [discriminate | reflexivity].
  - vm_compute. discriminate.
  - vm_compute. discriminate.
  - vm_compute. discriminate.
  - exact H.
Defined.

Lemma xpoke_negative_witness :
  er (xpoke_store xpoke_example) = ERANGE /\
  eeprom (xpoke_store xpoke_example) = eeprom xpoke_example.
Proof.
  destruct (xpoke_negative xpoke_example (-1) 7 []) as (H1 & H2 & _).
  - reflexivity.
  - vm_compute. split; [discriminate | reflexivity].
  - vm_compute. discriminate.
  - vm_compute. discriminate.
  - vm_compute. discriminate.
  - split; [exact H1 | exact H2].
Defined.

Lemma xnext_step_zero_witness :
  here (xnext step_zero_example) = 1 /\
  forstack (xnext step_zero_example) = [mkfor 73 0 0 10 0].
Proof.
  assert (E : xnext step_zero_example = nexttoken
    (set_forstack (mkfor 73 0 0 10 0 :: [])
       (set_y 0 (set_x (for_to (mkfor 73 0 0 10 0))
          (set_here (for_here (mkfor 73 0 0 10 0))
             (set_yc (vary (mkfor 73 0 0 10 0))
                (set_xc (varx (mkfor 73 0 0 10 0))
                   (set_forstack [] (nexttoken step_zero_example))))))))).
  { apply (xnext_step_zero step_zero_example (mkfor 73 0 0 10 0) []).
    - reflexivity.
    - vm_compute. reflexivity.
    - reflexivity.
    - reflexivity.
    - vm_compute. discriminate. }
  rewrite E. vm_compute. split; reflexivity.
Defined.


(** * Stored tokens *)





(** * The line of an address *)





Section MyLine.

Variables (f : Z -> Z) (e h : Z).
Hypothesis He : e + 3 < 65536.






End MyLine.


(** * The error handler *)


(** * The end of the program *)

Lemma token_reach_pos c : 1 <= token_reach c.
Proof.
  unfold token_reach, addrsize, numsize.
  repeat match goal with |- context [if ?b then _ else _] => destruct b end;
    lia.
Qed.

(** A token that lies below [top] is read from the bytes below [top]
    alone: a memory that differs at [top] or beyond gives the same
    registers. *)
Lemma gettoken_below_top (s : state) (m' : list Z) :
  st s = SRUN -> 0 <= here s -> top s < 65536 ->
  here s + token_reach (memread (here s) s) <= top s ->
  (forall a, 0 <= a < top s -> mem_get m' a = mem_get (mem s) a) ->
  gettoken (set_mem m' s) = set_mem m' (gettoken s).
Proof.
  intros Hst Hh Ht Hr Hm.
  unfold memread in Hr. rewrite Hst in Hr.
  change (SRUN =? SERUN) with false in Hr. cbv iota in Hr.
  pose proof (token_reach_pos (mem_get (mem s) (here s))) as Hpos.
  unfold gettoken. simpl_state.
  destruct (Z.leb_spec (top s) (here s)); [lia|].
  unfold here_inc, memread. simpl_state. rewrite Hst.
  change (SRUN =? SERUN) with false. cbv iota.
  rewrite (Hm (here s)) by lia.
  set (c := mem_get (mem s) (here s)) in *.
  rewrite (to_addr_small (here s + 1)) by lia.
  unfold token_reach in Hr.
  destruct (c =? LINENUMBER).
  { unfold addrsize in *. unfold getnumber. cbn [Z.eqb Pos.eqb]. simpl_state.
    rewrite (to_addr_small (here s + 1 + 1)) by lia.
    rewrite (Hm (here s + 1)), (Hm (here s + 1 + 1)) by lia.
    reflexivity. }
  destruct (c =? NUMBER).
  { unfold numsize in *. unfold getnumber. cbn [Z.eqb Pos.eqb]. simpl_state.
    change (Z.to_nat 4) with 4%nat. cbn [read_bytes].
    rewrite (to_addr_small (here s + 1 + 1)) by lia.
    rewrite (to_addr_small (here s + 1 + 1 + 1)) by lia.
    rewrite (to_addr_small (here s + 1 + 1 + 1 + 1)) by lia.
    rewrite (Hm (here s + 1)), (Hm (here s + 1 + 1)),
      (Hm (here s + 1 + 1 + 1)), (Hm (here s + 1 + 1 + 1 + 1)) by lia.
    reflexivity. }
  destruct ((c =? ARRAYVAR) || (c =? VARIABLE) || (c =? STRINGVAR)).
  { simpl_state. rewrite !(to_addr_small (here s + 1 + 1)) by lia.
    rewrite (Hm (here s + 1)), (Hm (here s + 1 + 1)) by lia.
    reflexivity. }
  destruct (c =? STRING).
  { simpl_state. rewrite (Hm (here s + 1)) by lia. reflexivity. }
  reflexivity.
Qed.

(** C10. In run mode with the cursor at or beyond [top], reading the
    next token yields EOL and changes no other register, whatever the
    memory and the EEPROM hold, and the run loop stops there.  With
    the cursor below [top] the token is the byte at the cursor: the
    code of a token is never read at or beyond [top].  The bytes behind
    the code are read without a test; for a program in memory they lie
    below [top] when the token does, and then no byte at [top] or
    beyond has a part in the result. *)
Theorem nexttoken_at_end (s : state) :
  st s = SRUN \/ st s = SERUN ->
  (top s <= here s ->
   nexttoken s = set_token EOL s /\
   (forall m ee, nexttoken (set_eeprom ee (set_mem m s))
                 = set_eeprom ee (set_mem m (nexttoken s))) /\
   here (nexttoken s) = here s /\
   forall n statement, statementloop (S n) statement s = set_st SINT s) /\
  (here s < top s -> token (nexttoken s) = memread (here s) s) /\
  (st s = SRUN -> 0 <= here s -> top s < 65536 ->
   here s + token_reach (memread (here s) s) <= top s ->
   forall m',
     (forall a, 0 <= a < top s -> mem_get m' a = mem_get (mem s) a) ->
     nexttoken (set_mem m' s) = set_mem m' (nexttoken s)).
Proof.
  intros Hst.
  assert (Hrun : (st s =? SRUN) || (st s =? SERUN) = true)
    by (destruct Hst as [-> | ->]; reflexivity).
  split; [|split; [apply nexttoken_reads_below_top; exact Hst|]].
  - intros Hend.
    assert (Hn : nexttoken s = set_token EOL s).
    { unfold nexttoken, gettoken. rewrite Hrun.
      destruct (Z.leb_spec (top s) (here s)); [reflexivity|lia]. }
    refine (conj Hn (conj _ (conj _ _))).
    + intros m ee. rewrite Hn. unfold nexttoken, gettoken. simpl_state.
      rewrite Hrun. destruct (Z.leb_spec (top s) (here s)); [reflexivity|lia].
    + rewrite Hn. reflexivity.
    + intros n statement. cbn [statementloop].
      destruct (Z.ltb_spec (here s) (top s)); [lia|reflexivity].
  - intros Hs Hh Ht Hr m' Hm. unfold nexttoken. simpl_state. rewrite Hrun.
    apply gettoken_below_top; assumption.
Qed.

(** C10, the counterexample.  A program of one byte, the code of a
    number: reading the token takes the value from the four bytes
    beyond [top] and leaves the cursor beyond [top]; with other bytes
    there the value is another. *)
Lemma nexttoken_reads_beyond_top :
  st cut_token_example = SRUN /\ here cut_token_example = 0 /\
  top cut_token_example = 1 /\
  token (nexttoken cut_token_example) = NUMBER /\
  x (nexttoken cut_token_example)
  = to_num (le_value (read_bytes 4 1 (mem_get (mem cut_token_example)))) /\
  x (nexttoken cut_token_example) = 67305985 /\
  here (nexttoken cut_token_example) = 5 /\
  mem_get (mem (set_mem [NUMBER] cut_token_example)) 0
  = mem_get (mem cut_token_example) 0 /\
  x (nexttoken (set_mem [NUMBER] cut_token_example)) = 0.
Proof. vm_compute. repeat split. Qed.


Lemma nexttoken_at_end_witness :
  nexttoken error_example = set_token EOL error_example /\
  token (nexttoken error_first_example) = NUMBER /\
  nexttoken (set_mem (firstn 18 (mem error_first_example)) error_first_example)
  = set_mem (firstn 18 (mem error_first_example))
      (nexttoken error_first_example).
Proof.
  split.
  - assert (H1 : st error_example = SRUN \/ st error_example = SERUN)
      by (left; vm_compute; reflexivity).
    assert (H2 : top error_example <= here error_example)
      by (vm_compute; discriminate).
    destruct (nexttoken_at_end error_example H1) as (Hend & _).
    destruct (Hend H2) as (H & _). exact H.
  - assert (H1 : st error_first_example = SRUN \/ st error_first_example = SERUN)
      by (left; vm_compute; reflexivity).
    destruct (nexttoken_at_end error_first_example H1) as (_ & Hcode & Hlocal).
    split.
    + rewrite Hcode by (vm_compute; reflexivity). vm_compute. reflexivity.
    + apply Hlocal.
      * vm_compute; reflexivity.
      * vm_compute; discriminate.
      * vm_compute; reflexivity.
      * vm_compute; discriminate.
      * intros a Ha. change (top error_first_example) with 18 in Ha.
        assert (Hc : a = 0 \/ a = 1 \/ a = 2 \/ a = 3 \/ a = 4 \/ a = 5 \/
                     a = 6 \/ a = 7 \/ a = 8 \/ a = 9 \/ a = 10 \/ a = 11 \/
                     a = 12 \/ a = 13 \/ a = 14 \/ a = 15 \/ a = 16 \/ a = 17)
          by lia.
        repeat (destruct Hc as [-> | Hc]; [vm_compute; reflexivity|]).
        subst a. vm_compute; reflexivity.
Defined.
